(** * django-sendgrid-v5: the message-to-payload transformation

    A shallow embedding of [sendgrid_backend/mail.py] (class
    [SendgridBackend]) together with the properties of its payload
    builder [_build_sg_mail] and of [send_messages].

    Conventions.
    - A Python [str] that the code compares, measures or cuts is a
      Rocq [string] with one character per code point; this covers
      the code points below 256, on which [len] and [lower] are
      written out.
    - The text of a tuple attachment, the one [str] the code encodes,
      is a list of Unicode scalar values, every code point from
      U+0000 to U+10FFFF but the surrogates, which [encode] refuses.
    - A Python [bytes] is a [list byte].
    - A Python [dict] is an association list in insertion order.
    - An attribute probed with [hasattr] is an [option] field.
    - The helpers of the provider's client library ([Email],
      [mimetypes.guess_extension], [email.utils.parseaddr],
      [uuid.uuid4], the HTTP client) are parameters of the sections
      that use them. *)

From Stdlib Require Import List Strings.String Strings.Ascii Strings.Byte NArith ZArith Bool Arith Lia Eqdep_dec.
Import ListNotations.

#[local] Set Warnings "-notation-for-abbreviation".

Local Open Scope string_scope.
Local Open Scope list_scope.

(** ** Python strings *)

Module Text.

(** [str.lower] on one code point below 256: the ASCII capitals and
    the Latin-1 capitals U+00C0..U+00DE (without U+00D7) move up by
    32, everything else stays. *)
Definition lower_char (c : ascii) : ascii :=
  let n := N_of_ascii c in
  if ((65 <=? n) && (n <=? 90))%N then ascii_of_N (n + 32)
  else if ((192 <=? n) && (n <=? 222) && negb (n =? 215))%N
       then ascii_of_N (n + 32)
       else c.

Fixpoint lower (s : string) : string :=
  match s with
  | EmptyString => EmptyString
  | String c t => String (lower_char c) (lower t)
  end.

(** [s.replace(chr c, "")] *)
Fixpoint remove_char (c : ascii) (s : string) : string :=
  match s with
  | EmptyString => EmptyString
  | String d t =>
      if Ascii.eqb d c then remove_char c t else String d (remove_char c t)
  end.

Definition newline : ascii := ascii_of_N 10.

Definition startswith (s : string) (c : ascii) : bool :=
  match s with
  | String d _ => Ascii.eqb d c
  | EmptyString => false
  end.

Fixpoint endswith (s : string) (c : ascii) : bool :=
  match s with
  | EmptyString => false
  | String d EmptyString => Ascii.eqb d c
  | String _ t => endswith t c
  end.

Fixpoint drop_last (s : string) : string :=
  match s with
  | EmptyString => EmptyString
  | String _ EmptyString => EmptyString
  | String c t => String c (drop_last t)
  end.

(** The slice [s[1:-1]]. *)
Definition slice_1_m1 (s : string) : string :=
  match s with
  | EmptyString => EmptyString
  | String _ t => drop_last t
  end.

(** Truthiness of a [str]. *)
Definition nonempty (s : string) : bool :=
  match s with
  | EmptyString => false
  | String _ _ => true
  end.

Definition byte_of_N (n : N) : byte :=
  match Byte.of_N n with
  | Some b => b
  | None => x00
  end.

(** A Unicode scalar value: below U+D800, or above U+DFFF and at most
    U+10FFFF. *)
Definition is_scalar (n : N) : bool :=
  ((n <? 55296) || ((57343 <? n) && (n <? 1114112)))%N.

Record codepoint : Type := mkCodepoint {
  cp_value : N;
  cp_scalar : is_scalar cp_value = true
}.

Definition codepoint_of_N (n : N) : option codepoint :=
  (if is_scalar n as b return (is_scalar n = b -> option codepoint)
   then fun H => Some (mkCodepoint n H)
   else fun _ => None) eq_refl.

(** [chr(n)], with U+FFFD for what is no scalar value. *)
Definition chr (n : N) : codepoint :=
  match codepoint_of_N n with
  | Some c => c
  | None => mkCodepoint 65533 eq_refl
  end.

(** The text with the characters of a [string]. *)
Fixpoint codepoints (s : string) : list codepoint :=
  match s with
  | EmptyString => []
  | String c t => chr (N_of_ascii c) :: codepoints t
  end.

(** [s.encode('utf-8')], RFC 3629: one byte below U+0080, two below
    U+0800, three below U+10000, four from there on. *)
Definition utf8_char (c : codepoint) : list byte :=
  let n := cp_value c in
  if (n <? 128)%N then [byte_of_N n]
  else if (n <? 2048)%N then
    [byte_of_N (192 + n / 64); byte_of_N (128 + n mod 64)]
  else if (n <? 65536)%N then
    [byte_of_N (224 + n / 4096); byte_of_N (128 + (n / 64) mod 64);
     byte_of_N (128 + n mod 64)]
  else
    [byte_of_N (240 + n / 262144); byte_of_N (128 + (n / 4096) mod 64);
     byte_of_N (128 + (n / 64) mod 64); byte_of_N (128 + n mod 64)].

Fixpoint encode_utf8 (s : list codepoint) : list byte :=
  match s with
  | [] => []
  | c :: t => utf8_char c ++ encode_utf8 t
  end.

(** The payload of a continuation byte 10xxxxxx. *)
Definition continuation (b : byte) : option N :=
  let y := Byte.to_N b in
  if ((128 <=? y) && (y <? 192))%N then Some (y - 128)%N else None.

(** The scalar value [n] before the rest of a decoded text, when [n]
    is a scalar value that needs the length it came in. *)
Definition emit (n least : N) (rest : option (list codepoint))
  : option (list codepoint) :=
  if (least <=? n)%N then
    match codepoint_of_N n, rest with
    | Some c, Some t => Some (c :: t)
    | _, _ => None
    end
  else None.

(** [bs.decode('utf-8')], RFC 3629, strict: [None] for a stray or
    missing continuation byte, an overlong form, a surrogate or a
    value above U+10FFFF. *)
Fixpoint decode_utf8 (bs : list byte) : option (list codepoint) :=
  match bs with
  | [] => Some []
  | b0 :: r0 =>
      let x := Byte.to_N b0 in
      if (x <? 128)%N then emit x 0 (decode_utf8 r0)
      else if (x <? 192)%N then None
      else if (x <? 224)%N then
        match r0 with
        | b1 :: r1 =>
            match continuation b1 with
            | Some y1 => emit ((x - 192) * 64 + y1) 128 (decode_utf8 r1)
            | None => None
            end
        | _ => None
        end
      else if (x <? 240)%N then
        match r0 with
        | b1 :: b2 :: r2 =>
            match continuation b1, continuation b2 with
            | Some y1, Some y2 =>
                emit ((x - 224) * 4096 + y1 * 64 + y2) 2048 (decode_utf8 r2)
            | _, _ => None
            end
        | _ => None
        end
      else if (x <? 248)%N then
        match r0 with
        | b1 :: b2 :: b3 :: r3 =>
            match continuation b1, continuation b2, continuation b3 with
            | Some y1, Some y2, Some y3 =>
                emit ((x - 240) * 262144 + y1 * 4096 + y2 * 64 + y3) 65536
                  (decode_utf8 r3)
            | _, _, _ => None
            end
        | _ => None
        end
      else None
  end.

End Text.

(** ** Base64 (RFC 4648, standard alphabet, with padding) *)

Module Base64.

Definition alphabet : string :=
  "ABCDEFGHIJKLMNOPQRSTUVWXYZabcdefghijklmnopqrstuvwxyz0123456789+/".

Definition pad : ascii := "="%char.

Definition char_of (n : N) : ascii :=
  match String.get (N.to_nat n) alphabet with
  | Some c => c
  | None => pad
  end.

Fixpoint index_from (i : N) (c : ascii) (s : string) : option N :=
  match s with
  | EmptyString => None
  | String d t => if Ascii.eqb d c then Some i else index_from (N.succ i) c t
  end.

Definition value_of (c : ascii) : option N := index_from 0 c alphabet.

(** [base64.b64encode(bs).decode()]: three bytes give four
    characters; a rest of one or two bytes is padded with '='. *)
Fixpoint b64encode (bs : list byte) : string :=
  match bs with
  | [] => EmptyString
  | [a] =>
      let x := Byte.to_N a in
      String (char_of (x / 4))
        (String (char_of ((x mod 4) * 16))
           (String pad (String pad EmptyString)))
  | [a; b] =>
      let x := Byte.to_N a in
      let y := Byte.to_N b in
      String (char_of (x / 4))
        (String (char_of ((x mod 4) * 16 + y / 16))
           (String (char_of ((y mod 16) * 4))
              (String pad EmptyString)))
  | a :: b :: c :: rest =>
      let x := Byte.to_N a in
      let y := Byte.to_N b in
      let z := Byte.to_N c in
      String (char_of (x / 4))
        (String (char_of ((x mod 4) * 16 + y / 16))
           (String (char_of ((y mod 16) * 4 + z / 64))
              (String (char_of (z mod 64)) (b64encode rest))))
  end%N.

Definition is_empty (s : string) : bool :=
  match s with
  | EmptyString => true
  | String _ _ => false
  end.

(** The decoder: groups of four characters, padding only in the last
    group. *)
Fixpoint b64decode (s : string) : option (list byte) :=
  match s with
  | EmptyString => Some []
  | String c0 (String c1 (String c2 (String c3 rest))) =>
      match value_of c0, value_of c1 with
      | Some v0, Some v1 =>
          let b0 := Text.byte_of_N (v0 * 4 + v1 / 16) in
          if Ascii.eqb c2 pad then
            if Ascii.eqb c3 pad && is_empty rest then Some [b0] else None
          else
            match value_of c2 with
            | Some v2 =>
                let b1 := Text.byte_of_N ((v1 mod 16) * 16 + v2 / 4) in
                if Ascii.eqb c3 pad then
                  if is_empty rest then Some [b0; b1] else None
                else
                  match value_of c3, b64decode rest with
                  | Some v3, Some tl =>
                      Some (b0 :: b1
                              :: Text.byte_of_N ((v2 mod 4) * 64 + v3) :: tl)
                  | _, _ => None
                  end
            | None => None
            end
      | _, _ => None
      end
  | _ => None
  end%N.

End Base64.

(** ** Python values and the provider's helper objects *)

(** The dynamically typed values the builder passes through or
    inspects with [isinstance]. *)
#[local] Set Warnings "-register-all".
Inductive pyval : Type :=
| PyNone
| PyBool (b : bool)
| PyInt (z : Z)
| PyStr (s : string)
| PyBytes (bs : list byte)
| PyList (xs : list pyval).

(** [isinstance(v, basestring)], with [basestring = str] on Python 3. *)
Definition is_basestring (v : pyval) : bool :=
  match v with
  | PyStr _ => true
  | _ => false
  end.

(** [isinstance(v, int)]; [bool] is a subclass of [int]. *)
Definition is_int (v : pyval) : bool :=
  match v with
  | PyInt _ | PyBool _ => true
  | _ => false
  end.

(** A [dict] with [str] keys, in insertion order. *)
Definition dict (V : Type) : Type := list (string * V).

Fixpoint dict_get {V : Type} (k : string) (d : dict V) : option V :=
  match d with
  | [] => None
  | (k', v) :: t => if String.eqb k' k then Some v else dict_get k t
  end.

(** [d[k] = v]: an existing key keeps its place, a new one goes last. *)
Fixpoint dict_set {V : Type} (k : string) (v : V) (d : dict V) : dict V :=
  match d with
  | [] => [(k, v)]
  | (k', v') :: t =>
      if String.eqb k' k then (k, v) :: t else (k', v') :: dict_set k v t
  end.

(** What a reply-to or an address argument can be: [None], one
    address, or a list of addresses. *)
Inductive address_value : Type :=
| AddrNone
| AddrStr (s : string)
| AddrList (l : list string).

(** Truthiness ([if msg.reply_to]). *)
Definition truthy (a : address_value) : bool :=
  match a with
  | AddrNone => false
  | AddrStr s => Text.nonempty s
  | AddrList [] => false
  | AddrList (_ :: _) => true
  end.

(** The helper objects, as the fields [get()] serialises; a field that
    is [None] is left out of the payload. *)
Record EmailObj : Type := mkEmail {
  email : option string;
  name : option string
}.

Record Header : Type := mkHeader { header_key : string; header_value : pyval }.
Record CustomArg : Type := mkCustomArg { arg_key : string; arg_value : pyval }.
Record Substitution : Type :=
  mkSubstitution { sub_key : string; sub_value : pyval }.
Record Content : Type := mkContent { content_type : string; content_value : string }.
Record Category : Type := mkCategory { category_name : string }.

Record Attachment : Type := mkAttachment {
  filename : option string;
  content : option string;
  type : option string;
  content_id : option string;
  disposition : option string
}.

Record ASM : Type := mkASM {
  group_id : pyval;
  groups_to_display : option pyval
}.

Record Personalization : Type := mkPersonalization {
  tos : list EmailObj;
  ccs : list EmailObj;
  bccs : list EmailObj;
  p_subject : string;
  headers : list Header;
  p_substitutions : list Substitution;
  p_custom_args : list CustomArg;
  p_dynamic_template_data : option (dict pyval);
  p_send_at : option pyval
}.

Record MailSettings : Type := mkMailSettings { sandbox_mode_enable : bool }.

Record TrackingSettings : Type := mkTrackingSettings {
  open_tracking : bool;
  click_tracking : bool;
  subscription_tracking : bool
}.

(** The [Mail] object at [mail.get()], that is the payload. *)
Record Mail : Type := mkMail {
  m_from_email : EmailObj;
  m_subject : string;
  personalizations : list Personalization;
  contents : list Content;
  m_attachments : list Attachment;
  m_template_id : option pyval;
  m_categories : list Category;
  m_asm : option ASM;
  m_ip_pool_name : option string;
  mail_settings : MailSettings;
  tracking_settings : TrackingSettings;
  m_reply_to : option EmailObj
}.

Definition Payload : Type := Mail.

(** ** The source message *)

(** A structured attachment ([MIMEBase]) through the accessors the
    builder calls. *)
Record MIMEBase : Type := mkMIMEBase {
  get_filename : option string;
  get_content_type : string;
  get_payload : string;
  get_Content_ID : option string
}.

Inductive attachment_content : Type :=
| TextContent (s : list Text.codepoint)
| BytesContent (bs : list byte).

Inductive attachment_source : Type :=
| MIMEPart (part : MIMEBase)
| TuplePart (fname : option string) (body : attachment_content)
            (mimetype : option string).

(** [alternatives] is [Some] exactly for an instance of
    [EmailMultiAlternatives]; each alternative is (content, mimetype). *)
Record EmailMessage : Type := mkEmailMessage {
  from_email : string;
  to : list string;
  cc : list string;
  bcc : list string;
  subject : string;
  body : string;
  content_subtype : string;
  alternatives : option (list (string * string));
  attachments : list attachment_source;
  extra_headers : dict pyval;
  custom_args : option (dict pyval);
  template_id : option pyval;
  substitutions : option (dict pyval);
  dynamic_template_data : option (dict pyval);
  ip_pool_name : option pyval;
  send_at : option pyval;
  reply_to : option address_value;
  categories : option (list string);
  asm : option (dict pyval)
}.

Definition set_body (b : string) (msg : EmailMessage) : EmailMessage :=
  {| from_email := from_email msg; to := to msg; cc := cc msg; bcc := bcc msg;
     subject := subject msg; body := b;
     content_subtype := content_subtype msg;
     alternatives := alternatives msg; attachments := attachments msg;
     extra_headers := extra_headers msg; custom_args := custom_args msg;
     template_id := template_id msg; substitutions := substitutions msg;
     dynamic_template_data := dynamic_template_data msg;
     ip_pool_name := ip_pool_name msg; send_at := send_at msg;
     reply_to := reply_to msg; categories := categories msg; asm := asm msg |}.

Definition set_extra_headers (h : dict pyval) (msg : EmailMessage)
  : EmailMessage :=
  {| from_email := from_email msg; to := to msg; cc := cc msg; bcc := bcc msg;
     subject := subject msg; body := body msg;
     content_subtype := content_subtype msg;
     alternatives := alternatives msg; attachments := attachments msg;
     extra_headers := h; custom_args := custom_args msg;
     template_id := template_id msg; substitutions := substitutions msg;
     dynamic_template_data := dynamic_template_data msg;
     ip_pool_name := ip_pool_name msg; send_at := send_at msg;
     reply_to := reply_to msg; categories := categories msg; asm := asm msg |}.

Definition set_reply_to (r : option address_value) (msg : EmailMessage)
  : EmailMessage :=
  {| from_email := from_email msg; to := to msg; cc := cc msg; bcc := bcc msg;
     subject := subject msg; body := body msg;
     content_subtype := content_subtype msg;
     alternatives := alternatives msg; attachments := attachments msg;
     extra_headers := extra_headers msg; custom_args := custom_args msg;
     template_id := template_id msg; substitutions := substitutions msg;
     dynamic_template_data := dynamic_template_data msg;
     ip_pool_name := ip_pool_name msg; send_at := send_at msg;
     reply_to := r; categories := categories msg; asm := asm msg |}.

(** ** Exceptions and the builder's monad *)

(** The [ValueError]s of [_build_sg_mail], by raise site. *)
Inductive value_error : Type :=
| PoolNameNotString
| PoolNameLength (len : nat)
| SendAtNotInt
| ReplyToMismatch
| ReplyToTooMany.

Inductive exn : Type :=
| ValueError (why : value_error)
| KeyError (key : string)
| HTTPError.

(** The error taxonomy of the specification. *)
Definition InvalidPoolName (e : exn) : Prop :=
  e = ValueError PoolNameNotString \/ exists n, e = ValueError (PoolNameLength n).
Definition InvalidSendAt : exn := ValueError SendAtNotInt.
Definition ReplyToConflict : exn := ValueError ReplyToMismatch.
Definition TooManyReplyTo : exn := ValueError ReplyToTooMany.
Definition MissingSubscriptionGroup : exn := KeyError "group_id".

Inductive result (A : Type) : Type :=
| Ok (a : A)
| Raise (e : exn).
Arguments Ok {A} a.
Arguments Raise {A} e.

(** The state a call of the builder can change: the message object it
    was given, and how many random tokens have been drawn. *)
Record world : Type := mkWorld { w_msg : EmailMessage; w_drawn : nat }.

Definition M (A : Type) : Type := world -> world * result A.

Definition ret {A : Type} (a : A) : M A := fun w => (w, Ok a).

Definition bind {A B : Type} (m : M A) (k : A -> M B) : M B :=
  fun w =>
    match m w with
    | (w', Ok a) => k a w'
    | (w', Raise e) => (w', Raise e)
    end.

Definition get_msg : M EmailMessage := fun w => (w, Ok (w_msg w)).

Definition put_msg (msg : EmailMessage) : M unit :=
  fun w => ({| w_msg := msg; w_drawn := w_drawn w |}, Ok tt).

(** A step that touches neither the message nor the tokens. *)
Definition lift {A : Type} (r : result A) : M A := fun w => (w, r).

(** Draw the next random token: its number in the run. *)
Definition draw : M nat :=
  fun w => ({| w_msg := w_msg w; w_drawn := S (w_drawn w) |}, Ok (w_drawn w)).

Declare Scope py_scope.
Delimit Scope py_scope with py.
Notation "x <- m ;; k" := (bind m (fun x => k))
  (at level 61, m at next level, right associativity) : py_scope.
Notation "m ;;; k" := (bind m (fun _ => k))
  (at level 61, right associativity) : py_scope.

(** ** The backend *)

(** [SendgridBackend] after [__init__], with the echo stream off. *)
Record SendgridBackend : Type := mkBackend {
  sandbox_mode : bool;
  track_email : bool;
  track_click : bool;
  subscription : bool;
  fail_silently : bool
}.

(** The transport's answer: status code and the [x-message-id] header. *)
Record Response : Type := mkResponse {
  status_code : Z;
  x_message_id : option string
}.

Section Builder.

Local Open Scope py_scope.

(** [email.utils.parseaddr]: (display name, address). *)
Variable parseaddr : address_value -> string * string.
(** The helper's constructor [Email(email, name=None)]. *)
Variable Email : pyval -> option string -> EmailObj.
(** [mimetypes.guess_extension]. *)
Variable guess_extension : string -> option string.
(** [uuid.uuid4().hex] of the n-th draw. *)
Variable uuid4_hex : nat -> string.

Variable self : SendgridBackend.

Definition _parse_email_address (address : address_value)
  : string * option string :=
  let '(nm, addr) := parseaddr address in
  (addr, if Text.nonempty nm then Some nm else None).

(** [Email] applied to the pair [self._parse_email_address(address)]
    returns, unpacked. *)
Definition parsed_email (address : address_value) : EmailObj :=
  let '(addr, nm) := _parse_email_address address in
  Email (PyStr addr) nm.

(** Lines 150-154: one turn of the loop over [extra_headers], on
    [mail.reply_to] and the personalization's headers. *)
Definition header_step (st : option EmailObj * list Header)
           (kv : string * pyval) : option EmailObj * list Header :=
  let '(k, v) := kv in
  if String.eqb (Text.lower k) "reply-to"
  then (Some (Email v None), snd st)
  else (fst st, snd st ++ [mkHeader k v]).

Definition header_loop (hs : dict pyval) : option EmailObj * list Header :=
  fold_left header_step hs (None, []).

(** Lines 165-178. *)
Definition pool_name_step (msg : EmailMessage) : result (option string) :=
  match ip_pool_name msg with
  | None => Ok None
  | Some v =>
      match v with
      | PyStr s =>
          if ((2 <=? String.length s) && (String.length s <=? 64))%nat
          then Ok (Some s)
          else Raise (ValueError (PoolNameLength (String.length s)))
      | _ => Raise (ValueError PoolNameNotString)
      end
  end.

(** Lines 181-187. *)
Definition send_at_step (msg : EmailMessage) : result (option pyval) :=
  match send_at msg with
  | None => Ok None
  | Some v =>
      if is_int v then Ok (Some v) else Raise (ValueError SendAtNotInt)
  end.

Definition option_eqb (a b : option string) : bool :=
  match a, b with
  | None, None => true
  | Some x, Some y => String.eqb x y
  | _, _ => false
  end.

(** The comparison of line 195. *)
Definition same_identity (a b : EmailObj) : bool :=
  option_eqb (email a) (email b) && option_eqb (name a) (name b).

(** Lines 191-204; [current] is [mail.reply_to] as the header loop
    left it.  An [Email] object defines no truth value of its own, so
    [if mail.reply_to] asks whether it was set. *)
Definition reply_to_conflict (field : address_value)
           (current : option EmailObj) : bool :=
  match current with
  | Some from_header => negb (same_identity (parsed_email field) from_header)
  | None => false
  end.

Definition reply_to_step (msg : EmailMessage) (current : option EmailObj)
  : result (option EmailObj) :=
  match reply_to msg with
  | None => Ok current
  | Some field =>
      if truthy field then
        if reply_to_conflict field current
        then Raise (ValueError ReplyToMismatch)
        else
          match field with
          | AddrStr _ => Ok (Some (parsed_email field))
          | AddrList l =>
              if (1 <? List.length l)%nat
              then Raise (ValueError ReplyToTooMany)
              else
                match l with
                | first :: _ => Ok (Some (parsed_email (AddrStr first)))
                | [] => Ok current
                end
          | AddrNone => Ok current
          end
      else Ok current
  end.

(** ["{0}".format(ext)] for an extension that may be [None]. *)
Definition format_ext (ext : option string) : string :=
  match ext with
  | Some e => e
  | None => "None"
  end.

Definition falsy_str (s : option string) : bool :=
  match s with
  | None => true
  | Some t => negb (Text.nonempty t)
  end.

(** Lines 209-224. *)
Definition mime_attachment (part : MIMEBase) : M Attachment :=
  fname <-
    (if falsy_str (get_filename part)
     then
       let ext := guess_extension (get_content_type part) in
       n <- draw ;;
       ret (Some ("part-" ++ uuid4_hex n ++ format_ext ext)%string)
     else ret (get_filename part)) ;;
  let payload := Text.remove_char Text.newline (get_payload part) in
  if falsy_str (get_Content_ID part)
  then ret (mkAttachment fname (Some payload)
              (Some (get_content_type part)) None None)
  else
    let cid :=
      match get_Content_ID part with
      | Some c =>
          if Text.startswith c "<" && Text.endswith c ">"
          then Some (Text.slice_1_m1 c)
          else Some c
      | None => None
      end in
    ret (mkAttachment fname (Some payload)
           (Some (get_content_type part)) cid (Some "inline")).

(** Lines 227-235. *)
Definition tuple_attachment (fname : option string)
           (body : attachment_content) (mimetype : option string)
  : Attachment :=
  let bytes :=
    match body with
    | TextContent s => Text.encode_utf8 s
    | BytesContent bs => bs
    end in
  mkAttachment fname (Some (Base64.b64encode bytes)) mimetype None None.

Definition build_attachment (attch : attachment_source) : M Attachment :=
  match attch with
  | MIMEPart part => mime_attachment part
  | TuplePart fname body mimetype =>
      ret (tuple_attachment fname body mimetype)
  end.

(** Lines 206-237: the loop, appending to [mail.attachments]. *)
Fixpoint build_attachments (l : list attachment_source)
  : M (list Attachment) :=
  match l with
  | [] => ret []
  | attch :: rest =>
      a <- build_attachment attch ;;
      tl <- build_attachments rest ;;
      ret (a :: tl)
  end.

(** Line 239: the assignment to [msg.body]. *)
Definition coerce_body (b : string) : string :=
  if String.eqb b "" then " " else b.

(** Lines 241-250, on the message after line 239. *)
Definition build_contents (msg : EmailMessage) : list Content :=
  match alternatives msg with
  | Some alts =>
      mkContent "text/plain" (body msg)
        :: map (fun alt => mkContent (snd alt) (fst alt))
             (filter (fun alt => String.eqb (snd alt) "text/html") alts)
  | None =>
      if String.eqb (content_subtype msg) "html"
      then [mkContent "text/plain" " "; mkContent "text/html" (body msg)]
      else [mkContent "text/plain" (body msg)]
  end.

(** Lines 256-263. *)
Definition asm_step (msg : EmailMessage) : result (option ASM) :=
  match asm msg with
  | None => Ok None
  | Some d =>
      match dict_get "group_id" d with
      | None => Raise (KeyError "group_id")
      | Some g => Ok (Some (mkASM g (dict_get "groups_to_display" d)))
      end
  end.

Definition items_to {A : Type} (mk : string -> pyval -> A)
           (d : option (dict pyval)) : list A :=
  match d with
  | Some kvs => map (fun kv => mk (fst kv) (snd kv)) kvs
  | None => []
  end.

(** [_build_sg_mail]: each attribute of [mail] and [personalization]
    is a local value, bound where the code assigns it, and the
    objects are put together where the code is done with them. *)
Definition _build_sg_mail : M Payload :=
  msg <- get_msg ;;
  let mail_from_email := parsed_email (AddrStr (from_email msg)) in
  let mail_subject := subject msg in
  let p_to := map (fun addr => parsed_email (AddrStr addr)) (to msg) in
  let p_cc := map (fun addr => parsed_email (AddrStr addr)) (cc msg) in
  let p_bcc := map (fun addr => parsed_email (AddrStr addr)) (bcc msg) in
  let p_args := items_to mkCustomArg (custom_args msg) in
  let '(mail_reply_to, p_headers) := header_loop (extra_headers msg) in
  let mail_template_id := template_id msg in
  let p_subs :=
    match template_id msg with
    | Some _ => items_to mkSubstitution (substitutions msg)
    | None => []
    end in
  let p_dynamic :=
    match template_id msg with
    | Some _ => dynamic_template_data msg
    | None => None
    end in
  mail_ip_pool_name <- lift (pool_name_step msg) ;;
  p_send <- lift (send_at_step msg) ;;
  let personalization :=
    mkPersonalization p_to p_cc p_bcc (subject msg) p_headers p_subs p_args
      p_dynamic p_send in
  mail_reply_to <- lift (reply_to_step msg mail_reply_to) ;;
  mail_attachments <- build_attachments (attachments msg) ;;
  put_msg (set_body (coerce_body (body msg)) msg) ;;;
  msg <- get_msg ;;
  let mail_contents := build_contents msg in
  let mail_categories :=
    match categories msg with
    | Some cats => map mkCategory cats
    | None => []
    end in
  mail_asm <- lift (asm_step msg) ;;
  ret (mkMail mail_from_email mail_subject [personalization] mail_contents
         mail_attachments mail_template_id mail_categories mail_asm
         mail_ip_pool_name
         (mkMailSettings (sandbox_mode self))
         (mkTrackingSettings (track_email self) (track_click self)
            (subscription self))
         mail_reply_to).

(** The HTTP client: the answer to the n-th request, [None] when it
    raises [HTTPError]. *)
Variable post : nat -> Payload -> option Response.

(** Lines 112-115. *)
Definition record_response (resp : Response) (msg : EmailMessage)
  : EmailMessage :=
  let h := dict_set "status" (PyInt (status_code resp)) (extra_headers msg) in
  let h' :=
    match x_message_id resp with
    | Some x =>
        if Text.nonempty x then dict_set "message_id" (PyStr x) h else h
    | None => h
    end in
  set_extra_headers h' msg.

(** Lines 106-120: the messages as the call leaves them, and the
    count or the exception that escapes. *)
Fixpoint send_loop (msgs : list EmailMessage) (drawn calls success : nat)
  : list EmailMessage * result nat :=
  match msgs with
  | [] => ([], Ok success)
  | msg :: rest =>
      match _build_sg_mail (mkWorld msg drawn) with
      | (w, Raise e) => (w_msg w :: rest, Raise e)
      | (w, Ok data) =>
          match post calls data with
          | Some resp =>
              let '(rest', r) :=
                send_loop rest (w_drawn w) (S calls) (S success) in
              (record_response resp (w_msg w) :: rest', r)
          | None =>
              if fail_silently self
              then
                let '(rest', r) :=
                  send_loop rest (w_drawn w) (S calls) success in
                (w_msg w :: rest', r)
              else (w_msg w :: rest, Raise HTTPError)
          end
      end
  end.

Definition send_messages (email_messages : list EmailMessage)
  : list EmailMessage * result nat :=
  send_loop email_messages 0 0 0.

End Builder.

(** ** The validated fields, as predicates on the message *)

(** A pool name the check of lines 166-177 lets through. *)
Definition pool_name_valid (msg : EmailMessage) : bool :=
  match ip_pool_name msg with
  | None => true
  | Some (PyStr s) => ((2 <=? String.length s) && (String.length s <=? 64))%nat
  | Some _ => false
  end.

Definition send_at_valid (msg : EmailMessage) : bool :=
  match send_at msg with
  | None => true
  | Some v => is_int v
  end.

Definition asm_valid (msg : EmailMessage) : bool :=
  match asm msg with
  | None => true
  | Some d =>
      match dict_get "group_id" d with
      | Some _ => true
      | None => false
      end
  end.

(** The reply-to field names one address: a string, or a list of one. *)
Definition single_address (field : address_value) : bool :=
  match field with
  | AddrStr _ => true
  | AddrList l => (List.length l <=? 1)%nat
  | AddrNone => true
  end.

(** The address line 202 or 204 parses. *)
Definition first_address (field : address_value) : address_value :=
  match field with
  | AddrList (first :: _) => AddrStr first
  | other => other
  end.

(** The bytes a tuple attachment carries. *)
Definition content_bytes (body : attachment_content) : list byte :=
  match body with
  | TextContent s => Text.encode_utf8 s
  | BytesContent bs => bs
  end.

(** Everything of a message but [body] and [extra_headers]. *)
Definition frame (msg : EmailMessage) : EmailMessage :=
  set_extra_headers [] (set_body "" msg).

(** The message as the transformation may leave it: the same but for
    [body], where one space may have replaced the empty string, and
    for [extra_headers]. *)
Definition touched (before after : EmailMessage) : Prop :=
  frame after = frame before
  /\ (body after = body before \/ (body before = "" /\ body after = " ")).

(** The header names the loop of lines 150-154 diverts. *)
Definition is_reply_to (k : string) : bool :=
  String.eqb (Text.lower k) "reply-to".

(** The value of the last header, in the mapping's order, whose name
    is "reply-to" up to case. *)
Fixpoint last_reply_to (hs : dict pyval) : option pyval :=
  match hs with
  | [] => None
  | (k, v) :: t =>
      match last_reply_to t with
      | Some v' => Some v'
      | None => if is_reply_to k then Some v else None
      end
  end.

(** The headers of any other name, in order. *)
Definition other_headers (hs : dict pyval) : dict pyval :=
  filter (fun kv => negb (is_reply_to (fst kv))) hs.

(** The reply-to block of lines 191-204 raises nothing. *)
Definition reply_to_valid (parseaddr : address_value -> string * string)
           (Email : pyval -> option string -> EmailObj) (msg : EmailMessage)
  : bool :=
  match reply_to_step parseaddr Email msg
          (fst (header_loop Email (extra_headers msg))) with
  | Ok _ => true
  | Raise _ => false
  end.

(** ** Sample collaborators and messages *)

Module Sample.

(** An address parser for bare addresses: no display name. *)
Definition parseaddr (a : address_value) : string * string :=
  match a with
  | AddrStr s => ("", s)
  | AddrList (s :: _) => ("", s)
  | _ => ("", "")
  end.

(** A constructor that stores what it is given. *)
Definition Email (v : pyval) (nm : option string) : EmailObj :=
  mkEmail (match v with PyStr s => Some s | _ => None end) nm.

Definition guess_extension (content_type : string) : option string :=
  if String.eqb content_type "image/png" then Some ".png"
  else if String.eqb content_type "text/plain" then Some ".txt"
  else None.

Definition uuid4_hex (n : nat) : string :=
  match n with
  | O => "9f1c2d3e4a5b4c6d8e7f0a1b2c3d4e5f"
  | S _ => "0a1b2c3d4e5f4a6b8c7d9e0f1a2b3c4d"
  end.

Definition backend : SendgridBackend := mkBackend false true true false false.

Definition post (n : nat) (data : Payload) : option Response :=
  Some (mkResponse 202 (Some "msg-0001")).

Definition message : EmailMessage :=
  {| from_email := "sam@example.com"; to := ["john@example.com"];
     cc := []; bcc := []; subject := "Hello"; body := "Hello, World!";
     content_subtype := "plain"; alternatives := None; attachments := [];
     extra_headers := []; custom_args := None; template_id := None;
     substitutions := None; dynamic_template_data := None;
     ip_pool_name := None; send_at := None; reply_to := Some (AddrList []);
     categories := None; asm := None |}.

Definition with_headers (h : dict pyval) (msg : EmailMessage) : EmailMessage :=
  set_extra_headers h msg.

Definition with_pool (v : pyval) (msg : EmailMessage) : EmailMessage :=
  {| from_email := from_email msg; to := to msg; cc := cc msg; bcc := bcc msg;
     subject := subject msg; body := body msg;
     content_subtype := content_subtype msg;
     alternatives := alternatives msg; attachments := attachments msg;
     extra_headers := extra_headers msg; custom_args := custom_args msg;
     template_id := template_id msg; substitutions := substitutions msg;
     dynamic_template_data := dynamic_template_data msg;
     ip_pool_name := Some v; send_at := send_at msg;
     reply_to := reply_to msg; categories := categories msg; asm := asm msg |}.

Definition with_content (subtype : string)
           (alts : option (list (string * string))) (msg : EmailMessage)
  : EmailMessage :=
  {| from_email := from_email msg; to := to msg; cc := cc msg; bcc := bcc msg;
     subject := subject msg; body := body msg;
     content_subtype := subtype;
     alternatives := alts; attachments := attachments msg;
     extra_headers := extra_headers msg; custom_args := custom_args msg;
     template_id := template_id msg; substitutions := substitutions msg;
     dynamic_template_data := dynamic_template_data msg;
     ip_pool_name := ip_pool_name msg; send_at := send_at msg;
     reply_to := reply_to msg; categories := categories msg; asm := asm msg |}.

Definition with_attachments (l : list attachment_source) (msg : EmailMessage)
  : EmailMessage :=
  {| from_email := from_email msg; to := to msg; cc := cc msg; bcc := bcc msg;
     subject := subject msg; body := body msg;
     content_subtype := content_subtype msg;
     alternatives := alternatives msg; attachments := l;
     extra_headers := extra_headers msg; custom_args := custom_args msg;
     template_id := template_id msg; substitutions := substitutions msg;
     dynamic_template_data := dynamic_template_data msg;
     ip_pool_name := ip_pool_name msg; send_at := send_at msg;
     reply_to := reply_to msg; categories := categories msg; asm := asm msg |}.

(** A "Reply-To" header and a reply-to field that agree, and that
    do not. *)
Definition reply_same : EmailMessage :=
  set_reply_to (Some (AddrStr "a@x.com"))
    (with_headers [("Reply-To", PyStr "a@x.com")] message).

Definition reply_differs : EmailMessage :=
  set_reply_to (Some (AddrStr "b@x.com"))
    (with_headers [("Reply-To", PyStr "a@x.com")] message).

(** A reply-to header among other headers, and an empty reply-to
    field. *)
Definition with_reply_to_header : EmailMessage :=
  with_headers
    [("X-Campaign", PyStr "spring"); ("REPLY-TO", PyStr "a@x.com");
     ("X-Mailer", PyStr "django")]
    message.

Definition empty_body : EmailMessage := set_body "" message.

Definition html_message : EmailMessage :=
  with_content "html" None (set_body "<p>Hi</p>" message).

(** An instance of the multi-alternative class without alternatives,
    its content subtype set to "html". *)
Definition html_multi_no_alternatives : EmailMessage :=
  with_content "html" (Some []) (set_body "<p>Hi</p>" message).

Definition two_alternatives : EmailMessage :=
  with_content "plain"
    (Some [("<p>Hi</p>", "text/html"); ("# Hi", "text/markdown")])
    message.

Definition png_part : MIMEBase :=
  mkMIMEBase None "image/png" "iVBORw0KGgo=" (Some "<logo>").

Definition with_two_attachments : EmailMessage :=
  with_attachments
    [MIMEPart png_part;
     TuplePart (Some "hello.txt") (TextContent (Text.codepoints "hello"))
       (Some "text/plain")]
    message.

(** The text "h", U+00E9, U+20AC, U+1F600: one scalar value of each
    length. *)
Definition unicode_text : list Text.codepoint :=
  [Text.chr 104; Text.chr 233; Text.chr 8364; Text.chr 128512].

Definition with_unicode_tuple : EmailMessage :=
  with_attachments
    [TuplePart (Some "note.txt") (TextContent unicode_text)
       (Some "text/plain")]
    message.

(** A tuple attachment given the empty filename. *)
Definition with_unnamed_tuple : EmailMessage :=
  with_attachments
    [TuplePart (Some "") (TextContent (Text.codepoints "hello"))
       (Some "text/plain")]
    message.

(** Pool names of 64 and of 65 characters. *)
Definition name64 : string :=
  "0123456789abcdef0123456789abcdef0123456789abcdef0123456789abcdef".

Definition name65 : string := String "x" name64.

(** The builder and the sender with the sample collaborators. *)
Definition build (msg : EmailMessage) : world * result Payload :=
  _build_sg_mail parseaddr Email guess_extension uuid4_hex backend
    (mkWorld msg 0).

Definition send (msgs : list EmailMessage) : list EmailMessage * result nat :=
  send_messages parseaddr Email guess_extension uuid4_hex backend post msgs.

End Sample.

(** ** Settings and construction *)

(** [bool(v)]. *)
Definition truth (v : pyval) : bool :=
  match v with
  | PyNone => false
  | PyBool b => b
  | PyInt z => negb (Z.eqb z 0)
  | PyStr s => Text.nonempty s
  | PyBytes [] => false
  | PyBytes (_ :: _) => true
  | PyList [] => false
  | PyList (_ :: _) => true
  end.

(** [django.conf.settings] as [__init__] reads it: [DEBUG] is always
    there, the others are probed with [hasattr].  The three tracking
    flags are stored as they are, and are booleans here. *)
Record Settings : Type := mkSettings {
  SENDGRID_API_KEY : option pyval;
  DEBUG : pyval;
  SENDGRID_SANDBOX_MODE_IN_DEBUG : option pyval;
  SENDGRID_TRACK_EMAIL_OPENS : option bool;
  SENDGRID_TRACK_EMAIL_CLICKS : option bool;
  SENDGRID_SUBSCRIPTION_ENABLE : option bool;
  SENDGRID_ECHO_TO_STDOUT : option pyval
}.

(** Where the echo goes: the [stream] keyword argument or [sys.stdout]. *)
Inductive stream_target : Type :=
| GivenStream
| SysStdout.

(** The keyword arguments [__init__] looks at; [kw_fail_silently] is
    the base class's, [False] when not given. *)
Record Kwargs : Type := mkKwargs {
  kw_api_key : option pyval;
  kw_stream : bool;
  kw_fail_silently : bool
}.

(** The object [__init__] leaves: the key handed to the API client,
    the attributes the builder reads, the stream attribute, and
    whether the sandbox warning was issued. *)
Record Instance : Type := mkInstance {
  sg_api_key : pyval;
  attributes : SendgridBackend;
  stream_attr : option stream_target;
  sandbox_warning : bool
}.

Inductive constructed : Type :=
| Constructed (i : Instance)
| ImproperlyConfigured.

Definition setting_or {A : Type} (default : A) (s : option A) : A :=
  match s with
  | Some v => v
  | None => default
  end.

(** Lines 37-76. *)
Definition __init__ (kwargs : Kwargs) (settings : Settings) : constructed :=
  let key :=
    match kw_api_key kwargs with
    | Some k => Some k
    | None =>
        match SENDGRID_API_KEY settings with
        | Some k => if truth k then Some k else None
        | None => None
        end
    end in
  match key with
  | None => ImproperlyConfigured
  | Some k =>
      let sandbox_mode_in_debug :=
        setting_or (PyBool true) (SENDGRID_SANDBOX_MODE_IN_DEBUG settings) in
      let sandbox := truth (DEBUG settings) && truth sandbox_mode_in_debug in
      let track_email := setting_or true (SENDGRID_TRACK_EMAIL_OPENS settings) in
      let track_click := setting_or true (SENDGRID_TRACK_EMAIL_CLICKS settings) in
      let subscription :=
        setting_or false (SENDGRID_SUBSCRIPTION_ENABLE settings) in
      let stream :=
        match SENDGRID_ECHO_TO_STDOUT settings with
        | Some e =>
            if truth e
            then Some (if kw_stream kwargs then GivenStream else SysStdout)
            else None
        | None => None
        end in
      Constructed
        (mkInstance k
           (mkBackend sandbox track_email track_click subscription
              (kw_fail_silently kwargs))
           stream sandbox)
  end.

(** ** The echo stream *)

(** What a text stream is asked to do, in order. *)
Inductive stream_event : Type :=
| Write (s : string)
| Flush.

Fixpoint repeat_char (c : ascii) (n : nat) : string :=
  match n with
  | O => EmptyString
  | S k => String c (repeat_char c k)
  end.

(** ['-' * 79] *)
Definition separator : string := repeat_char "-" 79.

(** The text of the stream: the writes, joined. *)
Fixpoint written (events : list stream_event) : string :=
  match events with
  | [] => EmptyString
  | Write s :: rest => (s ++ written rest)%string
  | Flush :: rest => written rest
  end.

Section Echo.

(** Lines 79-82: the message serialised and decoded, [None] when
    building or decoding it raises. *)
Variable render : EmailMessage -> option string.

Variable self : SendgridBackend.

(** Lines 78-85, on the events of [self.stream]; [None] when line 79
    to 82 raise. *)
Definition write_to_stream (message : EmailMessage)
           (stream : list stream_event) : option (list stream_event) :=
  match render message with
  | None => None
  | Some msg_data =>
      Some (stream
              ++ [Write (msg_data ++ String Text.newline EmptyString)%string;
                  Write separator;
                  Write (String Text.newline EmptyString)])
  end.

(** Lines 94-96: the stream as the loop leaves it, and whether it ran
    to its end. *)
Fixpoint echo_loop (email_messages : list EmailMessage)
         (stream : list stream_event) : list stream_event * bool :=
  match email_messages with
  | [] => (stream, true)
  | message :: rest =>
      match write_to_stream message stream with
      | None => (stream, false)
      | Some stream' => echo_loop rest (stream' ++ [Flush])
      end
  end.

(** Lines 87-101: the stream afterwards, and [true] when the call
    raises.  The base class's [open] makes no stream, so line 98 does
    nothing. *)
Definition echo_to_output_stream (email_messages : list EmailMessage)
           (stream : list stream_event) : list stream_event * bool :=
  match email_messages with
  | [] => (stream, false)
  | _ :: _ =>
      let '(stream', finished) := echo_loop email_messages stream in
      if finished then (stream', false)
      else (stream', negb (fail_silently self))
  end.

End Echo.

(** What a call of [send_messages] comes to: the loop's count or
    exception, or the exception of the echo. *)
Inductive send_outcome : Type :=
| Sending (r : result nat)
| EchoRaised.

(** Lines 103-120 with the stream attribute: [None] when the echo is
    off. *)
Definition send_messages_with_stream
           (parseaddr : address_value -> string * string)
           (Email : pyval -> option string -> EmailObj)
           (guess_extension : string -> option string)
           (uuid4_hex : nat -> string)
           (self : SendgridBackend)
           (post : nat -> Payload -> option Response)
           (render : EmailMessage -> option string)
           (stream : option (list stream_event))
           (email_messages : list EmailMessage)
  : option (list stream_event) * list EmailMessage * send_outcome :=
  match stream with
  | None =>
      let '(msgs, r) :=
        send_messages parseaddr Email guess_extension uuid4_hex self post
          email_messages in
      (None, msgs, Sending r)
  | Some events =>
      let '(events', raised) :=
        echo_to_output_stream render self email_messages events in
      if raised then (Some events', email_messages, EchoRaised)
      else
        let '(msgs, r) :=
          send_messages parseaddr Email guess_extension uuid4_hex self post
            email_messages in
        (Some events', msgs, Sending r)
  end.

(** ** Notions the further properties are stated with *)

(** A structured attachment that gets a synthesized filename. *)
Definition nameless (src : attachment_source) : bool :=
  match src with
  | MIMEPart part => falsy_str (get_filename part)
  | TuplePart _ _ _ => false
  end.

Definition count_nameless (l : list attachment_source) : nat :=
  List.length (filter nameless l).

(** The characters of a string. *)
Fixpoint chars (s : string) : list ascii :=
  match s with
  | EmptyString => []
  | String c t => c :: chars t
  end.

(** A character of Base64 text. *)
Definition is_b64_char (c : ascii) : bool :=
  match Base64.value_of c with
  | Some _ => true
  | None => Ascii.eqb c Base64.pad
  end.

(** The content-id line 221 to 223 store for a truthy header value. *)
Definition stripped_content_id (c : string) : string :=
  if Text.startswith c "<" && Text.endswith c ">"
  then Text.slice_1_m1 c
  else c.

(** The validated fields of a message are all valid. *)
Definition well_formed (parseaddr : address_value -> string * string)
           (Email : pyval -> option string -> EmailObj) (msg : EmailMessage)
  : Prop :=
  pool_name_valid msg = true
  /\ send_at_valid msg = true
  /\ reply_to_valid parseaddr Email msg = true
  /\ asm_valid msg = true.

(** The keys of a dictionary. *)
Definition keys {V : Type} (d : dict V) : list string := map fst d.

(** More sample data. *)
Module Demo.

Definition settings : Settings :=
  mkSettings (Some (PyStr "SG.settings-key")) (PyBool true) None None None
    None None.

Definition no_key : Settings :=
  mkSettings (Some (PyStr "")) (PyBool true) None None None None None.

Definition kwargs : Kwargs := mkKwargs None false false.

Definition render (msg : EmailMessage) : option string :=
  if String.eqb (subject msg) "bad" then None
  else Some ("Subject: " ++ subject msg)%string.

Definition bad_message : EmailMessage :=
  {| from_email := "sam@example.com"; to := ["john@example.com"];
     cc := []; bcc := []; subject := "bad"; body := "x";
     content_subtype := "plain"; alternatives := None; attachments := [];
     extra_headers := []; custom_args := None; template_id := None;
     substitutions := None; dynamic_template_data := None;
     ip_pool_name := None; send_at := None; reply_to := None;
     categories := None; asm := None |}.

(** A message with every optional attribute set. *)
Definition full_message : EmailMessage :=
  {| from_email := "sam@example.com";
     to := ["john@example.com"; "jane@example.com"];
     cc := ["carl@example.com"]; bcc := [];
     subject := "Hello"; body := "";
     content_subtype := "plain"; alternatives := None;
     attachments :=
       [MIMEPart (mkMIMEBase None "image/png" "iVBO
Rw0K
" (Some "<logo>"));
        MIMEPart (mkMIMEBase (Some "a.txt") "text/plain" "aGk=" None);
        MIMEPart (mkMIMEBase (Some "") "text/plain" "aGk=" (Some "<>"))];
     extra_headers := [("X-Tag", PyStr "t")];
     custom_args := Some [("campaign", PyStr "spring")];
     template_id := None;
     substitutions := Some [("%name%", PyStr "John")];
     dynamic_template_data := Some [("name", PyStr "John")];
     ip_pool_name := Some (PyStr "pool");
     send_at := Some (PyInt 1700000000);
     reply_to := Some (AddrList ["a@x.com"]);
     categories := Some ["news"; "spring"];
     asm := Some [("group_id", PyInt 7)] |}.

Definition set_send_at (v : option pyval) (msg : EmailMessage) : EmailMessage :=
  {| from_email := from_email msg; to := to msg; cc := cc msg; bcc := bcc msg;
     subject := subject msg; body := body msg;
     content_subtype := content_subtype msg;
     alternatives := alternatives msg; attachments := attachments msg;
     extra_headers := extra_headers msg; custom_args := custom_args msg;
     template_id := template_id msg; substitutions := substitutions msg;
     dynamic_template_data := dynamic_template_data msg;
     ip_pool_name := ip_pool_name msg; send_at := v;
     reply_to := reply_to msg; categories := categories msg; asm := asm msg |}.

Definition set_asm (d : option (dict pyval)) (msg : EmailMessage)
  : EmailMessage :=
  {| from_email := from_email msg; to := to msg; cc := cc msg; bcc := bcc msg;
     subject := subject msg; body := body msg;
     content_subtype := content_subtype msg;
     alternatives := alternatives msg; attachments := attachments msg;
     extra_headers := extra_headers msg; custom_args := custom_args msg;
     template_id := template_id msg; substitutions := substitutions msg;
     dynamic_template_data := dynamic_template_data msg;
     ip_pool_name := ip_pool_name msg; send_at := send_at msg;
     reply_to := reply_to msg; categories := categories msg; asm := d |}.

(** A backend that fails silently. *)
Definition silent_backend : SendgridBackend :=
  mkBackend false true true false true.

Definition several_reply_to : EmailMessage :=
  set_reply_to (Some (AddrList ["a@x.com"; "b@x.com"])) Sample.message.

Definition bad_send_at : EmailMessage :=
  set_send_at (Some (PyStr "tomorrow")) Sample.message.

(** A subscription descriptor without a group id, on an empty body. *)
Definition asm_without_group : EmailMessage :=
  set_asm (Some [("groups_to_display", PyList [PyInt 1; PyInt 2])])
    Sample.empty_body.

Definition response : Response := mkResponse 202 (Some "msg-0001").

(** A transport that refuses every request. *)
Definition refuse (n : nat) (data : Payload) : option Response := None.

End Demo.

(** * Properties *)

(** ** Strings and Base64 *)

Example lower_reply_to : Text.lower "Reply-To" = "reply-to".
Proof. reflexivity. Qed.

Example b64_hello :
  Base64.b64encode (Text.encode_utf8 (Text.codepoints "hello")) = "aGVsbG8=".
Proof. reflexivity. Qed.

Example b64_hello_back :
  Base64.b64decode "aGVsbG8="
  = Some (Text.encode_utf8 (Text.codepoints "hello")).
Proof. reflexivity. Qed.

Lemma byte_of_to_N (b : byte) : Text.byte_of_N (Byte.to_N b) = b.
Proof. unfold Text.byte_of_N. now rewrite Byte.of_to_N. Qed.

Lemma value_of_char_of (n : N) :
  (n < 64)%N -> Base64.value_of (Base64.char_of n) = Some n.
Proof.
  intros H.
  assert (forallb
            (fun k => match Base64.value_of (Base64.char_of k) with
                      | Some m => N.eqb m k
                      | None => false
                      end)
            (map N.of_nat (seq 0 64)) = true) as Hall by (vm_compute; reflexivity).
  rewrite forallb_forall in Hall.
  specialize (Hall n).
  assert (In n (map N.of_nat (seq 0 64))) as Hin.
  { apply in_map_iff. exists (N.to_nat n). split.
    - apply N2Nat.id.
    - apply in_seq. lia. }
  specialize (Hall Hin).
  destruct (Base64.value_of (Base64.char_of n)) as [m|]; [|discriminate].
  apply N.eqb_eq in Hall. now subst.
Qed.

Lemma char_of_not_pad (n : N) :
  (n < 64)%N -> Ascii.eqb (Base64.char_of n) Base64.pad = false.
Proof.
  intros H.
  assert (forallb
            (fun k => negb (Ascii.eqb (Base64.char_of k) Base64.pad))
            (map N.of_nat (seq 0 64)) = true) as Hall by (vm_compute; reflexivity).
  rewrite forallb_forall in Hall.
  specialize (Hall n).
  assert (In n (map N.of_nat (seq 0 64))) as Hin.
  { apply in_map_iff. exists (N.to_nat n). split.
    - apply N2Nat.id.
    - apply in_seq. lia. }
  specialize (Hall Hin).
  now apply negb_true_iff in Hall.
Qed.

Lemma to_N_lt (b : byte) : (Byte.to_N b < 256)%N.
Proof. pose proof (Byte.to_N_bounded b). lia. Qed.

(** ** UTF-8 *)

Lemma codepoint_eq (a b : Text.codepoint) :
  Text.cp_value a = Text.cp_value b -> a = b.
Proof.
  destruct a as [n Hn], b as [m Hm]. cbn. intros <-.
  f_equal. apply UIP_dec. apply Bool.bool_dec.
Qed.

Lemma codepoint_of_N_scalar (n : N) (H : Text.is_scalar n = true) :
  Text.codepoint_of_N n = Some (Text.mkCodepoint n H).
Proof.
  unfold Text.codepoint_of_N.
  generalize (eq_refl (Text.is_scalar n)).
  generalize (Text.is_scalar n) at 2 3.
  intros b E. destruct b.
  - f_equal. now apply codepoint_eq.
  - congruence.
Qed.

Lemma codepoint_of_N_value (c : Text.codepoint) :
  Text.codepoint_of_N (Text.cp_value c) = Some c.
Proof. destruct c as [n H]. apply codepoint_of_N_scalar. Qed.

Lemma cp_value_bound (c : Text.codepoint) : (Text.cp_value c < 1114112)%N.
Proof.
  destruct c as [n H]. cbn. unfold Text.is_scalar in H.
  apply orb_true_iff in H as [H|H].
  - apply N.ltb_lt in H. lia.
  - apply andb_true_iff in H as [_ H]. now apply N.ltb_lt in H.
Qed.

Lemma to_N_byte_of_N (n : N) :
  (n < 256)%N -> Byte.to_N (Text.byte_of_N n) = n.
Proof.
  intros H. unfold Text.byte_of_N.
  destruct (Byte.of_N n) as [b|] eqn:E.
  - now apply Byte.to_of_N.
  - apply Byte.of_N_None_iff in E. lia.
Qed.

Lemma list_ind3 (A : Type) (P : list A -> Prop) :
  P [] ->
  (forall a, P [a]) ->
  (forall a b, P [a; b]) ->
  (forall a b c rest, P rest -> P (a :: b :: c :: rest)) ->
  forall l, P l.
Proof.
  intros H0 H1 H2 H3.
  fix IH 1.
  intros [|a [|b [|c rest]]].
  - exact H0.
  - apply H1.
  - apply H2.
  - apply H3, IH.
Qed.

(** Linear arithmetic over [N] with division by constants. *)
Ltac nlia := zify; Z.to_euclidean_division_equations; lia.

Lemma sextets_bound (x y z : N) :
  (x < 256 -> y < 256 -> z < 256 ->
   x / 4 < 64 /\ (x mod 4) * 16 + y / 16 < 64 /\
   (y mod 16) * 4 + z / 64 < 64 /\ z mod 64 < 64 /\
   (x mod 4) * 16 < 64 /\ (y mod 16) * 4 < 64)%N.
Proof. intros; repeat split; nlia. Qed.

Lemma sextets_join (x y z : N) :
  (x < 256 -> y < 256 -> z < 256 ->
   x / 4 * 4 + ((x mod 4) * 16 + y / 16) / 16 = x /\
   (((x mod 4) * 16 + y / 16) mod 16) * 16 + ((y mod 16) * 4 + z / 64) / 4 = y /\
   (((y mod 16) * 4 + z / 64) mod 4) * 64 + z mod 64 = z)%N.
Proof. intros; repeat split; nlia. Qed.

(** Decoding an encoding gives the bytes back. *)
Lemma b64decode_b64encode (bs : list byte) :
  Base64.b64decode (Base64.b64encode bs) = Some bs.
Proof.
  induction bs as [|a|a b|a b c rest IH] using list_ind3.
  - reflexivity.
  - pose proof (to_N_lt a) as Ha.
    destruct (sextets_bound (Byte.to_N a) 0 0 Ha) as (B0 & B1 & _ & _ & B4 & _);
      try nlia.
    destruct (sextets_join (Byte.to_N a) 0 0 Ha) as (J0 & _); try nlia.
    cbn [Base64.b64encode Base64.b64decode].
    rewrite !value_of_char_of by assumption.
    cbn.
    replace (Byte.to_N a / 4 * 4 + (Byte.to_N a mod 4) * 16 / 16)%N
      with (Byte.to_N a) by nlia.
    now rewrite byte_of_to_N.
  - pose proof (to_N_lt a) as Ha. pose proof (to_N_lt b) as Hb.
    destruct (sextets_bound (Byte.to_N a) (Byte.to_N b) 0 Ha Hb)
      as (B0 & B1 & _ & _ & _ & B5); try nlia.
    destruct (sextets_join (Byte.to_N a) (Byte.to_N b) 0 Ha Hb)
      as (J0 & J1 & _); try nlia.
    cbn [Base64.b64encode Base64.b64decode].
    rewrite !value_of_char_of by assumption.
    rewrite (char_of_not_pad _ B5).
    cbn.
    rewrite J0.
    replace (((Byte.to_N a mod 4) * 16 + Byte.to_N b / 16) mod 16 * 16
             + (Byte.to_N b mod 16) * 4 / 4)%N
      with (Byte.to_N b) by nlia.
    now rewrite !byte_of_to_N.
  - pose proof (to_N_lt a) as Ha. pose proof (to_N_lt b) as Hb.
    pose proof (to_N_lt c) as Hc.
    destruct (sextets_bound _ _ _ Ha Hb Hc) as (B0 & B1 & B2 & B3 & _ & _).
    destruct (sextets_join _ _ _ Ha Hb Hc) as (J0 & J1 & J2).
    cbn [Base64.b64encode Base64.b64decode].
    rewrite !value_of_char_of by assumption.
    rewrite (char_of_not_pad _ B2), (char_of_not_pad _ B3).
    rewrite IH, J0, J1, J2.
    now rewrite !byte_of_to_N.
Qed.

Lemma continuation_of (k : N) :
  (k < 64)%N -> Text.continuation (Text.byte_of_N (128 + k)) = Some k.
Proof.
  intros H. unfold Text.continuation.
  rewrite to_N_byte_of_N by lia.
  replace ((128 <=? 128 + k) && (128 + k <? 192))%N with true.
  - f_equal. lia.
  - symmetry. apply andb_true_iff. split.
    + apply N.leb_le. lia.
    + apply N.ltb_lt. lia.
Qed.

Lemma emit_value (c : Text.codepoint) (n least : N)
      (rest : option (list Text.codepoint)) :
  n = Text.cp_value c ->
  (least <= n)%N ->
  Text.emit n least rest
  = match rest with
    | Some t => Some (c :: t)
    | None => None
    end.
Proof.
  intros -> Hl. unfold Text.emit.
  replace (least <=? Text.cp_value c)%N with true
    by (symmetry; now apply N.leb_le).
  now rewrite codepoint_of_N_value.
Qed.

(** Decoding the bytes of one scalar value gives it back, before what
    the rest decodes to. *)
Lemma decode_utf8_char (c : Text.codepoint) (rest : list byte) :
  Text.decode_utf8 (Text.utf8_char c ++ rest)
  = match Text.decode_utf8 rest with
    | Some t => Some (c :: t)
    | None => None
    end.
Proof.
  pose proof (cp_value_bound c) as Hb.
  unfold Text.utf8_char.
  destruct (Text.cp_value c <? 128)%N eqn:H1.
  { apply N.ltb_lt in H1.
    cbn [app Text.decode_utf8]. rewrite to_N_byte_of_N by lia.
    replace (Text.cp_value c <? 128)%N with true
      by (symmetry; now apply N.ltb_lt).
    apply emit_value; [reflexivity|lia]. }
  apply N.ltb_ge in H1.
  destruct (Text.cp_value c <? 2048)%N eqn:H2.
  { apply N.ltb_lt in H2.
    cbn [app Text.decode_utf8]. rewrite to_N_byte_of_N by nlia.
    replace (192 + Text.cp_value c / 64 <? 128)%N with false
      by (symmetry; apply N.ltb_ge; nlia).
    replace (192 + Text.cp_value c / 64 <? 192)%N with false
      by (symmetry; apply N.ltb_ge; nlia).
    replace (192 + Text.cp_value c / 64 <? 224)%N with true
      by (symmetry; apply N.ltb_lt; nlia).
    rewrite continuation_of by nlia.
    apply emit_value; nlia. }
  apply N.ltb_ge in H2.
  destruct (Text.cp_value c <? 65536)%N eqn:H3.
  { apply N.ltb_lt in H3.
    cbn [app Text.decode_utf8]. rewrite to_N_byte_of_N by nlia.
    replace (224 + Text.cp_value c / 4096 <? 128)%N with false
      by (symmetry; apply N.ltb_ge; nlia).
    replace (224 + Text.cp_value c / 4096 <? 192)%N with false
      by (symmetry; apply N.ltb_ge; nlia).
    replace (224 + Text.cp_value c / 4096 <? 224)%N with false
      by (symmetry; apply N.ltb_ge; nlia).
    replace (224 + Text.cp_value c / 4096 <? 240)%N with true
      by (symmetry; apply N.ltb_lt; nlia).
    rewrite !continuation_of by nlia.
    apply emit_value; nlia. }
  apply N.ltb_ge in H3.
  cbn [app Text.decode_utf8]. rewrite to_N_byte_of_N by nlia.
  replace (240 + Text.cp_value c / 262144 <? 128)%N with false
    by (symmetry; apply N.ltb_ge; nlia).
  replace (240 + Text.cp_value c / 262144 <? 192)%N with false
    by (symmetry; apply N.ltb_ge; nlia).
  replace (240 + Text.cp_value c / 262144 <? 224)%N with false
    by (symmetry; apply N.ltb_ge; nlia).
  replace (240 + Text.cp_value c / 262144 <? 240)%N with false
    by (symmetry; apply N.ltb_ge; nlia).
  replace (240 + Text.cp_value c / 262144 <? 248)%N with true
    by (symmetry; apply N.ltb_lt; nlia).
  rewrite !continuation_of by nlia.
  apply emit_value; nlia.
Qed.

(** Decoding an encoded text gives the text back. *)
Lemma decode_utf8_encode_utf8 (s : list Text.codepoint) :
  Text.decode_utf8 (Text.encode_utf8 s) = Some s.
Proof.
  induction s as [|c t IH]; [reflexivity|].
  cbn [Text.encode_utf8]. now rewrite decode_utf8_char, IH.
Qed.

(** The number of bytes of a scalar value, by its range. *)
Lemma utf8_char_length (c : Text.codepoint) :
  List.length (Text.utf8_char c)
  = if (Text.cp_value c <? 128)%N then 1
    else if (Text.cp_value c <? 2048)%N then 2
    else if (Text.cp_value c <? 65536)%N then 3
    else 4.
Proof.
  unfold Text.utf8_char.
  destruct (Text.cp_value c <? 128)%N; [reflexivity|].
  destruct (Text.cp_value c <? 2048)%N; [reflexivity|].
  now destruct (Text.cp_value c <? 65536)%N.
Qed.

(** ** How a run of the builder unfolds *)

Section BuilderFacts.

Variable parseaddr : address_value -> string * string.
Variable Email : pyval -> option string -> EmailObj.
Variable guess_extension : string -> option string.
Variable uuid4_hex : nat -> string.
Variable self : SendgridBackend.

Local Notation build :=
  (_build_sg_mail parseaddr Email guess_extension uuid4_hex self).
Local Notation attach := (build_attachment guess_extension uuid4_hex).
Local Notation attach_all := (build_attachments guess_extension uuid4_hex).
Local Notation header_identity msg :=
  (fst (header_loop Email (extra_headers msg))).

(** A structured attachment never raises and leaves the message alone. *)
Lemma mime_attachment_run (part : MIMEBase) (msg : EmailMessage) (n : nat) :
  exists a n',
    mime_attachment guess_extension uuid4_hex part (mkWorld msg n)
    = (mkWorld msg n', Ok a)
    /\ filename a
       = (if falsy_str (get_filename part)
          then Some ("part-" ++ uuid4_hex n
                       ++ format_ext (guess_extension (get_content_type part)))%string
          else get_filename part)
    /\ content a = Some (Text.remove_char Text.newline (get_payload part))
    /\ type a = Some (get_content_type part).
Proof.
  unfold mime_attachment, bind, draw, ret.
  destruct (falsy_str (get_filename part)); cbn;
    destruct (falsy_str (get_Content_ID part)); cbn;
    eexists; eexists; repeat split.
Qed.

Lemma build_attachment_run (src : attachment_source) (msg : EmailMessage)
      (n : nat) :
  exists a n', attach src (mkWorld msg n) = (mkWorld msg n', Ok a).
Proof.
  destruct src as [part|f b m].
  - destruct (mime_attachment_run part msg n) as (a & n' & H & _).
    now exists a, n'.
  - now exists (tuple_attachment f b m), n.
Qed.

(** The attachment loop: one payload attachment per source
    attachment, in order, each the result of some run of
    [build_attachment] on its source. *)
Lemma build_attachments_run (l : list attachment_source)
      (msg : EmailMessage) (n : nat) :
  exists atts n',
    attach_all l (mkWorld msg n) = (mkWorld msg n', Ok atts)
    /\ Forall2 (fun src a =>
                  exists k k', attach src (mkWorld msg k) = (mkWorld msg k', Ok a))
         l atts.
Proof.
  revert n. induction l as [|src rest IH]; intros n.
  - exists [], n. split; [reflexivity|constructor].
  - destruct (build_attachment_run src msg n) as (a & n1 & Ha).
    destruct (IH n1) as (tl & n2 & Htl & Hall).
    exists (a :: tl), n2. split.
    + cbn [build_attachments]. unfold bind at 1. rewrite Ha.
      unfold bind at 1. rewrite Htl. reflexivity.
    + constructor; [now exists n, n1|assumption].
Qed.

(** The run of [_build_sg_mail], step by step: which raise site
    fires, what the message is afterwards, and what the payload holds. *)
Lemma build_run (msg : EmailMessage) (n : nat) :
  exists atts n',
    attach_all (attachments msg) (mkWorld msg n) = (mkWorld msg n', Ok atts)
    /\ Forall2 (fun src a =>
                  exists k k', attach src (mkWorld msg k) = (mkWorld msg k', Ok a))
         (attachments msg) atts
    /\ match pool_name_step msg with
       | Raise e => build (mkWorld msg n) = (mkWorld msg n, Raise e)
       | Ok pool =>
       match send_at_step msg with
       | Raise e => build (mkWorld msg n) = (mkWorld msg n, Raise e)
       | Ok sa =>
       match reply_to_step parseaddr Email msg (header_identity msg) with
       | Raise e => build (mkWorld msg n) = (mkWorld msg n, Raise e)
       | Ok rt =>
       let msg' := set_body (coerce_body (body msg)) msg in
       match asm_step msg with
       | Raise e => build (mkWorld msg n) = (mkWorld msg' n', Raise e)
       | Ok a =>
           exists p,
             build (mkWorld msg n) = (mkWorld msg' n', Ok p)
             /\ m_reply_to p = rt
             /\ m_ip_pool_name p = pool
             /\ m_attachments p = atts
             /\ contents p = build_contents msg'
             /\ m_asm p = a
             /\ exists pz,
                 personalizations p = [pz]
                 /\ headers pz = snd (header_loop Email (extra_headers msg))
                 /\ p_send_at pz = sa
       end end end end.
Proof.
  destruct (build_attachments_run (attachments msg) msg n)
    as (atts & n' & Hatt & Hall).
  exists atts, n'. split; [assumption|]. split; [assumption|].
  unfold _build_sg_mail, bind, get_msg, lift, put_msg, ret.
  cbn [w_msg w_drawn].
  destruct (header_loop Email (extra_headers msg)) as [rt0 hs] eqn:Hh.
  cbn [fst snd].
  destruct (pool_name_step msg) as [pool|e]; [|reflexivity].
  destruct (send_at_step msg) as [sa|e]; [|reflexivity].
  destruct (reply_to_step parseaddr Email msg rt0) as [rt|e]; [|reflexivity].
  rewrite Hatt. cbn [w_msg w_drawn].
  change (asm_step (set_body (coerce_body (body msg)) msg)) with (asm_step msg).
  destruct (asm_step msg) as [a|e]; cbn zeta; [|reflexivity].
  eexists. split; [reflexivity|]. cbn.
  repeat split. eexists. repeat split.
Qed.

Lemma pool_name_valid_ok (msg : EmailMessage) :
  pool_name_valid msg = true <-> exists pool, pool_name_step msg = Ok pool.
Proof.
  unfold pool_name_valid, pool_name_step.
  destruct (ip_pool_name msg) as [[| | |s| |]|];
    try (split; [discriminate|intros [? ?]; discriminate]);
    try (split; [eauto|reflexivity]).
  destruct ((2 <=? String.length s) && (String.length s <=? 64))%nat.
  - split; [eauto|reflexivity].
  - split; [discriminate|intros [? ?]; discriminate].
Qed.

Lemma send_at_valid_ok (msg : EmailMessage) :
  send_at_valid msg = true <-> exists sa, send_at_step msg = Ok sa.
Proof.
  unfold send_at_valid, send_at_step.
  destruct (send_at msg) as [v|]; [|split; [eauto|reflexivity]].
  destruct (is_int v).
  - split; [eauto|reflexivity].
  - split; [discriminate|intros [? ?]; discriminate].
Qed.

Lemma asm_valid_ok (msg : EmailMessage) :
  asm_valid msg = true <-> exists a, asm_step msg = Ok a.
Proof.
  unfold asm_valid, asm_step.
  destruct (asm msg) as [d|]; [|split; [eauto|reflexivity]].
  destruct (dict_get "group_id" d).
  - split; [eauto|reflexivity].
  - split; [discriminate|intros [? ?]; discriminate].
Qed.

Lemma reply_to_valid_ok (msg : EmailMessage) :
  reply_to_valid parseaddr Email msg = true
  <-> exists rt, reply_to_step parseaddr Email msg (header_identity msg) = Ok rt.
Proof.
  unfold reply_to_valid.
  destruct (reply_to_step parseaddr Email msg (header_identity msg)).
  - split; [eauto|reflexivity].
  - split; [discriminate|intros [? ?]; discriminate].
Qed.

(** What a successful run went through and what it left. *)
Lemma build_ok_inv (msg : EmailMessage) (n : nat) (p : Payload) :
  snd (build (mkWorld msg n)) = Ok p ->
  exists pool sa rt a atts n',
    pool_name_step msg = Ok pool
    /\ send_at_step msg = Ok sa
    /\ reply_to_step parseaddr Email msg (header_identity msg) = Ok rt
    /\ asm_step msg = Ok a
    /\ Forall2 (fun src att =>
                  exists k k',
                    attach src (mkWorld msg k) = (mkWorld msg k', Ok att))
         (attachments msg) atts
    /\ fst (build (mkWorld msg n))
       = mkWorld (set_body (coerce_body (body msg)) msg) n'
    /\ m_reply_to p = rt
    /\ m_ip_pool_name p = pool
    /\ m_attachments p = atts
    /\ contents p = build_contents (set_body (coerce_body (body msg)) msg)
    /\ exists pz,
        personalizations p = [pz]
        /\ headers pz = snd (header_loop Email (extra_headers msg))
        /\ p_send_at pz = sa.
Proof.
  intros Hok.
  destruct (build_run msg n) as (atts & n' & _ & Hall & Hrun).
  destruct (pool_name_step msg) as [pool|e];
    [|rewrite Hrun in Hok; discriminate].
  destruct (send_at_step msg) as [sa|e];
    [|rewrite Hrun in Hok; discriminate].
  destruct (reply_to_step parseaddr Email msg (header_identity msg)) as [rt|e];
    [|rewrite Hrun in Hok; discriminate].
  cbn zeta in Hrun.
  destruct (asm_step msg) as [a|e];
    [|rewrite Hrun in Hok; discriminate].
  destruct Hrun as (q & Hq & Hrt & Hpool & Hatts & Hc & _ & Hpz).
  rewrite Hq in Hok. cbn in Hok. injection Hok as <-.
  exists pool, sa, rt, a, atts, n'.
  rewrite Hq. cbn [fst]. repeat (split; [solve [auto]|]). exact Hpz.
Qed.

(** A message whose validated fields are all valid is built. *)
Lemma build_succeeds (msg : EmailMessage) (n : nat) :
  pool_name_valid msg = true ->
  send_at_valid msg = true ->
  reply_to_valid parseaddr Email msg = true ->
  asm_valid msg = true ->
  exists p, snd (build (mkWorld msg n)) = Ok p.
Proof.
  intros Hp Hs Hr Ha.
  apply pool_name_valid_ok in Hp as [pool Hp].
  apply send_at_valid_ok in Hs as [sa Hs].
  apply reply_to_valid_ok in Hr as [rt Hr].
  apply asm_valid_ok in Ha as [a Ha].
  destruct (build_run msg n) as (atts & n' & _ & _ & Hrun).
  rewrite Hp, Hs, Hr in Hrun. cbn zeta in Hrun. rewrite Ha in Hrun.
  destruct Hrun as (q & Hq & _).
  exists q. now rewrite Hq.
Qed.

(** The message a run leaves behind: the one it got, or that one
    after the assignment of line 239. *)
Lemma build_message_after (msg : EmailMessage) (n : nat) :
  (w_msg (fst (build (mkWorld msg n))) = msg
   /\ exists e, snd (build (mkWorld msg n)) = Raise e)
  \/ w_msg (fst (build (mkWorld msg n)))
     = set_body (coerce_body (body msg)) msg.
Proof.
  destruct (build_run msg n) as (atts & n' & _ & _ & Hrun).
  destruct (pool_name_step msg) as [pool|e];
    [|rewrite Hrun; left; split; [reflexivity|now exists e]].
  destruct (send_at_step msg) as [sa|e];
    [|rewrite Hrun; left; split; [reflexivity|now exists e]].
  destruct (reply_to_step parseaddr Email msg (header_identity msg)) as [rt|e];
    [|rewrite Hrun; left; split; [reflexivity|now exists e]].
  cbn zeta in Hrun.
  destruct (asm_step msg) as [a|e].
  - destruct Hrun as (q & Hq & _). rewrite Hq. now right.
  - rewrite Hrun. now right.
Qed.

(** The header loop, in closed form. *)
Lemma header_fold (hs : dict pyval) (st : option EmailObj * list Header) :
  fold_left (header_step Email) hs st
  = (match last_reply_to hs with
     | Some v => Some (Email v None)
     | None => fst st
     end,
     snd st ++ map (fun kv => mkHeader (fst kv) (snd kv)) (other_headers hs)).
Proof.
  revert st. induction hs as [|[k v] t IH]; intros [r acc].
  - cbn. now rewrite app_nil_r.
  - cbn [fold_left header_step last_reply_to other_headers filter fst snd].
    fold (is_reply_to k). fold (other_headers t).
    destruct (is_reply_to k); rewrite IH; cbn [fst snd negb map].
    + now destruct (last_reply_to t).
    + rewrite <- app_assoc. now destruct (last_reply_to t).
Qed.

Lemma header_loop_closed (hs : dict pyval) :
  header_loop Email hs
  = (option_map (fun v => Email v None) (last_reply_to hs),
     map (fun kv => mkHeader (fst kv) (snd kv)) (other_headers hs)).
Proof.
  unfold header_loop. rewrite header_fold. cbn [fst snd app].
  now destruct (last_reply_to hs).
Qed.

End BuilderFacts.

(** ** The raise sites *)

Section RaiseSites.

Variable parseaddr : address_value -> string * string.
Variable Email : pyval -> option string -> EmailObj.
Variable guess_extension : string -> option string.
Variable uuid4_hex : nat -> string.
Variable self : SendgridBackend.

Local Notation build :=
  (_build_sg_mail parseaddr Email guess_extension uuid4_hex self).
Local Notation header_identity msg :=
  (fst (header_loop Email (extra_headers msg))).

Lemma option_eqb_eq (a b : option string) : option_eqb a b = true <-> a = b.
Proof.
  destruct a as [x|], b as [y|]; cbn; try (split; congruence).
  rewrite String.eqb_eq. split; congruence.
Qed.

Lemma same_identity_iff (a b : EmailObj) :
  same_identity a b = true <-> email a = email b /\ name a = name b.
Proof.
  unfold same_identity.
  now rewrite andb_true_iff, !option_eqb_eq.
Qed.

Lemma pool_name_step_raise (msg : EmailMessage) (e : exn) :
  pool_name_step msg = Raise e -> InvalidPoolName e.
Proof.
  unfold pool_name_step, InvalidPoolName.
  destruct (ip_pool_name msg) as [[| | |s| |]|]; try discriminate;
    try (intros [= <-]; now left).
  destruct ((2 <=? String.length s) && (String.length s <=? 64))%nat;
    [discriminate|].
  intros [= <-]. right. now exists (String.length s).
Qed.

Lemma send_at_step_raise (msg : EmailMessage) (e : exn) :
  send_at_step msg = Raise e -> e = InvalidSendAt.
Proof.
  unfold send_at_step.
  destruct (send_at msg) as [v|]; [|discriminate].
  destruct (is_int v); [discriminate|]. now intros [= <-].
Qed.

Lemma asm_step_raise (msg : EmailMessage) (e : exn) :
  asm_step msg = Raise e -> e = MissingSubscriptionGroup.
Proof.
  unfold asm_step.
  destruct (asm msg) as [d|]; [|discriminate].
  destruct (dict_get "group_id" d); [discriminate|]. now intros [= <-].
Qed.

Lemma reply_to_step_raise (msg : EmailMessage) (current : option EmailObj)
      (e : exn) :
  reply_to_step parseaddr Email msg current = Raise e ->
  exists field,
    reply_to msg = Some field /\ truthy field = true
    /\ ((e = ReplyToConflict
         /\ reply_to_conflict parseaddr Email field current = true)
        \/ (e = TooManyReplyTo
            /\ reply_to_conflict parseaddr Email field current = false
            /\ single_address field = false)).
Proof.
  unfold reply_to_step.
  destruct (reply_to msg) as [field|]; [|discriminate].
  destruct (truthy field) eqn:Ht; [|discriminate].
  intros H. exists field. split; [reflexivity|]. split; [exact Ht|].
  destruct (reply_to_conflict parseaddr Email field current).
  - injection H as <-. now left.
  - right. destruct field as [|s|l]; try discriminate.
    cbn [single_address].
    destruct (1 <? List.length l)%nat eqn:Hl.
    + injection H as <-. repeat split.
      apply Nat.ltb_lt in Hl. apply Nat.leb_gt. lia.
    + destruct l; discriminate.
Qed.

(** An exception of the builder comes from one of its four raise
    sites. *)
Lemma build_raise_inv (msg : EmailMessage) (n : nat) (e : exn) :
  snd (build (mkWorld msg n)) = Raise e ->
  pool_name_step msg = Raise e
  \/ send_at_step msg = Raise e
  \/ reply_to_step parseaddr Email msg (header_identity msg) = Raise e
  \/ asm_step msg = Raise e.
Proof.
  intros H.
  destruct (build_run parseaddr Email guess_extension uuid4_hex self msg n)
    as (atts & n' & _ & _ & Hrun).
  destruct (pool_name_step msg) as [pool|e1].
  2:{ rewrite Hrun in H. injection H as <-. now left. }
  destruct (send_at_step msg) as [sa|e1].
  2:{ rewrite Hrun in H. injection H as <-. right. now left. }
  destruct (reply_to_step parseaddr Email msg (header_identity msg))
    as [rt|e1].
  2:{ rewrite Hrun in H. injection H as <-. right. right. now left. }
  cbn zeta in Hrun.
  destruct (asm_step msg) as [a|e1].
  - destruct Hrun as (q & Hq & _). rewrite Hq in H. discriminate.
  - rewrite Hrun in H. injection H as <-. now repeat right.
Qed.

(** The first raise site that fires decides the exception, and the
    message is as it was when one of the first three fires. *)
Lemma build_raises_pool (msg : EmailMessage) (n : nat) (e : exn) :
  pool_name_step msg = Raise e ->
  build (mkWorld msg n) = (mkWorld msg n, Raise e).
Proof.
  intros H.
  destruct (build_run parseaddr Email guess_extension uuid4_hex self msg n)
    as (atts & n' & _ & _ & Hrun).
  now rewrite H in Hrun.
Qed.

Lemma build_raises_send_at (msg : EmailMessage) (n : nat) (e : exn) :
  pool_name_valid msg = true ->
  send_at_step msg = Raise e ->
  build (mkWorld msg n) = (mkWorld msg n, Raise e).
Proof.
  intros Hp H.
  apply pool_name_valid_ok in Hp as [pool Hp].
  destruct (build_run parseaddr Email guess_extension uuid4_hex self msg n)
    as (atts & n' & _ & _ & Hrun).
  now rewrite Hp, H in Hrun.
Qed.

Lemma build_raises_reply_to (msg : EmailMessage) (n : nat) (e : exn) :
  pool_name_valid msg = true ->
  send_at_valid msg = true ->
  reply_to_step parseaddr Email msg (header_identity msg) = Raise e ->
  build (mkWorld msg n) = (mkWorld msg n, Raise e).
Proof.
  intros Hp Hs H.
  apply pool_name_valid_ok in Hp as [pool Hp].
  apply send_at_valid_ok in Hs as [sa Hs].
  destruct (build_run parseaddr Email guess_extension uuid4_hex self msg n)
    as (atts & n' & _ & _ & Hrun).
  now rewrite Hp, Hs, H in Hrun.
Qed.

(** Some step raising means the run raises. *)
Lemma build_raises_some (msg : EmailMessage) (n : nat) :
  (exists e, pool_name_step msg = Raise e)
  \/ (exists e, send_at_step msg = Raise e)
  \/ (exists e,
        reply_to_step parseaddr Email msg (header_identity msg) = Raise e)
  \/ (exists e, asm_step msg = Raise e) ->
  exists e, snd (build (mkWorld msg n)) = Raise e.
Proof.
  intros H.
  destruct (snd (build (mkWorld msg n))) as [p|e] eqn:Hb; [|now exists e].
  exfalso.
  apply build_ok_inv in Hb
    as (pool & sa & rt & a & atts & n' & Hp & Hs & Hr & Ha & _).
  destruct H as [[e H]|[[e H]|[[e H]|[e H]]]]; congruence.
Qed.

End RaiseSites.

(** ** Reply-to: header and field *)

Section ReplyTo.

Variable parseaddr : address_value -> string * string.
Variable Email : pyval -> option string -> EmailObj.
Variable guess_extension : string -> option string.
Variable uuid4_hex : nat -> string.
Variable self : SendgridBackend.

Local Notation build :=
  (_build_sg_mail parseaddr Email guess_extension uuid4_hex self).
Local Notation header_identity msg :=
  (fst (header_loop Email (extra_headers msg))).
Local Notation parsed := (parsed_email parseaddr Email).

Lemma header_identity_closed (msg : EmailMessage) :
  header_identity msg
  = option_map (fun v => Email v None) (last_reply_to (extra_headers msg)).
Proof. now rewrite header_loop_closed. Qed.

Lemma last_reply_to_in (hs : dict pyval) (v : pyval) :
  last_reply_to hs = Some v ->
  exists k, In (k, v) hs /\ is_reply_to k = true.
Proof.
  induction hs as [|[k x] t IH]; [discriminate|].
  cbn [last_reply_to].
  destruct (last_reply_to t) as [v'|].
  - intros [= <-]. destruct (IH eq_refl) as (k' & Hin & Hk).
    exists k'. split; [now right|assumption].
  - destruct (is_reply_to k) eqn:Hk; [|discriminate].
    intros [= <-]. exists k. split; [now left|assumption].
Qed.

(** What the reply-to block does with a truthy field, given what the
    header loop left. *)
Lemma reply_to_step_truthy (msg : EmailMessage) (field : address_value)
      (current : option EmailObj) :
  reply_to msg = Some field ->
  truthy field = true ->
  reply_to_step parseaddr Email msg current
  = if reply_to_conflict parseaddr Email field current
    then Raise ReplyToConflict
    else if single_address field
         then Ok (Some (parsed (first_address field)))
         else Raise TooManyReplyTo.
Proof.
  intros Hf Ht. unfold reply_to_step. rewrite Hf, Ht.
  destruct (reply_to_conflict parseaddr Email field current);
    [reflexivity|].
  destruct field as [|s|[|a [|b l]]]; try discriminate; reflexivity.
Qed.

(** C1. A message with a reply-to header (value [v], the last header
    named "reply-to" up to case) and a truthy reply-to field.  When
    the identity parsed from the field and the identity made from the
    header have the same address and the same display name, the
    builder raises no reply-to conflict, every payload it returns
    holds one reply-to identity (the field's address, parsed), and it
    does return a payload when the field names one address and the
    pool name, the send-at and the subscription descriptor are valid.
    When the two differ in address or in name the builder raises, and
    the exception is the reply-to conflict once the pool name and the
    send-at, which are checked before, are valid. *)
Theorem reply_to_header_and_field
        (msg : EmailMessage) (n : nat) (v : pyval) (field : address_value) :
  last_reply_to (extra_headers msg) = Some v ->
  reply_to msg = Some field ->
  truthy field = true ->
  (email (parsed field) = email (Email v None)
   /\ name (parsed field) = name (Email v None) ->
   snd (build (mkWorld msg n)) <> Raise ReplyToConflict
   /\ (forall p, snd (build (mkWorld msg n)) = Ok p ->
                 m_reply_to p = Some (parsed (first_address field)))
   /\ (single_address field = true ->
       pool_name_valid msg = true ->
       send_at_valid msg = true ->
       asm_valid msg = true ->
       exists p, snd (build (mkWorld msg n)) = Ok p
                 /\ m_reply_to p = Some (parsed (first_address field))))
  /\ (email (parsed field) <> email (Email v None)
      \/ name (parsed field) <> name (Email v None) ->
      (exists e, snd (build (mkWorld msg n)) = Raise e)
      /\ (pool_name_valid msg = true ->
          send_at_valid msg = true ->
          build (mkWorld msg n) = (mkWorld msg n, Raise ReplyToConflict))).
Proof.
  intros Hv Hf Ht.
  pose proof (reply_to_step_truthy msg field (header_identity msg) Hf Ht)
    as Hstep.
  rewrite header_identity_closed, Hv in Hstep. cbn [option_map] in Hstep.
  unfold reply_to_conflict in Hstep.
  split.
  - intros Hsame. apply same_identity_iff in Hsame.
    rewrite Hsame in Hstep. cbn [negb] in Hstep.
    assert (forall p, snd (build (mkWorld msg n)) = Ok p ->
                      m_reply_to p = Some (parsed (first_address field)))
      as Hpayload.
    { intros p Hp.
      apply build_ok_inv in Hp
        as (pool & sa & rt & a & atts & n' & _ & _ & Hr & _ & _ & _ & Hrt & _).
      rewrite header_identity_closed, Hv in Hr. cbn [option_map] in Hr.
      rewrite Hstep in Hr.
      destruct (single_address field); [|discriminate].
      injection Hr as <-. exact Hrt. }
    split; [|split; [exact Hpayload|]].
    + intros Hraise.
      apply build_raise_inv in Hraise as [H|[H|[H|H]]].
      * apply pool_name_step_raise in H as [H|[k H]]; discriminate.
      * apply send_at_step_raise in H. discriminate.
      * rewrite header_identity_closed, Hv in H. cbn [option_map] in H.
        rewrite Hstep in H.
        destruct (single_address field); discriminate.
      * apply asm_step_raise in H. discriminate.
    + intros Hone Hpool Hsend Hasm.
      destruct (build_succeeds parseaddr Email guess_extension uuid4_hex self
                  msg n Hpool Hsend) as [p Hp]; [|exact Hasm|].
      * unfold reply_to_valid.
        rewrite header_identity_closed, Hv. cbn [option_map].
        now rewrite Hstep, Hone.
      * exists p. split; [exact Hp|now apply Hpayload].
  - intros Hdiff.
    assert (same_identity (parsed field) (Email v None) = false) as Hno.
    { destruct (same_identity (parsed field) (Email v None)) eqn:E;
        [|reflexivity].
      apply same_identity_iff in E. destruct E, Hdiff; contradiction. }
    rewrite Hno in Hstep. cbn [negb] in Hstep.
    split.
    + apply build_raises_some. right. right. left.
      exists ReplyToConflict.
      rewrite header_identity_closed, Hv. exact Hstep.
    + intros Hpool Hsend.
      apply build_raises_reply_to; try assumption.
      rewrite header_identity_closed, Hv. exact Hstep.
Qed.

(** C2. In every payload the builder returns, the headers of the
    personalization block are exactly the extra headers whose name is
    not "reply-to" up to case, each with its name and value unchanged
    and in the mapping's order.  The headers named "reply-to" are not
    among them: the header loop turns the value [v] of the last one
    into the reply-to identity [Email(v)], whose address and display
    name are those the helper's constructor reads from the value, and
    that identity is the payload's unless a truthy reply-to field
    takes over.  It is the identity of the parsed address wherever
    the constructor agrees with the address parser on the value.  No
    header of another name supplies the identity. *)
Theorem reply_to_header_diverted
        (msg : EmailMessage) (n : nat) (p : Payload) :
  snd (build (mkWorld msg n)) = Ok p ->
  (exists pz,
      personalizations p = [pz]
      /\ headers pz
         = map (fun kv => mkHeader (fst kv) (snd kv))
             (other_headers (extra_headers msg)))
  /\ (forall k v, In (k, v) (other_headers (extra_headers msg))
                  <-> In (k, v) (extra_headers msg) /\ is_reply_to k = false)
  /\ header_identity msg
     = option_map (fun v => Email v None) (last_reply_to (extra_headers msg))
  /\ (forall v, last_reply_to (extra_headers msg) = Some v ->
                exists k, In (k, v) (extra_headers msg)
                          /\ Text.lower k = "reply-to")
  /\ ((forall field, reply_to msg = Some field -> truthy field = false) ->
      m_reply_to p
      = option_map (fun v => Email v None)
          (last_reply_to (extra_headers msg)))
  /\ (forall s,
         last_reply_to (extra_headers msg) = Some (PyStr s) ->
         Email (PyStr s) None = parsed (AddrStr s) ->
         (forall field, reply_to msg = Some field -> truthy field = false) ->
         m_reply_to p = Some (parsed (AddrStr s))).
Proof.
  intros Hp.
  apply build_ok_inv in Hp
    as (pool & sa & rt & a & atts & n' & _ & _ & Hr & _ & _ & _ & Hrt & _
        & _ & _ & pz & Hpz & Hh & _).
  assert ((forall field, reply_to msg = Some field -> truthy field = false) ->
          m_reply_to p
          = option_map (fun v => Email v None)
              (last_reply_to (extra_headers msg))) as Hpayload.
  { intros Hfalsy. rewrite Hrt, <- header_identity_closed.
    unfold reply_to_step in Hr.
    destruct (reply_to msg) as [field|]; [|congruence].
    rewrite (Hfalsy field eq_refl) in Hr. congruence. }
  split; [|split; [|split; [|split; [|split]]]].
  - exists pz. split; [exact Hpz|].
    rewrite Hh. now rewrite header_loop_closed.
  - intros k v. unfold other_headers. rewrite filter_In. cbn [fst].
    now rewrite negb_true_iff.
  - apply header_identity_closed.
  - intros v Hv. apply last_reply_to_in in Hv as (k & Hin & Hk).
    exists k. split; [exact Hin|]. now apply String.eqb_eq in Hk.
  - exact Hpayload.
  - intros s Hs Hagree Hfalsy.
    rewrite (Hpayload Hfalsy), Hs. cbn [option_map]. now rewrite Hagree.
Qed.

(** C10. A message whose reply-to field is present but falsy ([None],
    the empty string or the empty list): the reply-to block raises
    nothing and returns the identity it was given, so the builder
    raises neither a reply-to conflict nor a too-many-addresses
    error, every payload it returns holds the identity the header
    loop left (or none), and it does return a payload when the pool
    name, the send-at and the subscription descriptor are valid. *)
Theorem empty_reply_to_field_is_ignored
        (msg : EmailMessage) (n : nat) (field : address_value) :
  reply_to msg = Some field ->
  truthy field = false ->
  (forall current, reply_to_step parseaddr Email msg current = Ok current)
  /\ snd (build (mkWorld msg n)) <> Raise ReplyToConflict
  /\ snd (build (mkWorld msg n)) <> Raise TooManyReplyTo
  /\ (forall p, snd (build (mkWorld msg n)) = Ok p ->
                m_reply_to p
                = option_map (fun v => Email v None)
                    (last_reply_to (extra_headers msg)))
  /\ (pool_name_valid msg = true ->
      send_at_valid msg = true ->
      asm_valid msg = true ->
      exists p, snd (build (mkWorld msg n)) = Ok p).
Proof.
  intros Hf Ht.
  assert (forall current, reply_to_step parseaddr Email msg current = Ok current)
    as Hstep.
  { intros current. unfold reply_to_step. now rewrite Hf, Ht. }
  assert (forall e, snd (build (mkWorld msg n)) = Raise e ->
                    e <> ReplyToConflict /\ e <> TooManyReplyTo) as Hno.
  { intros e He.
    apply build_raise_inv in He as [H|[H|[H|H]]].
    - apply pool_name_step_raise in H as [ -> | [k -> ] ]; split; discriminate.
    - apply send_at_step_raise in H as ->. split; discriminate.
    - rewrite Hstep in H. discriminate.
    - apply asm_step_raise in H as ->. split; discriminate. }
  split; [exact Hstep|].
  split; [intros H; now destruct (Hno _ H) as [H1 _]|].
  split; [intros H; now destruct (Hno _ H) as [_ H2]|].
  split.
  - intros p Hp.
    apply build_ok_inv in Hp
      as (pool & sa & rt & a & atts & n' & _ & _ & Hr & _ & _ & _ & Hrt & _).
    rewrite Hstep in Hr. injection Hr as <-.
    now rewrite Hrt, header_identity_closed.
  - intros Hpool Hsend Hasm.
    apply build_succeeds; try assumption.
    unfold reply_to_valid. now rewrite Hstep.
Qed.

End ReplyTo.

(** ** Pool name *)

Section PoolName.

Variable parseaddr : address_value -> string * string.
Variable Email : pyval -> option string -> EmailObj.
Variable guess_extension : string -> option string.
Variable uuid4_hex : nat -> string.
Variable self : SendgridBackend.

Local Notation build :=
  (_build_sg_mail parseaddr Email guess_extension uuid4_hex self).

Lemma not_invalid_pool_name (e : exn) :
  e = InvalidSendAt \/ e = ReplyToConflict \/ e = TooManyReplyTo
  \/ e = MissingSubscriptionGroup ->
  ~ InvalidPoolName e.
Proof.
  intros [ -> | [ -> | [ -> | -> ] ] ] [H | [k H]]; discriminate.
Qed.

(** C5. A message that declares a pool name [v].  If [v] is not a
    string of 2 to 64 characters the builder raises the pool-name
    error and leaves the message as it was.  If [v] is a string [s]
    of 2 to 64 characters no pool-name error is raised, every payload
    the builder returns carries [s] itself as its pool name, and the
    builder does return one when the send-at, the reply-to and the
    subscription descriptor are valid. *)
Theorem pool_name_passthrough (msg : EmailMessage) (n : nat) (v : pyval) :
  ip_pool_name msg = Some v ->
  ((forall s, v = PyStr s -> ~ (2 <= String.length s <= 64)) ->
   exists e, build (mkWorld msg n) = (mkWorld msg n, Raise e)
             /\ InvalidPoolName e)
  /\ (forall s, v = PyStr s -> 2 <= String.length s <= 64 ->
      (forall e, snd (build (mkWorld msg n)) = Raise e -> ~ InvalidPoolName e)
      /\ (forall p, snd (build (mkWorld msg n)) = Ok p ->
                    m_ip_pool_name p = Some s)
      /\ (send_at_valid msg = true ->
          reply_to_valid parseaddr Email msg = true ->
          asm_valid msg = true ->
          exists p, snd (build (mkWorld msg n)) = Ok p
                    /\ m_ip_pool_name p = Some s)).
Proof.
  intros Hv. split.
  - intros Hbad.
    assert (exists e, pool_name_step msg = Raise e) as [e He].
    { unfold pool_name_step. rewrite Hv.
      destruct v as [| | |s| |]; eauto.
      destruct ((2 <=? String.length s) && (String.length s <=? 64))%nat
               eqn:Hlen; eauto.
      exfalso. apply (Hbad s eq_refl).
      apply andb_true_iff in Hlen as [H1 H2].
      apply Nat.leb_le in H1, H2. lia. }
    exists e. split.
    + now apply build_raises_pool.
    + now apply pool_name_step_raise in He.
  - intros s -> Hlen.
    assert (pool_name_step msg = Ok (Some s)) as Hstep.
    { unfold pool_name_step. rewrite Hv.
      replace ((2 <=? String.length s) && (String.length s <=? 64))%nat
        with true; [reflexivity|].
      symmetry. apply andb_true_iff. split; apply Nat.leb_le; lia. }
    assert (forall p, snd (build (mkWorld msg n)) = Ok p ->
                      m_ip_pool_name p = Some s) as Hpayload.
    { intros p Hp.
      apply build_ok_inv in Hp
        as (pool & sa & rt & a & atts & n' & Hpl & _ & _ & _ & _ & _ & _
            & Hpn & _).
      congruence. }
    split; [|split; [exact Hpayload|]].
    + intros e He.
      apply build_raise_inv in He as [H|[H|[H|H]]].
      * congruence.
      * apply send_at_step_raise in H. apply not_invalid_pool_name. tauto.
      * apply reply_to_step_raise in H
          as (f & _ & _ & [ [ -> _ ] | [ -> _ ] ]);
          apply not_invalid_pool_name; tauto.
      * apply asm_step_raise in H. apply not_invalid_pool_name. tauto.
    + intros Hs Hr Ha.
      destruct (build_succeeds parseaddr Email guess_extension uuid4_hex self
                  msg n) as [p Hp]; try assumption.
      * apply pool_name_valid_ok. eauto.
      * exists p. split; [exact Hp|now apply Hpayload].
Qed.

End PoolName.

(** ** Body and content parts *)

Section Contents.

Variable parseaddr : address_value -> string * string.
Variable Email : pyval -> option string -> EmailObj.
Variable guess_extension : string -> option string.
Variable uuid4_hex : nat -> string.
Variable self : SendgridBackend.

Local Notation build :=
  (_build_sg_mail parseaddr Email guess_extension uuid4_hex self).

Lemma build_contents_of (msg : EmailMessage) (n : nat) (p : Payload) :
  snd (build (mkWorld msg n)) = Ok p ->
  contents p = build_contents (set_body (coerce_body (body msg)) msg).
Proof.
  intros Hp.
  apply build_ok_inv in Hp
    as (pool & sa & rt & a & atts & n' & _ & _ & _ & _ & _ & _ & _ & _ & _
        & Hc & _).
  exact Hc.
Qed.

(** C6. A message whose body is the empty string: in every payload
    the builder returns, the part that carries the body has the
    value of one space.  The first part is the plain-text part with
    that value; a message with alternatives adds its "text/html"
    alternatives after it, an "html" message has the placeholder and
    the html part, both one space, and any other message has the one
    plain-text part. *)
Theorem empty_body_is_a_space (msg : EmailMessage) (n : nat) (p : Payload) :
  body msg = "" ->
  snd (build (mkWorld msg n)) = Ok p ->
  contents p
  = match alternatives msg with
    | Some alts =>
        mkContent "text/plain" " "
          :: map (fun alt => mkContent (snd alt) (fst alt))
               (filter (fun alt => String.eqb (snd alt) "text/html") alts)
    | None =>
        if String.eqb (content_subtype msg) "html"
        then [mkContent "text/plain" " "; mkContent "text/html" " "]
        else [mkContent "text/plain" " "]
    end
  /\ hd_error (contents p) = Some (mkContent "text/plain" " ")
  /\ (alternatives msg = None ->
      Forall (fun c => content_value c = " " /\ content_value c <> "")
        (contents p)).
Proof.
  intros Hb Hp. rewrite (build_contents_of msg n p Hp).
  unfold build_contents, coerce_body. rewrite Hb.
  cbn [set_body alternatives content_subtype body String.eqb].
  split; [reflexivity|]. split.
  - destruct (alternatives msg); [reflexivity|].
    now destruct (String.eqb (content_subtype msg) "html").
  - intros ->.
    destruct (String.eqb (content_subtype msg) "html");
      repeat constructor; discriminate.
Qed.

(** C7, as the code has it.  A message that is not an instance of the
    multi-alternative class and whose content subtype is "html": every
    payload the builder returns has exactly two content parts, the
    plain-text placeholder of one space and then the "text/html" part
    whose value is the body as line 239 leaves it, that is the body
    itself unless it was empty. *)
Theorem html_message_two_parts (msg : EmailMessage) (n : nat) (p : Payload) :
  alternatives msg = None ->
  content_subtype msg = "html" ->
  snd (build (mkWorld msg n)) = Ok p ->
  contents p
  = [mkContent "text/plain" " ";
     mkContent "text/html" (coerce_body (body msg))]
  /\ (body msg <> "" ->
      contents p
      = [mkContent "text/plain" " "; mkContent "text/html" (body msg)]).
Proof.
  intros Ha Hs Hp. rewrite (build_contents_of msg n p Hp).
  unfold build_contents.
  cbn [set_body alternatives content_subtype body].
  rewrite Ha, Hs. cbn [String.eqb Ascii.eqb Bool.eqb].
  split; [reflexivity|].
  intros Hne. unfold coerce_body.
  destruct (String.eqb (body msg) "") eqn:E; [|reflexivity].
  apply String.eqb_eq in E. contradiction.
Qed.

(** C8. A multi-alternative message with two alternatives, one of
    subtype "text/html" and one of another subtype, in either order:
    every payload the builder returns has exactly two content parts,
    the plain-text part with the body (one space for an empty body)
    and then the html alternative; the other alternative gives no
    part. *)
Theorem html_alternative_kept_other_dropped
        (msg : EmailMessage) (n : nat) (p : Payload)
        (alts : list (string * string)) (html other subtype : string) :
  alternatives msg = Some alts ->
  alts = [(html, "text/html"); (other, subtype)]
  \/ alts = [(other, subtype); (html, "text/html")] ->
  subtype <> "text/html" ->
  snd (build (mkWorld msg n)) = Ok p ->
  contents p
  = [mkContent "text/plain" (coerce_body (body msg));
     mkContent "text/html" html]
  /\ List.length (contents p) = 2
  /\ (body msg <> "" ->
      hd_error (contents p) = Some (mkContent "text/plain" (body msg))).
Proof.
  intros Ha Halts Hsub Hp. rewrite (build_contents_of msg n p Hp).
  unfold build_contents.
  cbn [set_body alternatives content_subtype body].
  rewrite Ha.
  assert (String.eqb subtype "text/html" = false) as Hno
      by now apply String.eqb_neq.
  assert (String.eqb "text/html" "text/html" = true) as Hyes
      by apply String.eqb_refl.
  assert (filter (fun alt : string * string => String.eqb (snd alt) "text/html")
            alts = [(html, "text/html")]) as Hf.
  { destruct Halts as [ -> | -> ]; cbn [filter snd]; now rewrite Hno, Hyes. }
  rewrite Hf. cbn [map fst snd].
  split; [reflexivity|]. split; [reflexivity|].
  intros Hne. unfold coerce_body. cbn [hd_error].
  destruct (String.eqb (body msg) "") eqn:E; [|reflexivity].
  apply String.eqb_eq in E. contradiction.
Qed.

End Contents.

(** ** Attachments *)

Section Attachments.

Variable parseaddr : address_value -> string * string.
Variable Email : pyval -> option string -> EmailObj.
Variable guess_extension : string -> option string.
Variable uuid4_hex : nat -> string.
Variable self : SendgridBackend.

Local Notation build :=
  (_build_sg_mail parseaddr Email guess_extension uuid4_hex self).
Local Notation attach := (build_attachment guess_extension uuid4_hex).

(** The payload's attachments are the source's, one for one. *)
Lemma build_attachments_of (msg : EmailMessage) (n : nat) (p : Payload) :
  snd (build (mkWorld msg n)) = Ok p ->
  Forall2 (fun src a =>
             exists k k', attach src (mkWorld msg k) = (mkWorld msg k', Ok a))
    (attachments msg) (m_attachments p).
Proof.
  intros Hp.
  apply build_ok_inv in Hp
    as (pool & sa & rt & a & atts & n' & _ & _ & _ & _ & Hall & _ & _ & _
        & Hatts & _).
  now rewrite Hatts.
Qed.

Lemma synthesized_nonempty (token ext : string) :
  ("part-" ++ token ++ ext)%string <> "".
Proof. discriminate. Qed.

Lemma truthy_filename (f : option string) :
  falsy_str f = false -> exists s, f = Some s /\ s <> "".
Proof.
  destruct f as [[|c t]|]; try discriminate.
  intros _. exists (String c t). split; [reflexivity|discriminate].
Qed.

(** C4, as the code has it.  In every payload the builder returns,
    the attachments follow the message's, one for one.  One built
    from a structured part has a filename that is not empty: the
    part's own when it has one, and otherwise "part-", a random hex
    token and what the extension guess for the declared content type
    formats to.  One built from a tuple has the tuple's filename as
    given, so an empty or missing filename stays so. *)
Theorem attachment_filenames (msg : EmailMessage) (n : nat) (p : Payload) :
  snd (build (mkWorld msg n)) = Ok p ->
  Forall2
    (fun src a =>
       match src with
       | MIMEPart part =>
           (exists f, filename a = Some f /\ f <> "")
           /\ (falsy_str (get_filename part) = false ->
               filename a = get_filename part)
           /\ (falsy_str (get_filename part) = true ->
               exists k,
                 filename a
                 = Some ("part-" ++ uuid4_hex k
                           ++ format_ext
                                (guess_extension (get_content_type part)))%string)
       | TuplePart fname _ _ => filename a = fname
       end)
    (attachments msg) (m_attachments p).
Proof.
  intros Hp.
  eapply Forall2_impl; [|exact (build_attachments_of msg n p Hp)].
  intros [part|fname b m] a (k & k' & Ha).
  - destruct (mime_attachment_run guess_extension uuid4_hex part msg k)
      as (a' & k2 & Hrun & Hf & _).
    cbn [build_attachment] in Ha. rewrite Hrun in Ha.
    injection Ha as _ <-. rewrite Hf.
    destruct (falsy_str (get_filename part)) eqn:Hfalsy.
    + split; [|split; [discriminate|]].
      * eexists. split; [reflexivity|]. apply synthesized_nonempty.
      * intros _. now exists k.
    + split; [|split; [reflexivity|discriminate]].
      now apply truthy_filename.
  - cbn [build_attachment] in Ha. unfold ret in Ha.
    injection Ha as _ <-. reflexivity.
Qed.

(** C9. A tuple attachment with text content: the payload content is
    Base64 text that decodes to the UTF-8 bytes of the text, one to
    four bytes for each scalar value as RFC 3629 lays them out, so
    that decoding those bytes as UTF-8 gives the text back.  With
    bytes content the Base64 text decodes to those bytes themselves.
    This holds for every tuple attachment of every payload the
    builder returns.  The text "hello" gives the bytes 68 65 6c 6c
    6f, U+00E9 gives c3 a9, U+20AC gives e2 82 ac and U+1F600 gives
    f0 9f 98 80, and the first and last scalar value of each length
    give the bytes the standard names. *)
Theorem tuple_attachment_content :
  (forall fname s mimetype,
      exists text bytes,
        content (tuple_attachment fname (TextContent s) mimetype) = Some text
        /\ Base64.b64decode text = Some bytes
        /\ bytes = Text.encode_utf8 s
        /\ Text.decode_utf8 bytes = Some s
        /\ List.length bytes
           = list_sum
               (map (fun c =>
                       if (Text.cp_value c <? 128)%N then 1
                       else if (Text.cp_value c <? 2048)%N then 2
                       else if (Text.cp_value c <? 65536)%N then 3
                       else 4) s))
  /\ (forall fname bs mimetype,
         exists text,
           content (tuple_attachment fname (BytesContent bs) mimetype)
           = Some text
           /\ Base64.b64decode text = Some bs)
  /\ (Text.encode_utf8 (Text.codepoints "hello") = [x68; x65; x6c; x6c; x6f]
      /\ map Text.cp_value
           [Text.chr 233; Text.chr 8364; Text.chr 128512; Text.chr 127;
            Text.chr 128; Text.chr 2047; Text.chr 2048; Text.chr 55295;
            Text.chr 57344; Text.chr 65535; Text.chr 65536;
            Text.chr 1114111]
         = [233; 8364; 128512; 127; 128; 2047; 2048; 55295; 57344; 65535;
            65536; 1114111]%N
      /\ Text.encode_utf8 [Text.chr 233] = [xc3; xa9]
      /\ Text.encode_utf8 [Text.chr 8364] = [xe2; x82; xac]
      /\ Text.encode_utf8 [Text.chr 128512] = [xf0; x9f; x98; x80]
      /\ Text.encode_utf8 [Text.chr 127; Text.chr 128] = [x7f; xc2; x80]
      /\ Text.encode_utf8 [Text.chr 2047; Text.chr 2048]
         = [xdf; xbf; xe0; xa0; x80]
      /\ Text.encode_utf8 [Text.chr 55295; Text.chr 57344]
         = [xed; x9f; xbf; xee; x80; x80]
      /\ Text.encode_utf8 [Text.chr 65535; Text.chr 65536]
         = [xef; xbf; xbf; xf0; x90; x80; x80]
      /\ Text.encode_utf8 [Text.chr 1114111] = [xf4; x8f; xbf; xbf])
  /\ (forall msg n p,
         snd (build (mkWorld msg n)) = Ok p ->
         Forall2
           (fun src a =>
              match src with
              | TuplePart _ (TextContent s) _ =>
                  exists text bytes,
                    content a = Some text
                    /\ Base64.b64decode text = Some bytes
                    /\ bytes = Text.encode_utf8 s
                    /\ Text.decode_utf8 bytes = Some s
              | TuplePart _ (BytesContent bs) _ =>
                  exists text,
                    content a = Some text
                    /\ Base64.b64decode text = Some bs
              | MIMEPart _ => True
              end)
           (attachments msg) (m_attachments p)).
Proof.
  split; [|split; [|split]].
  - intros fname s mimetype.
    exists (Base64.b64encode (Text.encode_utf8 s)), (Text.encode_utf8 s).
    split; [reflexivity|]. split; [apply b64decode_b64encode|].
    split; [reflexivity|]. split; [apply decode_utf8_encode_utf8|].
    induction s as [|c t IH]; [reflexivity|].
    cbn [Text.encode_utf8 map list_sum].
    now rewrite length_app, utf8_char_length, IH.
  - intros fname bs mimetype.
    exists (Base64.b64encode bs).
    split; [reflexivity|apply b64decode_b64encode].
  - repeat split; vm_compute; reflexivity.
  - intros msg n p Hp.
    eapply Forall2_impl; [|exact (build_attachments_of msg n p Hp)].
    intros [part|fname [s|bs] m] a (k & k' & Ha); [exact I| |];
      cbn [build_attachment] in Ha; unfold ret in Ha;
      injection Ha as _ <-.
    + exists (Base64.b64encode (Text.encode_utf8 s)), (Text.encode_utf8 s).
      split; [reflexivity|]. split; [apply b64decode_b64encode|].
      split; [reflexivity|apply decode_utf8_encode_utf8].
    + exists (Base64.b64encode bs).
      split; [reflexivity|apply b64decode_b64encode].
Qed.

End Attachments.

(** ** What a run changes in the message *)

Section Frame.

Variable parseaddr : address_value -> string * string.
Variable Email : pyval -> option string -> EmailObj.
Variable guess_extension : string -> option string.
Variable uuid4_hex : nat -> string.
Variable self : SendgridBackend.
Variable post : nat -> Payload -> option Response.

Local Notation build :=
  (_build_sg_mail parseaddr Email guess_extension uuid4_hex self).
Local Notation send_loop' :=
  (send_loop parseaddr Email guess_extension uuid4_hex self post).

Lemma set_body_same (msg : EmailMessage) : set_body (body msg) msg = msg.
Proof. now destruct msg. Qed.

Lemma coerce_body_nonempty (b : string) : b <> "" -> coerce_body b = b.
Proof.
  intros H. unfold coerce_body.
  destruct (String.eqb b "") eqn:E; [|reflexivity].
  apply String.eqb_eq in E. contradiction.
Qed.

Lemma touched_refl (msg : EmailMessage) : touched msg msg.
Proof. split; [reflexivity|now left]. Qed.

Lemma touched_by_build (msg : EmailMessage) (n : nat) :
  touched msg (w_msg (fst (build (mkWorld msg n))))
  /\ extra_headers (w_msg (fst (build (mkWorld msg n)))) = extra_headers msg.
Proof.
  destruct (build_message_after parseaddr Email guess_extension uuid4_hex
              self msg n) as [[-> _]| ->].
  - split; [apply touched_refl|reflexivity].
  - split; [|reflexivity]. split; [reflexivity|].
    cbn [set_body body]. unfold coerce_body.
    destruct (String.eqb (body msg) "") eqn:E; [|now left].
    apply String.eqb_eq in E. now right.
Qed.

Lemma touched_record_response (resp : Response) (before msg : EmailMessage) :
  touched before msg -> touched before (record_response resp msg).
Proof. intros [Hf Hb]. split; [exact Hf|exact Hb]. Qed.

Lemma send_loop_touched (msgs : list EmailMessage) (drawn calls success : nat) :
  Forall2 touched msgs (fst (send_loop' msgs drawn calls success)).
Proof.
  assert (forall l : list EmailMessage, Forall2 touched l l) as Hrefl.
  { induction l; constructor; [apply touched_refl|assumption]. }
  revert drawn calls success.
  induction msgs as [|msg rest IH]; intros drawn calls success.
  - constructor.
  - cbn [send_loop].
    destruct (touched_by_build msg drawn) as [Ht _].
    destruct (build (mkWorld msg drawn)) as [w [data|e]];
      cbn [fst w_msg] in Ht.
    + destruct (post calls data) as [resp|].
      * specialize (IH (w_drawn w) (S calls) (S success)).
        destruct (send_loop' rest (w_drawn w) (S calls) (S success))
          as [rest' r].
        cbn [fst] in *. constructor; [|exact IH].
        now apply touched_record_response.
      * destruct (fail_silently self).
        -- specialize (IH (w_drawn w) (S calls) success).
           destruct (send_loop' rest (w_drawn w) (S calls) success)
             as [rest' r].
           cbn [fst] in *. now constructor.
        -- cbn [fst]. constructor; [exact Ht|apply Hrefl].
    + cbn [fst]. constructor; [exact Ht|apply Hrefl].
Qed.

(** C3, as the code has it.  A run of the builder changes nothing of
    the message but [body]: the message afterwards is the message
    before with at most [body] replaced, [body] is replaced only
    when it was the empty string, by one space, and that happens in
    every run that returns a payload; a message whose body is not
    empty is left exactly as it was.  [send_messages] changes nothing
    but [body], in that way, and [extra_headers], and after one
    successful send of one message its [extra_headers] are the old
    ones with "status" set to the status code and, for a truthy
    message id, "message_id" set to it. *)
Theorem build_changes_only_the_body (msg : EmailMessage) (n : nat) :
  let after := w_msg (fst (build (mkWorld msg n))) in
  set_body (body msg) after = msg
  /\ (body after = body msg \/ (body msg = "" /\ body after = " "))
  /\ (body msg <> "" -> after = msg)
  /\ (forall p, snd (build (mkWorld msg n)) = Ok p ->
                after = set_body (coerce_body (body msg)) msg)
  /\ (forall msgs,
         Forall2 touched msgs
           (fst (send_messages parseaddr Email guess_extension uuid4_hex
                   self post msgs)))
  /\ (forall p resp,
         snd (build (mkWorld msg 0)) = Ok p ->
         post 0 p = Some resp ->
         send_messages parseaddr Email guess_extension uuid4_hex self post
           [msg]
         = ([record_response resp (set_body (coerce_body (body msg)) msg)],
            Ok 1)).
Proof.
  cbn zeta.
  split; [|split; [|split; [|split; [|split]]]].
  - destruct (build_message_after parseaddr Email guess_extension uuid4_hex
                self msg n) as [[-> _]| ->].
    + apply set_body_same.
    + now destruct msg.
  - destruct (touched_by_build msg n) as [[_ Hb] _]. exact Hb.
  - intros Hne.
    destruct (build_message_after parseaddr Email guess_extension uuid4_hex
                self msg n) as [[-> _]| ->]; [reflexivity|].
    rewrite (coerce_body_nonempty _ Hne). apply set_body_same.
  - intros p Hp.
    apply build_ok_inv in Hp
      as (pool & sa & rt & a & atts & n' & _ & _ & _ & _ & _ & Hw & _).
    now rewrite Hw.
  - intros msgs. apply send_loop_touched.
  - intros p resp Hp Hpost.
    unfold send_messages. cbn [send_loop].
    pose proof Hp as Hinv.
    apply build_ok_inv in Hinv
      as (pool & sa & rt & a & atts & n' & _ & _ & _ & _ & _ & Hw & _).
    destruct (build (mkWorld msg 0)) as [w r].
    cbn [fst snd] in *. subst w r. now rewrite Hpost.
Qed.

End Frame.

(** ** The properties on sample messages *)

Lemma reply_to_header_and_field_witness :
  (exists p, snd (Sample.build Sample.reply_same) = Ok p
             /\ m_reply_to p = Some (mkEmail (Some "a@x.com") None))
  /\ Sample.build Sample.reply_differs
     = (mkWorld Sample.reply_differs 0, Raise ReplyToConflict).
Proof.
  split.
  - destruct (reply_to_header_and_field Sample.parseaddr Sample.Email
                Sample.guess_extension Sample.uuid4_hex Sample.backend
                Sample.reply_same 0 (PyStr "a@x.com") (AddrStr "a@x.com")
                eq_refl eq_refl eq_refl) as [Hsame _].
    destruct (Hsame (conj eq_refl eq_refl)) as (_ & _ & Hex).
    exact (Hex eq_refl eq_refl eq_refl eq_refl).
  - destruct (reply_to_header_and_field Sample.parseaddr Sample.Email
                Sample.guess_extension Sample.uuid4_hex Sample.backend
                Sample.reply_differs 0 (PyStr "a@x.com") (AddrStr "b@x.com")
                eq_refl eq_refl eq_refl) as [_ Hdiff].
    assert (email (parsed_email Sample.parseaddr Sample.Email (AddrStr "b@x.com"))
            <> email (Sample.Email (PyStr "a@x.com") None)) as Hne
        by (vm_compute; discriminate).
    destruct (Hdiff (or_introl Hne)) as [_ Hraise].
    exact (Hraise eq_refl eq_refl).
Defined.

Lemma reply_to_header_diverted_witness :
  exists p,
    snd (Sample.build Sample.with_reply_to_header) = Ok p
    /\ m_reply_to p = Some (mkEmail (Some "a@x.com") None)
    /\ exists pz,
        personalizations p = [pz]
        /\ headers pz = [mkHeader "X-Campaign" (PyStr "spring");
                         mkHeader "X-Mailer" (PyStr "django")].
Proof.
  eexists. split; [vm_compute; reflexivity|].
  match goal with
  | |- m_reply_to ?p = _ /\ _ =>
      destruct (reply_to_header_diverted Sample.parseaddr Sample.Email
                  Sample.guess_extension Sample.uuid4_hex Sample.backend
                  Sample.with_reply_to_header 0 p)
        as (Hh & _ & _ & _ & Hr & _); [vm_compute; reflexivity|]
  end.
  split.
  - apply Hr. intros field [= <-]. reflexivity.
  - exact Hh.
Defined.

Lemma empty_reply_to_field_is_ignored_witness :
  (exists p, snd (Sample.build Sample.message) = Ok p /\ m_reply_to p = None)
  /\ (exists p, snd (Sample.build Sample.with_reply_to_header) = Ok p
                /\ m_reply_to p = Some (mkEmail (Some "a@x.com") None)).
Proof.
  split.
  - destruct (empty_reply_to_field_is_ignored Sample.parseaddr Sample.Email
                Sample.guess_extension Sample.uuid4_hex Sample.backend
                Sample.message 0 (AddrList []) eq_refl eq_refl)
      as (_ & _ & _ & Hid & Hex).
    destruct (Hex eq_refl eq_refl eq_refl) as [p Hp].
    exists p. split; [exact Hp|exact (Hid p Hp)].
  - destruct (empty_reply_to_field_is_ignored Sample.parseaddr Sample.Email
                Sample.guess_extension Sample.uuid4_hex Sample.backend
                Sample.with_reply_to_header 0 (AddrList []) eq_refl eq_refl)
      as (_ & _ & _ & Hid & Hex).
    destruct (Hex eq_refl eq_refl eq_refl) as [p Hp].
    exists p. split; [exact Hp|exact (Hid p Hp)].
Defined.

Lemma pool_name_passthrough_witness :
  (exists e,
      Sample.build (Sample.with_pool (PyStr "a") Sample.message)
      = (mkWorld (Sample.with_pool (PyStr "a") Sample.message) 0, Raise e)
      /\ InvalidPoolName e)
  /\ (exists e,
         Sample.build (Sample.with_pool (PyStr Sample.name65) Sample.message)
         = (mkWorld (Sample.with_pool (PyStr Sample.name65) Sample.message) 0,
            Raise e)
         /\ InvalidPoolName e)
  /\ (exists e,
         Sample.build (Sample.with_pool (PyInt 7) Sample.message)
         = (mkWorld (Sample.with_pool (PyInt 7) Sample.message) 0, Raise e)
         /\ InvalidPoolName e)
  /\ (exists p,
         snd (Sample.build (Sample.with_pool (PyStr "ab") Sample.message)) = Ok p
         /\ m_ip_pool_name p = Some "ab")
  /\ (exists p,
         snd (Sample.build (Sample.with_pool (PyStr Sample.name64) Sample.message))
         = Ok p
         /\ m_ip_pool_name p = Some Sample.name64).
Proof.
  split; [|split; [|split; [|split]]].
  - destruct (pool_name_passthrough Sample.parseaddr Sample.Email
                Sample.guess_extension Sample.uuid4_hex Sample.backend
                (Sample.with_pool (PyStr "a") Sample.message) 0 (PyStr "a")
                eq_refl) as [Hbad _].
    apply Hbad. intros s [= <-]. cbn. lia.
  - destruct (pool_name_passthrough Sample.parseaddr Sample.Email
                Sample.guess_extension Sample.uuid4_hex Sample.backend
                (Sample.with_pool (PyStr Sample.name65) Sample.message) 0
                (PyStr Sample.name65) eq_refl) as [Hbad _].
    apply Hbad. intros s [= <-]. cbn. lia.
  - destruct (pool_name_passthrough Sample.parseaddr Sample.Email
                Sample.guess_extension Sample.uuid4_hex Sample.backend
                (Sample.with_pool (PyInt 7) Sample.message) 0 (PyInt 7)
                eq_refl) as [Hbad _].
    apply Hbad. intros s H. discriminate H.
  - destruct (pool_name_passthrough Sample.parseaddr Sample.Email
                Sample.guess_extension Sample.uuid4_hex Sample.backend
                (Sample.with_pool (PyStr "ab") Sample.message) 0 (PyStr "ab")
                eq_refl) as [_ Hgood].
    destruct (Hgood "ab" eq_refl) as (_ & _ & Hex); [cbn; lia|].
    exact (Hex eq_refl eq_refl eq_refl).
  - destruct (pool_name_passthrough Sample.parseaddr Sample.Email
                Sample.guess_extension Sample.uuid4_hex Sample.backend
                (Sample.with_pool (PyStr Sample.name64) Sample.message) 0
                (PyStr Sample.name64) eq_refl) as [_ Hgood].
    destruct (Hgood Sample.name64 eq_refl) as (_ & _ & Hex); [cbn; lia|].
    exact (Hex eq_refl eq_refl eq_refl).
Defined.

Lemma empty_body_is_a_space_witness :
  exists p,
    snd (Sample.build Sample.empty_body) = Ok p
    /\ contents p = [mkContent "text/plain" " "].
Proof.
  eexists. split; [vm_compute; reflexivity|].
  match goal with
  | |- contents ?p = _ =>
      destruct (empty_body_is_a_space Sample.parseaddr Sample.Email
                  Sample.guess_extension Sample.uuid4_hex Sample.backend
                  Sample.empty_body 0 p) as (Hc & _);
        [reflexivity|vm_compute; reflexivity|exact Hc]
  end.
Defined.

Lemma html_message_two_parts_witness :
  exists p,
    snd (Sample.build Sample.html_message) = Ok p
    /\ contents p
       = [mkContent "text/plain" " "; mkContent "text/html" "<p>Hi</p>"].
Proof.
  eexists. split; [vm_compute; reflexivity|].
  match goal with
  | |- contents ?p = _ =>
      destruct (html_message_two_parts Sample.parseaddr Sample.Email
                  Sample.guess_extension Sample.uuid4_hex Sample.backend
                  Sample.html_message 0 p) as (Hc & _);
        [reflexivity|reflexivity|vm_compute; reflexivity|exact Hc]
  end.
Defined.

Lemma html_alternative_kept_other_dropped_witness :
  exists p,
    snd (Sample.build Sample.two_alternatives) = Ok p
    /\ contents p
       = [mkContent "text/plain" "Hello, World!";
          mkContent "text/html" "<p>Hi</p>"].
Proof.
  eexists. split; [vm_compute; reflexivity|].
  match goal with
  | |- contents ?p = _ =>
      destruct (html_alternative_kept_other_dropped Sample.parseaddr
                  Sample.Email Sample.guess_extension Sample.uuid4_hex
                  Sample.backend Sample.two_alternatives 0 p
                  [("<p>Hi</p>", "text/html"); ("# Hi", "text/markdown")]
                  "<p>Hi</p>" "# Hi" "text/markdown")
        as (Hc & _);
        [reflexivity|now left|discriminate|vm_compute; reflexivity|exact Hc]
  end.
Defined.

Lemma attachment_filenames_witness :
  exists p a b,
    snd (Sample.build Sample.with_two_attachments) = Ok p
    /\ m_attachments p = [a; b]
    /\ filename a = Some "part-9f1c2d3e4a5b4c6d8e7f0a1b2c3d4e5f.png"
    /\ (exists f, filename a = Some f /\ f <> "")
    /\ filename b = Some "hello.txt".
Proof.
  eexists. eexists. eexists.
  split; [vm_compute; reflexivity|].
  split; [reflexivity|].
  split; [reflexivity|].
  match goal with
  | |- (exists f, filename ?a = _ /\ _) /\ filename ?b = _ =>
      pose proof (attachment_filenames Sample.parseaddr Sample.Email
                    Sample.guess_extension Sample.uuid4_hex Sample.backend
                    Sample.with_two_attachments 0
                    (mkMail (mkEmail (Some "sam@example.com") None) "Hello"
                       [mkPersonalization
                          [mkEmail (Some "john@example.com") None] [] []
                          "Hello" [] [] [] None None]
                       [mkContent "text/plain" "Hello, World!"]
                       [a; b] None [] None None
                       (mkMailSettings false)
                       (mkTrackingSettings true true false) None)
                    eq_refl) as H
  end.
  cbn [attachments m_attachments Sample.with_two_attachments
         Sample.with_attachments] in H.
  apply Forall2_cons_iff in H as [[Ha _] H].
  apply Forall2_cons_iff in H as [Hb _].
  split; [exact Ha|exact Hb].
Defined.

Lemma tuple_attachment_content_witness :
  exists p a,
    snd (Sample.build Sample.with_unicode_tuple) = Ok p
    /\ m_attachments p = [a]
    /\ content a = Some "aMOp4oKs8J+YgA=="
    /\ exists text bytes,
        content a = Some text
        /\ Base64.b64decode text = Some bytes
        /\ bytes = [x68; xc3; xa9; xe2; x82; xac; xf0; x9f; x98; x80]
        /\ Text.decode_utf8 bytes = Some Sample.unicode_text.
Proof.
  assert (exists p, snd (Sample.build Sample.with_unicode_tuple) = Ok p
                    /\ exists a, m_attachments p = [a]
                                 /\ content a = Some "aMOp4oKs8J+YgA==")
    as (p & Hp & a & Hatts & Hc).
  { eexists. split; [vm_compute; reflexivity|].
    eexists. split; reflexivity. }
  destruct (tuple_attachment_content Sample.parseaddr Sample.Email
              Sample.guess_extension Sample.uuid4_hex Sample.backend)
    as (_ & _ & _ & H).
  specialize (H Sample.with_unicode_tuple 0 p Hp).
  rewrite Hatts in H.
  cbn [attachments Sample.with_unicode_tuple Sample.with_attachments] in H.
  apply Forall2_cons_iff in H as [(text & bytes & Ht & Hd & Hb & Hu) _].
  exists p, a. split; [exact Hp|]. split; [exact Hatts|].
  split; [exact Hc|].
  exists text, bytes. split; [exact Ht|]. split; [exact Hd|].
  split; [rewrite Hb; reflexivity|exact Hu].
Defined.

Lemma build_changes_only_the_body_witness :
  w_msg (fst (Sample.build Sample.message)) = Sample.message
  /\ Sample.send [Sample.message]
     = ([set_extra_headers
           [("status", PyInt 202); ("message_id", PyStr "msg-0001")]
           Sample.message],
        Ok 1).
Proof.
  destruct (build_changes_only_the_body Sample.parseaddr Sample.Email
              Sample.guess_extension Sample.uuid4_hex Sample.backend
              Sample.post Sample.message 0)
    as (_ & _ & Hsame & _ & _ & Hsend).
  split.
  - apply Hsame. discriminate.
  - eapply eq_trans; [eapply Hsend; [vm_compute|]; reflexivity|].
    reflexivity.
Defined.

(** C3, as worded: the body after a run differs from the body before. *)
Lemma build_rewrites_an_empty_body :
  body Sample.empty_body = ""
  /\ body (w_msg (fst (Sample.build Sample.empty_body))) = " "
  /\ body (w_msg (fst (Sample.build Sample.empty_body)))
     <> body Sample.empty_body.
Proof.
  split; [reflexivity|]. split; [reflexivity|]. discriminate.
Qed.

(** C4, as worded: a tuple attachment given the empty filename keeps
    it, so the payload has an attachment whose filename is empty. *)
Lemma tuple_filename_may_be_empty :
  exists p a,
    snd (Sample.build Sample.with_unnamed_tuple) = Ok p
    /\ m_attachments p = [a]
    /\ filename a = Some ""
    /\ ~ (exists f, filename a = Some f /\ f <> "").
Proof.
  eexists. eexists.
  split; [vm_compute; reflexivity|].
  split; [reflexivity|]. split; [reflexivity|].
  intros (f & Hf & Hne). cbn in Hf. injection Hf as <-. now apply Hne.
Qed.

(** C7, as worded: an instance of the multi-alternative class with no
    alternatives and content subtype "html" gets one plain-text part
    that carries the body, not the two parts. *)
Lemma html_multi_without_alternatives_one_part :
  exists p,
    snd (Sample.build Sample.html_multi_no_alternatives) = Ok p
    /\ content_subtype Sample.html_multi_no_alternatives = "html"
    /\ alternatives Sample.html_multi_no_alternatives = Some []
    /\ contents p = [mkContent "text/plain" "<p>Hi</p>"]
    /\ contents p
       <> [mkContent "text/plain" " "; mkContent "text/html" "<p>Hi</p>"].
Proof.
  eexists.
  split; [vm_compute; reflexivity|].
  split; [reflexivity|]. split; [reflexivity|]. split; [reflexivity|].
  discriminate.
Qed.

(** * Further properties of the builder *)

Section Validation.

Variable parseaddr : address_value -> string * string.
Variable Email : pyval -> option string -> EmailObj.
Variable guess_extension : string -> option string.
Variable uuid4_hex : nat -> string.
Variable self : SendgridBackend.

Local Notation build :=
  (_build_sg_mail parseaddr Email guess_extension uuid4_hex self).
Local Notation header_identity msg :=
  (fst (header_loop Email (extra_headers msg))).
Local Notation parsed := (parsed_email parseaddr Email).

(** Everything a returned payload holds besides what [build_ok_inv]
    tells. *)
Lemma build_ok_envelope (msg : EmailMessage) (n : nat) (p : Payload) :
  snd (build (mkWorld msg n)) = Ok p ->
  m_from_email p = parsed (AddrStr (from_email msg))
  /\ m_subject p = subject msg
  /\ m_template_id p = template_id msg
  /\ m_categories p
     = match categories msg with
       | Some cats => map mkCategory cats
       | None => []
       end
  /\ mail_settings p = mkMailSettings (sandbox_mode self)
  /\ tracking_settings p
     = mkTrackingSettings (track_email self) (track_click self)
         (subscription self)
  /\ exists pz,
      personalizations p = [pz]
      /\ tos pz = map (fun a => parsed (AddrStr a)) (to msg)
      /\ ccs pz = map (fun a => parsed (AddrStr a)) (cc msg)
      /\ bccs pz = map (fun a => parsed (AddrStr a)) (bcc msg)
      /\ p_subject pz = subject msg
      /\ p_custom_args pz = items_to mkCustomArg (custom_args msg)
      /\ p_substitutions pz
         = match template_id msg with
           | Some _ => items_to mkSubstitution (substitutions msg)
           | None => []
           end
      /\ p_dynamic_template_data pz
         = match template_id msg with
           | Some _ => dynamic_template_data msg
           | None => None
           end.
Proof.
  destruct (build_attachments_run guess_extension uuid4_hex (attachments msg)
              msg n) as (atts & n' & Hatt & _).
  unfold _build_sg_mail, bind, get_msg, lift, put_msg, ret.
  cbn [w_msg w_drawn].
  destruct (header_loop Email (extra_headers msg)) as [rt0 hs].
  destruct (pool_name_step msg) as [pool|e]; [|discriminate].
  destruct (send_at_step msg) as [sa|e]; [|discriminate].
  destruct (reply_to_step parseaddr Email msg rt0) as [rt|e]; [|discriminate].
  rewrite Hatt. cbn [w_msg w_drawn].
  change (asm_step (set_body (coerce_body (body msg)) msg)) with (asm_step msg).
  destruct (asm_step msg) as [a|e]; [|discriminate].
  cbn [snd]. intros [= <-]. cbn.
  repeat (split; [reflexivity|]).
  eexists. repeat (split; [reflexivity|]). reflexivity.
Qed.

(** X1. A reply-to field that is a list of two or more addresses, on
    a message whose pool name and send-at are valid: without a
    reply-to header the builder raises the too-many-addresses error
    and leaves the message untouched; with one, the comparison of
    line 195 comes first, so it raises the conflict when the two
    identities differ and the too-many-addresses error when they do
    not. *)
Theorem reply_to_list_of_several
        (msg : EmailMessage) (n : nat) (l : list string) :
  reply_to msg = Some (AddrList l) ->
  2 <= List.length l ->
  pool_name_valid msg = true ->
  send_at_valid msg = true ->
  (last_reply_to (extra_headers msg) = None ->
   build (mkWorld msg n) = (mkWorld msg n, Raise TooManyReplyTo))
  /\ (forall v,
         last_reply_to (extra_headers msg) = Some v ->
         build (mkWorld msg n)
         = (mkWorld msg n,
            Raise (if same_identity (parsed (AddrList l)) (Email v None)
                   then TooManyReplyTo
                   else ReplyToConflict))).
Proof.
  intros Hf Hlen Hpool Hsend.
  assert (truthy (AddrList l) = true) as Ht
      by (destruct l; [cbn in Hlen; lia|reflexivity]).
  assert (single_address (AddrList l) = false) as Hs
      by (cbn; apply Nat.leb_gt; lia).
  split.
  - intros Hnone. apply build_raises_reply_to; try assumption.
    rewrite (reply_to_step_truthy parseaddr Email msg _ _ Hf Ht).
    rewrite header_loop_closed, Hnone. cbn [fst option_map reply_to_conflict].
    now rewrite Hs.
  - intros v Hv. apply build_raises_reply_to; try assumption.
    rewrite (reply_to_step_truthy parseaddr Email msg _ _ Hf Ht).
    rewrite header_loop_closed, Hv. cbn [fst option_map reply_to_conflict].
    destruct (same_identity (parsed (AddrList l)) (Email v None));
      cbn [negb]; [now rewrite Hs|reflexivity].
Qed.

(** X2. A message that declares a send-at [v] and whose pool name is
    valid.  When [v] is not an integer the builder raises the send-at
    error and leaves the message untouched.  When it is (a [bool]
    counts, being an [int] in Python) no send-at error is raised and
    every returned payload carries [v] unchanged on its one
    personalization block. *)
Theorem send_at_passthrough (msg : EmailMessage) (n : nat) (v : pyval) :
  send_at msg = Some v ->
  pool_name_valid msg = true ->
  (is_int v = false ->
   build (mkWorld msg n) = (mkWorld msg n, Raise InvalidSendAt))
  /\ (is_int v = true ->
      snd (build (mkWorld msg n)) <> Raise InvalidSendAt
      /\ forall p, snd (build (mkWorld msg n)) = Ok p ->
                   exists pz, personalizations p = [pz]
                              /\ p_send_at pz = Some v).
Proof.
  intros Hv Hpool. split.
  - intros Hint. apply build_raises_send_at; [assumption|].
    unfold send_at_step. now rewrite Hv, Hint.
  - intros Hint.
    assert (send_at_step msg = Ok (Some v)) as Hstep
        by (unfold send_at_step; now rewrite Hv, Hint).
    split.
    + intros Hraise.
      apply build_raise_inv in Hraise as [H|[H|[H|H]]].
      * apply pool_name_step_raise in H as [H|[k H]]; discriminate.
      * congruence.
      * apply reply_to_step_raise in H
          as (f & _ & _ & [ [H _] | [H _] ]); discriminate.
      * apply asm_step_raise in H. discriminate.
    + intros p Hp.
      apply build_ok_inv in Hp
        as (pool & sa & rt & a & atts & n' & _ & Hs & _ & _ & _ & _ & _ & _
            & _ & _ & pz & Hpz & _ & Hsa).
      exists pz. split; [exact Hpz|]. congruence.
Qed.

(** X3. A message with a subscription descriptor [d].  Without the key
    "group_id", and with the earlier checks passing, the builder
    raises [KeyError] for that key, after line 239 has already
    rewritten an empty body.  With it, every returned payload carries
    the group id, and the groups to display exactly when [d] has that
    key. *)
Theorem asm_group_id (msg : EmailMessage) (n : nat) (d : dict pyval) :
  asm msg = Some d ->
  (dict_get "group_id" d = None ->
   pool_name_valid msg = true ->
   send_at_valid msg = true ->
   reply_to_valid parseaddr Email msg = true ->
   snd (build (mkWorld msg n)) = Raise MissingSubscriptionGroup
   /\ w_msg (fst (build (mkWorld msg n)))
      = set_body (coerce_body (body msg)) msg)
  /\ (forall g,
         dict_get "group_id" d = Some g ->
         forall p, snd (build (mkWorld msg n)) = Ok p ->
                   m_asm p = Some (mkASM g (dict_get "groups_to_display" d))).
Proof.
  intros Hd. split.
  - intros Hg Hpool Hsend Hreply.
    apply pool_name_valid_ok in Hpool as [pool Hpool].
    apply send_at_valid_ok in Hsend as [sa Hsend].
    apply (reply_to_valid_ok parseaddr Email) in Hreply as [rt Hreply].
    destruct (build_run parseaddr Email guess_extension uuid4_hex self msg n)
      as (atts & n' & _ & _ & Hrun).
    rewrite Hpool, Hsend, Hreply in Hrun. cbn zeta in Hrun.
    unfold asm_step in Hrun. rewrite Hd, Hg in Hrun.
    rewrite Hrun. split; reflexivity.
  - intros g Hg p Hp.
    destruct (build_run parseaddr Email guess_extension uuid4_hex self msg n)
      as (atts & n' & _ & _ & Hrun).
    destruct (pool_name_step msg) as [pool|e];
      [|rewrite Hrun in Hp; discriminate].
    destruct (send_at_step msg) as [sa|e];
      [|rewrite Hrun in Hp; discriminate].
    destruct (reply_to_step parseaddr Email msg (header_identity msg))
      as [rt|e]; [|rewrite Hrun in Hp; discriminate].
    cbn zeta in Hrun. unfold asm_step in Hrun. rewrite Hd, Hg in Hrun.
    destruct Hrun as (q & Hq & _ & _ & _ & _ & Hasm & _).
    rewrite Hq in Hp. cbn in Hp. injection Hp as <-. exact Hasm.
Qed.

(** X4. When the builder raises one of its [ValueError]s (pool name,
    send-at, reply-to) nothing has happened yet: the message is as it
    was and no random token has been drawn.  Only the [KeyError] of
    the subscription descriptor comes after the attachments and the
    body. *)
Theorem value_errors_leave_no_trace
        (msg : EmailMessage) (n : nat) (why : value_error) :
  snd (build (mkWorld msg n)) = Raise (ValueError why) ->
  build (mkWorld msg n) = (mkWorld msg n, Raise (ValueError why)).
Proof.
  intros H.
  destruct (build_run parseaddr Email guess_extension uuid4_hex self msg n)
    as (atts & n' & _ & _ & Hrun).
  destruct (pool_name_step msg) as [pool|e].
  2:{ rewrite Hrun in H |- *. cbn in H. now injection H as ->. }
  destruct (send_at_step msg) as [sa|e].
  2:{ rewrite Hrun in H |- *. cbn in H. now injection H as ->. }
  destruct (reply_to_step parseaddr Email msg (header_identity msg))
    as [rt|e].
  2:{ rewrite Hrun in H |- *. cbn in H. now injection H as ->. }
  cbn zeta in Hrun.
  destruct (asm_step msg) as [a|e] eqn:Ha.
  - destruct Hrun as (q & Hq & _). rewrite Hq in H. discriminate.
  - rewrite Hrun in H. cbn in H. injection H as ->.
    apply asm_step_raise in Ha. discriminate.
Qed.

(** X5. Every returned payload has exactly one personalization block.
    Its to, cc and bcc lists are the message's addresses, each parsed
    on its own, in the same order and number (so an empty list stays
    empty), and the subject is on the payload and on the block. *)
Theorem one_personalization_with_all_recipients
        (msg : EmailMessage) (n : nat) (p : Payload) :
  snd (build (mkWorld msg n)) = Ok p ->
  m_subject p = subject msg
  /\ m_from_email p = parsed (AddrStr (from_email msg))
  /\ exists pz,
      personalizations p = [pz]
      /\ p_subject pz = subject msg
      /\ tos pz = map (fun a => parsed (AddrStr a)) (to msg)
      /\ ccs pz = map (fun a => parsed (AddrStr a)) (cc msg)
      /\ bccs pz = map (fun a => parsed (AddrStr a)) (bcc msg)
      /\ List.length (tos pz) = List.length (to msg)
      /\ List.length (ccs pz) = List.length (cc msg)
      /\ List.length (bccs pz) = List.length (bcc msg).
Proof.
  intros Hp.
  apply build_ok_envelope in Hp
    as (Hfrom & Hsubj & _ & _ & _ & _ & pz & Hpz & Hto & Hcc & Hbcc & Hps & _).
  split; [exact Hsubj|]. split; [exact Hfrom|].
  exists pz. rewrite Hto, Hcc, Hbcc, !length_map. tauto.
Qed.

(** X6. The substitutions and the dynamic template data are read only
    when the message has a template id: without one, every returned
    payload has no template id, no substitution and no dynamic data,
    whatever the message holds for them; with one, the substitutions
    are the message's, pair by pair and in order, and the dynamic data
    is the message's. *)
Theorem template_fields_need_a_template_id
        (msg : EmailMessage) (n : nat) (p : Payload) :
  snd (build (mkWorld msg n)) = Ok p ->
  exists pz,
    personalizations p = [pz]
    /\ m_template_id p = template_id msg
    /\ (template_id msg = None ->
        p_substitutions pz = [] /\ p_dynamic_template_data pz = None)
    /\ (forall t, template_id msg = Some t ->
                  p_substitutions pz
                  = items_to mkSubstitution (substitutions msg)
                  /\ p_dynamic_template_data pz = dynamic_template_data msg).
Proof.
  intros Hp.
  apply build_ok_envelope in Hp
    as (_ & _ & Ht & _ & _ & _ & pz & Hpz & _ & _ & _ & _ & _ & Hs & Hd).
  exists pz. split; [exact Hpz|]. split; [exact Ht|].
  split.
  - intros Hnone. now rewrite Hnone in Hs, Hd.
  - intros t Hsome. now rewrite Hsome in Hs, Hd.
Qed.

End Validation.

(** * Further properties of the attachments *)

Section AttachmentFacts.

Variable parseaddr : address_value -> string * string.
Variable Email : pyval -> option string -> EmailObj.
Variable guess_extension : string -> option string.
Variable uuid4_hex : nat -> string.
Variable self : SendgridBackend.

Local Notation build :=
  (_build_sg_mail parseaddr Email guess_extension uuid4_hex self).
Local Notation attach := (build_attachment guess_extension uuid4_hex).
Local Notation attach_all := (build_attachments guess_extension uuid4_hex).

(** A structured attachment, field by field. *)
Lemma mime_attachment_closed (part : MIMEBase) (msg : EmailMessage) (n : nat) :
  mime_attachment guess_extension uuid4_hex part (mkWorld msg n)
  = (mkWorld msg (if falsy_str (get_filename part) then S n else n),
     Ok (mkAttachment
           (if falsy_str (get_filename part)
            then Some ("part-" ++ uuid4_hex n
                         ++ format_ext (guess_extension (get_content_type part)))%string
            else get_filename part)
           (Some (Text.remove_char Text.newline (get_payload part)))
           (Some (get_content_type part))
           (if falsy_str (get_Content_ID part) then None
            else option_map stripped_content_id (get_Content_ID part))
           (if falsy_str (get_Content_ID part) then None else Some "inline"))).
Proof.
  unfold mime_attachment, bind, draw, ret, stripped_content_id.
  destruct (falsy_str (get_filename part)); cbn [w_msg w_drawn];
    destruct (get_Content_ID part) as [[|ch t]|];
    cbn [falsy_str Text.nonempty negb option_map];
    try reflexivity;
    destruct (Text.startswith (String ch t) "<"
              && Text.endswith (String ch t) ">"); reflexivity.
Qed.

Lemma endswith_snoc (s : string) (c d : ascii) :
  Text.endswith (String c (s ++ String d EmptyString)) d = true.
Proof.
  revert c. induction s as [|e t IH]; intros c.
  - cbn. apply Ascii.eqb_refl.
  - cbn [String.append]. cbn [Text.endswith]. apply IH.
Qed.

Lemma drop_last_snoc (s : string) (d : ascii) :
  Text.drop_last (s ++ String d EmptyString) = s.
Proof.
  induction s as [|e t IH]; [reflexivity|].
  cbn [String.append]. cbn [Text.drop_last].
  destruct (t ++ String d EmptyString)%string eqn:E.
  - destruct t; discriminate.
  - now rewrite IH.
Qed.

(** X7. The content-id of a payload attachment.  A structured
    attachment with a truthy "Content-ID" header gets the header's
    value, without its first and last character when these are "<"
    and ">", and the disposition "inline"; any other attachment has
    neither content-id nor disposition.  The stripping takes exactly
    the brackets off a bracketed id, leaves an id that does not start
    with "<" as it is, and turns the id "<>" into the empty
    string. *)
Theorem content_id_of_attachments :
  (forall msg n p,
      snd (build (mkWorld msg n)) = Ok p ->
      Forall2
        (fun src a =>
           match src with
           | MIMEPart part =>
               match get_Content_ID part with
               | Some c =>
                   if Text.nonempty c
                   then content_id a = Some (stripped_content_id c)
                        /\ disposition a = Some "inline"
                   else content_id a = None /\ disposition a = None
               | None => content_id a = None /\ disposition a = None
               end
           | TuplePart _ _ _ => content_id a = None /\ disposition a = None
           end)
        (attachments msg) (m_attachments p))
  /\ (forall s, stripped_content_id ("<" ++ s ++ ">") = s)
  /\ (forall s, Text.startswith s "<" = false -> stripped_content_id s = s)
  /\ (forall s, Text.endswith s ">" = false -> stripped_content_id s = s)
  /\ stripped_content_id "<>" = "".
Proof.
  split; [|split; [|split; [|split]]].
  - intros msg n p Hp.
    eapply Forall2_impl; [|exact (build_attachments_of parseaddr Email
                                    guess_extension uuid4_hex self msg n p Hp)].
    intros [part|fname b m] a (k & k' & Ha).
    + cbn [build_attachment] in Ha. rewrite mime_attachment_closed in Ha.
      injection Ha as _ <-. cbn [content_id disposition].
      destruct (get_Content_ID part) as [c|]; cbn [falsy_str option_map].
      * destruct (Text.nonempty c); cbn [negb]; split; reflexivity.
      * split; reflexivity.
    + cbn [build_attachment] in Ha. unfold ret in Ha.
      injection Ha as _ <-. split; reflexivity.
  - intros s. unfold stripped_content_id.
    cbn [String.append Text.startswith].
    change ("<" ++ s ++ ">")%string with (String "<" (s ++ ">")).
    cbn [Text.startswith].
    rewrite Ascii.eqb_refl, endswith_snoc. cbn [andb Text.slice_1_m1].
    apply drop_last_snoc.
  - intros s H. unfold stripped_content_id. now rewrite H.
  - intros s H. unfold stripped_content_id. rewrite H.
    now rewrite andb_false_r.
  - reflexivity.
Qed.

Lemma chars_remove_char (c : ascii) (s : string) :
  chars (Text.remove_char c s)
  = filter (fun d => negb (Ascii.eqb d c)) (chars s).
Proof.
  induction s as [|d t IH]; [reflexivity|].
  cbn [Text.remove_char chars filter].
  destruct (Ascii.eqb d c); cbn [negb chars]; now rewrite IH.
Qed.

(** X8. The content of a payload attachment built from a structured
    part is the part's payload without its newline characters: it
    contains no newline, and its characters are the payload's other
    characters in their order, so a payload without newlines is taken
    as it is. *)
Theorem structured_content_has_no_newline
        (msg : EmailMessage) (n : nat) (p : Payload) :
  snd (build (mkWorld msg n)) = Ok p ->
  Forall2
    (fun src a =>
       match src with
       | MIMEPart part =>
           exists text,
             content a = Some text
             /\ ~ In Text.newline (chars text)
             /\ chars text
                = filter (fun d => negb (Ascii.eqb d Text.newline))
                    (chars (get_payload part))
             /\ (~ In Text.newline (chars (get_payload part)) ->
                 text = get_payload part)
       | TuplePart _ _ _ => True
       end)
    (attachments msg) (m_attachments p).
Proof.
  intros Hp.
  eapply Forall2_impl; [|exact (build_attachments_of parseaddr Email
                                  guess_extension uuid4_hex self msg n p Hp)].
  intros [part|fname b m] a (k & k' & Ha); [|exact I].
  cbn [build_attachment] in Ha. rewrite mime_attachment_closed in Ha.
  injection Ha as _ <-. cbn [content].
  eexists. split; [reflexivity|]. split; [|split].
  - rewrite chars_remove_char. intros Hin.
    apply filter_In in Hin as [_ Hne].
    now rewrite Ascii.eqb_refl in Hne.
  - apply chars_remove_char.
  - intros Hno. induction (get_payload part) as [|d t IH]; [reflexivity|].
    cbn [Text.remove_char].
    destruct (Ascii.eqb d Text.newline) eqn:E.
    + apply Ascii.eqb_eq in E. subst d. exfalso. apply Hno. now left.
    + f_equal. apply IH. intros Hin. apply Hno. now right.
Qed.

Lemma b64_char_of (k : N) : (k < 64)%N -> is_b64_char (Base64.char_of k) = true.
Proof.
  intros H. unfold is_b64_char. now rewrite value_of_char_of.
Qed.

(** Base64 text: four characters for every three bytes begun, every
    character from the alphabet or the padding sign, hence no
    newline. *)
Lemma b64encode_shape (bs : list byte) :
  String.length (Base64.b64encode bs) = 4 * ((List.length bs + 2) / 3)
  /\ Forall (fun c => is_b64_char c = true) (chars (Base64.b64encode bs))
  /\ ~ In Text.newline (chars (Base64.b64encode bs)).
Proof.
  assert (String.length (Base64.b64encode bs) = 4 * ((List.length bs + 2) / 3)
          /\ Forall (fun c => is_b64_char c = true)
               (chars (Base64.b64encode bs))) as [Hlen Hall].
  { induction bs as [|a|a b|a b c rest [IHl IHa]] using list_ind3.
    - split; [reflexivity|constructor].
    - pose proof (to_N_lt a) as Ha.
      destruct (sextets_bound (Byte.to_N a) 0 0 Ha) as (B0 & _ & _ & _ & B4 & _);
        try nlia.
      split; [reflexivity|].
      cbn [Base64.b64encode chars].
      repeat constructor; try (now apply b64_char_of).
    - pose proof (to_N_lt a) as Ha. pose proof (to_N_lt b) as Hb.
      destruct (sextets_bound (Byte.to_N a) (Byte.to_N b) 0 Ha Hb)
        as (B0 & B1 & _ & _ & _ & B5); try nlia.
      split; [reflexivity|].
      cbn [Base64.b64encode chars].
      repeat constructor; try (now apply b64_char_of).
    - pose proof (to_N_lt a) as Ha. pose proof (to_N_lt b) as Hb.
      pose proof (to_N_lt c) as Hc.
      destruct (sextets_bound _ _ _ Ha Hb Hc) as (B0 & B1 & B2 & B3 & _ & _).
      split.
      + cbn [Base64.b64encode String.length List.length]. rewrite IHl.
        replace (S (S (S (List.length rest))) + 2)
          with (List.length rest + 2 + 1 * 3) by lia.
        rewrite Nat.div_add by lia. lia.
      + cbn [Base64.b64encode chars].
        repeat (constructor; [now apply b64_char_of|]). exact IHa. }
  split; [exact Hlen|]. split; [exact Hall|].
  intros Hin. rewrite Forall_forall in Hall.
  specialize (Hall _ Hin). discriminate Hall.
Qed.

(** X9. The content of a payload attachment built from a tuple is
    Base64 text of its bytes: four characters for every three bytes
    begun, so its length is a multiple of four, each character from
    the Base64 alphabet or the padding sign, and no newline. *)
Theorem tuple_content_is_base64_text
        (msg : EmailMessage) (n : nat) (p : Payload) :
  snd (build (mkWorld msg n)) = Ok p ->
  Forall2
    (fun src a =>
       match src with
       | TuplePart _ body _ =>
           exists text,
             content a = Some text
             /\ String.length text
                = 4 * ((List.length (content_bytes body) + 2) / 3)
             /\ Forall (fun c => is_b64_char c = true) (chars text)
             /\ ~ In Text.newline (chars text)
       | MIMEPart _ => True
       end)
    (attachments msg) (m_attachments p).
Proof.
  intros Hp.
  eapply Forall2_impl; [|exact (build_attachments_of parseaddr Email
                                  guess_extension uuid4_hex self msg n p Hp)].
  intros [part|fname b m] a (k & k' & Ha); [exact I|].
  cbn [build_attachment] in Ha. unfold ret in Ha.
  injection Ha as _ <-.
  exists (Base64.b64encode (content_bytes b)).
  split; [now destruct b|]. apply b64encode_shape.
Qed.

Lemma attach_closed (src : attachment_source) (msg : EmailMessage) (n : nat) :
  exists a,
    attach src (mkWorld msg n)
    = (mkWorld msg (if nameless src then S n else n), Ok a)
    /\ (nameless src = true ->
        exists part,
          src = MIMEPart part
          /\ filename a
             = Some ("part-" ++ uuid4_hex n
                       ++ format_ext
                            (guess_extension (get_content_type part)))%string).
Proof.
  destruct src as [part|fname b m].
  - cbn [build_attachment nameless]. rewrite mime_attachment_closed.
    eexists. split; [reflexivity|].
    intros Hn. exists part. split; [reflexivity|].
    cbn [filename]. now rewrite Hn.
  - eexists. split; [reflexivity|]. discriminate.
Qed.

(** The attachment loop draws one token for each attachment without
    a filename, in order. *)
Lemma attach_all_indexed (l : list attachment_source) (msg : EmailMessage)
      (n : nat) :
  exists atts,
    attach_all l (mkWorld msg n)
    = (mkWorld msg (n + count_nameless l), Ok atts)
    /\ forall i src a,
        nth_error l i = Some src ->
        nth_error atts i = Some a ->
        nameless src = true ->
        exists part,
          src = MIMEPart part
          /\ filename a
             = Some ("part-" ++ uuid4_hex (n + count_nameless (firstn i l))
                       ++ format_ext
                            (guess_extension (get_content_type part)))%string.
Proof.
  revert n. induction l as [|src0 rest IH]; intros n.
  - exists []. split.
    + cbn. unfold ret, count_nameless. cbn. now rewrite Nat.add_0_r.
    + intros [|i] src a H; discriminate H.
  - destruct (attach_closed src0 msg n) as (a0 & Ha0 & Hname0).
    destruct (IH (if nameless src0 then S n else n)) as (tl & Htl & Hidx).
    exists (a0 :: tl). split.
    + cbn [build_attachments]. unfold bind at 1. rewrite Ha0.
      unfold bind at 1. rewrite Htl. unfold ret. f_equal. f_equal.
      unfold count_nameless. cbn [filter].
      destruct (nameless src0); cbn [List.length]; lia.
    + intros [|i] src a Hsrc Ha Hn.
      * cbn in Hsrc, Ha. injection Hsrc as <-. injection Ha as <-.
        destruct (Hname0 Hn) as (part & -> & Hf).
        exists part. split; [reflexivity|].
        cbn [firstn]. unfold count_nameless. cbn. now rewrite Nat.add_0_r.
      * cbn [nth_error] in Hsrc, Ha.
        destruct (Hidx i src a Hsrc Ha Hn) as (part & -> & Hf).
        exists part. split; [reflexivity|]. rewrite Hf.
        replace (n + count_nameless (firstn (S i) (src0 :: rest)))
          with ((if nameless src0 then S n else n)
                + count_nameless (firstn i rest)); [reflexivity|].
        cbn [firstn]. unfold count_nameless. cbn [filter].
        destruct (nameless src0); cbn [List.length]; lia.
Qed.

Lemma count_nameless_app (a b : list attachment_source) :
  count_nameless (a ++ b) = count_nameless a + count_nameless b.
Proof.
  unfold count_nameless. now rewrite filter_app, length_app.
Qed.

Lemma count_firstn_split (l : list attachment_source) (i : nat)
      (src : attachment_source) :
  nth_error l i = Some src ->
  count_nameless l
  = count_nameless (firstn i l) + (if nameless src then 1 else 0)
    + count_nameless (skipn (S i) l).
Proof.
  intros H.
  rewrite <- (firstn_skipn_middle i l H) at 1.
  rewrite count_nameless_app.
  unfold count_nameless at 2. cbn [filter].
  fold (count_nameless (skipn (S i) l)).
  destruct (nameless src); cbn [List.length]; unfold count_nameless; lia.
Qed.

Lemma count_firstn_lt (l : list attachment_source) (i j : nat)
      (src : attachment_source) :
  nth_error l i = Some src ->
  nameless src = true ->
  i < j ->
  count_nameless (firstn i l) < count_nameless (firstn j l).
Proof.
  intros H Hn Hij.
  assert (nth_error (firstn j l) i = Some src) as H'.
  { rewrite nth_error_firstn.
    destruct (Nat.ltb_spec i j); [exact H|lia]. }
  pose proof (count_firstn_split (firstn j l) i src H') as Hs.
  rewrite firstn_firstn, Nat.min_l in Hs by lia.
  rewrite Hn in Hs. lia.
Qed.

Lemma append_same_length_inj (a b x y : string) :
  String.length a = String.length b ->
  (a ++ x)%string = (b ++ y)%string ->
  a = b.
Proof.
  revert b. induction a as [|c a IH]; intros [|d b] Hlen Heq;
    try discriminate; [reflexivity|].
  cbn in Hlen, Heq. injection Heq as -> Heq. f_equal.
  apply IH; [lia|exact Heq].
Qed.

(** X10. The synthesized filenames.  A run that returns a payload has
    drawn one random token for each structured attachment without a
    filename, and no other.  If the tokens drawn in the run have one
    length and differ from one another, as 32-digit random tokens do,
    the filenames synthesized for two different attachments of the
    message differ. *)
Theorem synthesized_filenames_differ
        (msg : EmailMessage) (n : nat) (p : Payload) :
  snd (build (mkWorld msg n)) = Ok p ->
  (forall i j,
      n <= i -> i < j -> j < n + count_nameless (attachments msg) ->
      String.length (uuid4_hex i) = String.length (uuid4_hex j)
      /\ uuid4_hex i <> uuid4_hex j) ->
  w_drawn (fst (build (mkWorld msg n)))
  = n + count_nameless (attachments msg)
  /\ forall i j src_i src_j a_i a_j,
      i < j ->
      nth_error (attachments msg) i = Some src_i ->
      nth_error (attachments msg) j = Some src_j ->
      nth_error (m_attachments p) i = Some a_i ->
      nth_error (m_attachments p) j = Some a_j ->
      nameless src_i = true ->
      nameless src_j = true ->
      filename a_i <> filename a_j.
Proof.
  intros Hp Htokens.
  destruct (build_run parseaddr Email guess_extension uuid4_hex self msg n)
    as (atts & n' & Hatt & _ & Hrun).
  destruct (attach_all_indexed (attachments msg) msg n) as (atts' & Hatt' & Hidx).
  rewrite Hatt in Hatt'. injection Hatt' as -> <-.
  destruct (pool_name_step msg) as [pool|e];
    [|rewrite Hrun in Hp; discriminate].
  destruct (send_at_step msg) as [sa|e];
    [|rewrite Hrun in Hp; discriminate].
  destruct (reply_to_step parseaddr Email msg
              (fst (header_loop Email (extra_headers msg)))) as [rt|e];
    [|rewrite Hrun in Hp; discriminate].
  cbn zeta in Hrun.
  destruct (asm_step msg) as [a|e];
    [|rewrite Hrun in Hp; discriminate].
  destruct Hrun as (q & Hq & _ & _ & Hatts & _).
  rewrite Hq in Hp |- *. cbn in Hp. injection Hp as <-.
  split; [reflexivity|].
  intros i j src_i src_j a_i a_j Hij Hsi Hsj Hai Haj Hni Hnj.
  rewrite Hatts in Hai, Haj.
  destruct (Hidx i src_i a_i Hsi Hai Hni) as (part_i & _ & Hfi).
  destruct (Hidx j src_j a_j Hsj Haj Hnj) as (part_j & _ & Hfj).
  rewrite Hfi, Hfj. intros [= Heq].
  pose proof (count_firstn_lt _ i j src_i Hsi Hni Hij) as Hlt.
  pose proof (count_firstn_split _ j src_j Hsj) as Htot.
  rewrite Hnj in Htot.
  destruct (Htokens (n + count_nameless (firstn i (attachments msg)))
              (n + count_nameless (firstn j (attachments msg))))
    as [Hlen Hne]; try lia.
  apply Hne. eapply append_same_length_inj; [exact Hlen|exact Heq].
Qed.

End AttachmentFacts.

(** * Further properties of sending *)

Section DictFacts.

Context {V : Type}.

Lemma dict_get_set_same (k : string) (v : V) (d : dict V) :
  dict_get k (dict_set k v d) = Some v.
Proof.
  induction d as [|[k' v'] t IH]; cbn.
  - now rewrite String.eqb_refl.
  - destruct (String.eqb k' k) eqn:E; cbn.
    + now rewrite String.eqb_refl.
    + now rewrite E.
Qed.

Lemma dict_get_set_other (k k' : string) (v : V) (d : dict V) :
  k <> k' -> dict_get k' (dict_set k v d) = dict_get k' d.
Proof.
  intros Hne. induction d as [|[k0 v0] t IH]; cbn.
  - apply String.eqb_neq in Hne. now rewrite Hne.
  - destruct (String.eqb k0 k) eqn:E; cbn.
    + apply String.eqb_eq in E. subst k0.
      apply String.eqb_neq in Hne. now rewrite Hne.
    + now rewrite IH.
Qed.

Lemma keys_dict_set (k : string) (v : V) (d : dict V) :
  keys (dict_set k v d) = if in_dec string_dec k (keys d) then keys d
                          else keys d ++ [k].
Proof.
  unfold keys.
  induction d as [|[k0 v0] t IH]; [reflexivity|].
  cbn [dict_set map fst].
  destruct (String.eqb k0 k) eqn:E.
  - apply String.eqb_eq in E. subst k0. cbn [map fst].
    destruct (in_dec string_dec k (k :: map fst t)) as [_|Hn]; [reflexivity|].
    exfalso. apply Hn. now left.
  - cbn [map fst]. rewrite IH.
    apply String.eqb_neq in E.
    destruct (in_dec string_dec k (map fst t)) as [Hin|Hn];
      destruct (in_dec string_dec k (k0 :: map fst t)) as [Hin'|Hn'];
      try reflexivity.
    + exfalso. apply Hn'. now right.
    + destruct Hin' as [->|Hin']; [now contradiction E|contradiction].
Qed.

Lemma keys_dict_set_nodup (k : string) (v : V) (d : dict V) :
  NoDup (keys d) -> NoDup (keys (dict_set k v d)).
Proof.
  intros Hd. rewrite keys_dict_set.
  destruct (in_dec string_dec k (keys d)) as [_|Hn]; [exact Hd|].
  apply NoDup_app; [exact Hd|repeat constructor; intros []|].
  intros x Hx [<-|[]]. contradiction.
Qed.

Lemma in_dict_set_same (k : string) (v : V) (d : dict V) :
  In (k, v) (dict_set k v d).
Proof.
  induction d as [|[k0 v0] t IH]; cbn; [now left|].
  destruct (String.eqb k0 k); [now left|now right].
Qed.

Lemma in_dict_set_other (k k' : string) (v v' : V) (d : dict V) :
  k' <> k -> In (k', v') d -> In (k', v') (dict_set k v d).
Proof.
  intros Hne. induction d as [|[k0 v0] t IH]; cbn; [tauto|].
  intros [[= -> ->]|Hin].
  - apply String.eqb_neq in Hne. rewrite Hne. now left.
  - destruct (String.eqb k0 k); right; [exact Hin|now apply IH].
Qed.

End DictFacts.

Section Sending.

Variable parseaddr : address_value -> string * string.
Variable Email : pyval -> option string -> EmailObj.
Variable guess_extension : string -> option string.
Variable uuid4_hex : nat -> string.
Variable self : SendgridBackend.
Variable post : nat -> Payload -> option Response.

Local Notation build :=
  (_build_sg_mail parseaddr Email guess_extension uuid4_hex self).
Local Notation send_loop' :=
  (send_loop parseaddr Email guess_extension uuid4_hex self post).
Local Notation send :=
  (send_messages parseaddr Email guess_extension uuid4_hex self post).
Local Notation valid := (well_formed parseaddr Email).

(** The builder raises a [ValueError] or the [KeyError] for
    "group_id", nothing else. *)
Lemma build_exception_kinds (msg : EmailMessage) (n : nat) (e : exn) :
  snd (build (mkWorld msg n)) = Raise e ->
  (exists why, e = ValueError why) \/ e = KeyError "group_id".
Proof.
  intros H. apply build_raise_inv in H as [H|[H|[H|H]]].
  - apply pool_name_step_raise in H as [ -> | [k -> ] ]; left; eauto.
  - apply send_at_step_raise in H as ->. left. eexists. reflexivity.
  - apply reply_to_step_raise in H as (f & _ & _ & [ [ -> _ ] | [ -> _ ] ]);
      left; eexists; reflexivity.
  - apply asm_step_raise in H as ->. now right.
Qed.

Lemma send_loop_outcomes (msgs : list EmailMessage) (drawn calls success : nat) :
  List.length (fst (send_loop' msgs drawn calls success)) = List.length msgs
  /\ (forall k, snd (send_loop' msgs drawn calls success) = Ok k ->
                success <= k <= success + List.length msgs)
  /\ (forall e, snd (send_loop' msgs drawn calls success) = Raise e ->
                (e = HTTPError /\ fail_silently self = false)
                \/ (exists why, e = ValueError why)
                \/ e = KeyError "group_id").
Proof.
  revert drawn calls success.
  induction msgs as [|msg rest IH]; intros drawn calls success.
  - cbn. split; [reflexivity|]. split; [intros k [= <-]; lia|discriminate].
  - cbn [send_loop].
    pose proof (build_exception_kinds msg drawn) as Hkinds.
    destruct (build (mkWorld msg drawn)) as [w [data|e]].
    + destruct (post calls data) as [resp|].
      * destruct (IH (w_drawn w) (S calls) (S success)) as (Hl & Hk & He).
        destruct (send_loop' rest (w_drawn w) (S calls) (S success))
          as [rest' r].
        cbn [fst snd List.length] in *. split; [now rewrite Hl|].
        split; [intros k Hr; specialize (Hk k Hr); lia|exact He].
      * destruct (fail_silently self) eqn:Hfs.
        -- destruct (IH (w_drawn w) (S calls) success) as (Hl & Hk & He).
           destruct (send_loop' rest (w_drawn w) (S calls) success)
             as [rest' r].
           cbn [fst snd List.length] in *. split; [now rewrite Hl|].
           split; [intros k Hr; specialize (Hk k Hr); lia|].
           intros e Hr. destruct (He e Hr) as [[_ Hf]|H]; [discriminate|].
           now right.
        -- cbn [fst snd List.length]. split; [reflexivity|].
           split; [discriminate|]. intros e [= <-]. now left.
    + cbn [fst snd List.length]. split; [reflexivity|].
      split; [discriminate|]. intros e' [= <-]. right.
      destruct (Hkinds e eq_refl) as [H|H]; [now left|now right].
Qed.

Lemma send_loop_rejects_silently (done rest : list EmailMessage)
      (bad : EmailMessage) (e : exn) (drawn calls success : nat) :
  Forall valid done ->
  fail_silently self = true ->
  (forall n, snd (build (mkWorld bad n)) = Raise e) ->
  snd (send_loop' (done ++ bad :: rest) drawn calls success) = Raise e.
Proof.
  intros Hall Hfs Hbad. revert drawn calls success.
  induction Hall as [|msg tl (Hp & Hs & Hr & Ha) _ IH];
    intros drawn calls success.
  - cbn [app send_loop].
    specialize (Hbad drawn).
    destruct (build (mkWorld bad drawn)) as [w r]. cbn [snd] in Hbad.
    now subst r.
  - cbn [app send_loop].
    destruct (build_succeeds parseaddr Email guess_extension uuid4_hex self
                msg drawn Hp Hs Hr Ha) as [p Hb].
    destruct (build (mkWorld msg drawn)) as [w r]. cbn [snd] in Hb. subst r.
    destruct (post calls p) as [resp|].
    + specialize (IH (w_drawn w) (S calls) (S success)).
      now destruct (send_loop' (tl ++ bad :: rest) (w_drawn w) (S calls)
                      (S success)).
    + rewrite Hfs.
      specialize (IH (w_drawn w) (S calls) success).
      now destruct (send_loop' (tl ++ bad :: rest) (w_drawn w) (S calls)
                      success).
Qed.

Lemma send_loop_first_refusal (done rest : list EmailMessage)
      (msg : EmailMessage) (drawn calls success : nat) :
  Forall valid done ->
  valid msg ->
  fail_silently self = false ->
  (forall n data, n < calls + List.length done -> post n data <> None) ->
  (forall data, post (calls + List.length done) data = None) ->
  snd (send_loop' (done ++ msg :: rest) drawn calls success) = Raise HTTPError.
Proof.
  intros Hall (Hp0 & Hs0 & Hr0 & Ha0) Hfs.
  revert drawn calls success.
  induction Hall as [|m tl (Hp & Hs & Hr & Ha) _ IH];
    intros drawn calls success Hacc Href.
  - cbn [app send_loop].
    destruct (build_succeeds parseaddr Email guess_extension uuid4_hex self
                msg drawn Hp0 Hs0 Hr0 Ha0) as [p Hb].
    destruct (build (mkWorld msg drawn)) as [w r]. cbn [snd] in Hb. subst r.
    cbn [List.length] in Href. rewrite Nat.add_0_r in Href.
    now rewrite Href, Hfs.
  - cbn [app send_loop].
    destruct (build_succeeds parseaddr Email guess_extension uuid4_hex self
                m drawn Hp Hs Hr Ha) as [p Hb].
    destruct (build (mkWorld m drawn)) as [w r]. cbn [snd] in Hb. subst r.
    destruct (post calls p) as [resp|] eqn:Hresp.
    + specialize (IH (w_drawn w) (S calls) (S success)).
      destruct (send_loop' (tl ++ msg :: rest) (w_drawn w) (S calls)
                  (S success)) as [rest' r].
      cbn [snd] in *. apply IH.
      * intros n data Hn. apply Hacc. cbn [List.length]. lia.
      * intros data. cbn [List.length] in Href.
        replace (S calls + List.length tl) with (calls + S (List.length tl))
          by lia.
        apply Href.
    + exfalso. apply (Hacc calls p); [cbn [List.length]; lia|exact Hresp].
Qed.

(** X11. What [fail_silently] suppresses and what it does not.  A
    count [send_messages] returns is at most the number of messages.
    With [fail_silently] set, no transport error escapes, whatever
    the transport answers.  Without it, the first request the
    transport refuses raises the transport error out of
    [send_messages].  A message the builder rejects raises its
    validation error out of [send_messages] also when [fail_silently]
    is set and whatever the transport answers to the valid messages
    before it: [fail_silently] covers the transport only. *)
Theorem send_messages_outcomes (msgs : list EmailMessage) :
  (forall k, snd (send msgs) = Ok k -> k <= List.length msgs)
  /\ (fail_silently self = true -> snd (send msgs) <> Raise HTTPError)
  /\ (forall done msg rest,
         msgs = done ++ msg :: rest ->
         Forall valid done ->
         valid msg ->
         fail_silently self = false ->
         (forall n data, n < List.length done -> post n data <> None) ->
         (forall data, post (List.length done) data = None) ->
         snd (send msgs) = Raise HTTPError)
  /\ (forall done bad rest e,
         msgs = done ++ bad :: rest ->
         Forall valid done ->
         fail_silently self = true ->
         (forall n, snd (build (mkWorld bad n)) = Raise e) ->
         snd (send msgs) = Raise e /\ e <> HTTPError).
Proof.
  unfold send_messages.
  destruct (send_loop_outcomes msgs 0 0 0) as (_ & Hk & He).
  split; [intros k Hr; specialize (Hk k Hr); lia|].
  split.
  { intros Hfs Hr. destruct (He _ Hr) as [[_ Hf]|[[why H]|H]]; congruence. }
  split.
  - intros done msg rest -> Hall Hmsg Hfs Hacc Href.
    now apply send_loop_first_refusal.
  - intros done bad rest e -> Hall Hfs Hbad. split.
    + now apply send_loop_rejects_silently.
    + intros ->. specialize (Hbad 0).
      apply build_exception_kinds in Hbad as [[why H]|H]; discriminate.
Qed.

Lemma send_loop_all_accepted (msgs : list EmailMessage)
      (drawn calls success : nat) :
  Forall valid msgs ->
  (forall n data, post n data <> None) ->
  snd (send_loop' msgs drawn calls success) = Ok (success + List.length msgs)
  /\ Forall (fun m => exists code,
                 dict_get "status" (extra_headers m) = Some (PyInt code))
       (fst (send_loop' msgs drawn calls success)).
Proof.
  intros Hall Hpost. revert drawn calls success.
  induction Hall as [|msg rest (Hp & Hs & Hr & Ha) _ IH];
    intros drawn calls success.
  - cbn. split; [f_equal; lia|constructor].
  - cbn [send_loop].
    destruct (build_succeeds parseaddr Email guess_extension uuid4_hex self
                msg drawn Hp Hs Hr Ha) as [p Hb].
    destruct (build (mkWorld msg drawn)) as [w r]. cbn [snd] in Hb. subst r.
    destruct (post calls p) as [resp|] eqn:Hresp;
      [|now destruct (Hpost calls p)].
    destruct (IH (w_drawn w) (S calls) (S success)) as [Hk Hst].
    destruct (send_loop' rest (w_drawn w) (S calls) (S success)) as [rest' r].
    cbn [fst snd List.length] in *. split.
    + rewrite Hk. f_equal. lia.
    + constructor; [|exact Hst].
      exists (status_code resp). unfold record_response.
      cbn [set_extra_headers extra_headers].
      destruct (x_message_id resp) as [x|];
        [destruct (Text.nonempty x)|];
        try rewrite dict_get_set_other by discriminate;
        apply dict_get_set_same.
Qed.

(** X12. When the validated fields of every message are valid and the
    transport accepts every request, [send_messages] returns the
    number of messages, and every message it leaves has a status code
    under "status" in its extra headers. *)
Theorem send_messages_counts_every_accepted_message
        (msgs : list EmailMessage) :
  Forall valid msgs ->
  (forall n data, post n data <> None) ->
  snd (send msgs) = Ok (List.length msgs)
  /\ Forall (fun m => exists code,
                 dict_get "status" (extra_headers m) = Some (PyInt code))
       (fst (send msgs)).
Proof.
  intros Hall Hpost.
  exact (send_loop_all_accepted msgs 0 0 0 Hall Hpost).
Qed.

Lemma send_loop_all_refused (msgs : list EmailMessage)
      (drawn calls success : nat) :
  Forall valid msgs ->
  (forall n data, post n data = None) ->
  fail_silently self = true ->
  snd (send_loop' msgs drawn calls success) = Ok success
  /\ Forall2 (fun m m' => extra_headers m' = extra_headers m)
       msgs (fst (send_loop' msgs drawn calls success)).
Proof.
  intros Hall Hpost Hfs. revert drawn calls success.
  induction Hall as [|msg rest (Hp & Hs & Hr & Ha) _ IH];
    intros drawn calls success.
  - cbn. split; [reflexivity|constructor].
  - cbn [send_loop].
    destruct (touched_by_build parseaddr Email guess_extension uuid4_hex self
                msg drawn) as [_ Hh].
    destruct (build_succeeds parseaddr Email guess_extension uuid4_hex self
                msg drawn Hp Hs Hr Ha) as [p Hb].
    destruct (build (mkWorld msg drawn)) as [w r].
    cbn [fst snd] in Hb, Hh. subst r.
    rewrite Hpost, Hfs.
    destruct (IH (w_drawn w) (S calls) success) as [Hk Hst].
    destruct (send_loop' rest (w_drawn w) (S calls) success) as [rest' r].
    cbn [fst snd] in *. split; [exact Hk|].
    constructor; [exact Hh|exact Hst].
Qed.

(** X13. When the transport refuses every request and the backend
    fails silently, [send_messages] on messages with valid fields
    returns the count 0 and leaves the extra headers of every message
    as they were: no status is recorded for a message that was not
    accepted. *)
Theorem refused_messages_get_no_status (msgs : list EmailMessage) :
  Forall valid msgs ->
  (forall n data, post n data = None) ->
  fail_silently self = true ->
  snd (send msgs) = Ok 0
  /\ Forall2 (fun m m' => extra_headers m' = extra_headers m)
       msgs (fst (send msgs)).
Proof.
  intros Hall Hpost Hfs.
  exact (send_loop_all_refused msgs 0 0 0 Hall Hpost Hfs).
Qed.



(** X15. What a recorded response leaves in the extra headers: the
    status code under "status"; the message id under "message_id"
    when the response has a non-empty one, and otherwise whatever was
    there before; every other key as it was; and no key twice if none
    was before. *)
Theorem record_response_lookup (resp : Response) (msg : EmailMessage) :
  let after := extra_headers (record_response resp msg) in
  dict_get "status" after = Some (PyInt (status_code resp))
  /\ dict_get "message_id" after
     = match x_message_id resp with
       | Some x =>
           if Text.nonempty x then Some (PyStr x)
           else dict_get "message_id" (extra_headers msg)
       | None => dict_get "message_id" (extra_headers msg)
       end
  /\ (forall k, k <> "status" -> k <> "message_id" ->
                dict_get k after = dict_get k (extra_headers msg))
  /\ (NoDup (keys (extra_headers msg)) -> NoDup (keys after)).
Proof.
  cbn zeta. unfold record_response. cbn [set_extra_headers extra_headers].
  destruct (x_message_id resp) as [x|]; [destruct (Text.nonempty x)|].
  - split; [rewrite dict_get_set_other by discriminate;
            apply dict_get_set_same|].
    split; [apply dict_get_set_same|]. split.
    + intros k H1 H2.
      rewrite !dict_get_set_other by congruence. reflexivity.
    + intros H. now do 2 apply keys_dict_set_nodup.
  - split; [apply dict_get_set_same|].
    split; [now rewrite dict_get_set_other by discriminate|]. split.
    + intros k H1 H2. now rewrite dict_get_set_other by congruence.
    + intros H. now apply keys_dict_set_nodup.
  - split; [apply dict_get_set_same|].
    split; [now rewrite dict_get_set_other by discriminate|]. split.
    + intros k H1 H2. now rewrite dict_get_set_other by congruence.
    + intros H. now apply keys_dict_set_nodup.
Qed.

(** X16. The response is recorded among the message's headers, so a
    message that was sent and is built again carries it: every
    payload the builder returns for it has the header "status" with
    the status code on its personalization block, and the header
    "message_id" when a non-empty message id was recorded. *)
Theorem recorded_status_is_sent_as_a_header
        (resp : Response) (msg : EmailMessage) (n : nat) (p : Payload) :
  snd (build (mkWorld (record_response resp msg) n)) = Ok p ->
  exists pz,
    personalizations p = [pz]
    /\ In (mkHeader "status" (PyInt (status_code resp))) (headers pz)
    /\ (forall x, x_message_id resp = Some x -> Text.nonempty x = true ->
                  In (mkHeader "message_id" (PyStr x)) (headers pz)).
Proof.
  intros Hp.
  apply build_ok_inv in Hp
    as (pool & sa & rt & a & atts & n' & _ & _ & _ & _ & _ & _ & _ & _ & _
        & _ & pz & Hpz & Hh & _).
  exists pz. split; [exact Hpz|].
  rewrite Hh, header_loop_closed. cbn [snd].
  unfold record_response. cbn [set_extra_headers extra_headers].
  split.
  - apply (in_map (fun kv => mkHeader (fst kv) (snd kv))
             _ ("status", PyInt (status_code resp))).
    apply filter_In. split; [|reflexivity].
    destruct (x_message_id resp) as [x|]; [destruct (Text.nonempty x)|];
      try (apply in_dict_set_other; [discriminate|]);
      apply in_dict_set_same.
  - intros x Hx Ht. rewrite Hx, Ht.
    apply (in_map (fun kv => mkHeader (fst kv) (snd kv))
             _ ("message_id", PyStr x)).
    apply filter_In. split; [|reflexivity].
    apply in_dict_set_same.
Qed.

End Sending.

(** * Construction and the echo stream *)

(** X17. The API key of a new backend.  An [api_key] keyword argument
    is taken as it is, even when it is empty and whatever the settings
    hold.  Without it, the settings' key is taken when it is there and
    truthy, and construction fails as improperly configured exactly
    when it is missing or falsy. *)
Theorem api_key_resolution (kwargs : Kwargs) (settings : Settings) :
  (forall k, kw_api_key kwargs = Some k ->
             exists i, __init__ kwargs settings = Constructed i
                       /\ sg_api_key i = k)
  /\ (kw_api_key kwargs = None ->
      forall k, SENDGRID_API_KEY settings = Some k -> truth k = true ->
                exists i, __init__ kwargs settings = Constructed i
                          /\ sg_api_key i = k)
  /\ (kw_api_key kwargs = None ->
      (__init__ kwargs settings = ImproperlyConfigured
       <-> (SENDGRID_API_KEY settings = None
            \/ exists k, SENDGRID_API_KEY settings = Some k
                         /\ truth k = false))).
Proof.
  unfold __init__. split; [|split].
  - intros k ->. eexists. split; reflexivity.
  - intros -> k -> ->. eexists. split; reflexivity.
  - intros ->. destruct (SENDGRID_API_KEY settings) as [k|].
    + destruct (truth k) eqn:Ht.
      * split; [discriminate|].
        intros [H|(k' & [= <-] & H)]; congruence.
      * split; [|reflexivity]. intros _. right. now exists k.
    + split; [|reflexivity]. intros _. now left.
Qed.

Section Configured.

Variable parseaddr : address_value -> string * string.
Variable Email : pyval -> option string -> EmailObj.
Variable guess_extension : string -> option string.
Variable uuid4_hex : nat -> string.

(** X18. From the settings to the payload.  Every payload built by a
    backend constructed from the settings enables the sandbox mode
    exactly when [DEBUG] is truthy and the sandbox setting is missing
    or truthy, which is also when construction issues the sandbox
    warning; its open and click tracking are on unless their settings
    say otherwise, and its subscription tracking is off unless its
    setting says otherwise.  With [DEBUG] falsy the sandbox mode is
    never enabled. *)
Theorem settings_reach_the_payload
        (kwargs : Kwargs) (settings : Settings) (i : Instance)
        (msg : EmailMessage) (n : nat) (p : Payload) :
  __init__ kwargs settings = Constructed i ->
  snd (_build_sg_mail parseaddr Email guess_extension uuid4_hex (attributes i)
         (mkWorld msg n)) = Ok p ->
  sandbox_mode_enable (mail_settings p)
  = truth (DEBUG settings)
    && match SENDGRID_SANDBOX_MODE_IN_DEBUG settings with
       | Some flag => truth flag
       | None => true
       end
  /\ sandbox_warning i = sandbox_mode_enable (mail_settings p)
  /\ (truth (DEBUG settings) = false ->
      sandbox_mode_enable (mail_settings p) = false)
  /\ open_tracking (tracking_settings p)
     = match SENDGRID_TRACK_EMAIL_OPENS settings with
       | Some flag => flag
       | None => true
       end
  /\ click_tracking (tracking_settings p)
     = match SENDGRID_TRACK_EMAIL_CLICKS settings with
       | Some flag => flag
       | None => true
       end
  /\ subscription_tracking (tracking_settings p)
     = match SENDGRID_SUBSCRIPTION_ENABLE settings with
       | Some flag => flag
       | None => false
       end.
Proof.
  intros Hinit Hp.
  apply build_ok_envelope in Hp as (_ & _ & _ & _ & Hm & Ht & _).
  rewrite Hm, Ht. cbn [sandbox_mode_enable open_tracking click_tracking
                         subscription_tracking].
  unfold __init__ in Hinit.
  destruct (match kw_api_key kwargs with
            | Some k => Some k
            | None =>
                match SENDGRID_API_KEY settings with
                | Some k => if truth k then Some k else None
                | None => None
                end
            end) as [k|]; [|discriminate].
  injection Hinit as <-.
  cbn [attributes sandbox_mode track_email track_click subscription
         sandbox_warning].
  unfold setting_or.
  split; [now destruct (SENDGRID_SANDBOX_MODE_IN_DEBUG settings)|].
  split; [reflexivity|].
  split; [intros ->; reflexivity|].
  split; [now destruct (SENDGRID_TRACK_EMAIL_OPENS settings)|].
  split; [now destruct (SENDGRID_TRACK_EMAIL_CLICKS settings)|].
  now destruct (SENDGRID_SUBSCRIPTION_ENABLE settings).
Qed.

End Configured.

Section EchoFacts.

Variable render : EmailMessage -> option string.
Variable self : SendgridBackend.

(** What the echo of one message with text [t] asks of the stream. *)
Local Notation echoed t :=
  [Write (t ++ String Text.newline EmptyString)%string;
   Write separator;
   Write (String Text.newline EmptyString);
   Flush].

Lemma echo_loop_rendered (msgs : list EmailMessage) (texts : list string)
      (stream : list stream_event) :
  Forall2 (fun m t => render m = Some t) msgs texts ->
  echo_loop render msgs stream
  = (stream ++ flat_map (fun t => echoed t) texts, true).
Proof.
  intros H. revert stream.
  induction H as [|m t msgs texts Hm _ IH]; intros stream.
  - cbn. now rewrite app_nil_r.
  - cbn [echo_loop flat_map]. unfold write_to_stream. rewrite Hm.
    rewrite IH. f_equal. rewrite <- !app_assoc. reflexivity.
Qed.

Lemma echo_loop_stops (before after : list EmailMessage) (bad : EmailMessage)
      (texts : list string) (stream : list stream_event) :
  Forall2 (fun m t => render m = Some t) before texts ->
  render bad = None ->
  echo_loop render (before ++ bad :: after) stream
  = (stream ++ flat_map (fun t => echoed t) texts, false).
Proof.
  intros H Hbad. revert stream.
  induction H as [|m t msgs texts Hm _ IH]; intros stream.
  - cbn [app echo_loop flat_map]. unfold write_to_stream. rewrite Hbad.
    now rewrite app_nil_r.
  - cbn [app echo_loop flat_map]. unfold write_to_stream. rewrite Hm.
    rewrite IH. f_equal. rewrite <- !app_assoc. reflexivity.
Qed.

Lemma string_app_assoc (a b c : string) :
  ((a ++ b) ++ c)%string = (a ++ (b ++ c))%string.
Proof. induction a as [|x a IH]; cbn; congruence. Qed.

Lemma written_app (a b : list stream_event) :
  written (a ++ b) = (written a ++ written b)%string.
Proof.
  induction a as [|[s|] t IH]; cbn [app written]; [reflexivity| |exact IH].
  rewrite IH. now rewrite string_app_assoc.
Qed.

Lemma length_repeat_char (c : ascii) (n : nat) :
  String.length (repeat_char c n) = n.
Proof. induction n; cbn; congruence. Qed.

(** X19. The format of the echo.  When every message can be rendered,
    the echo returns normally and has asked the stream, for each
    message in order, to write the message's text and a newline, the
    separator, a newline, and then to flush, after whatever the
    stream held before.  The separator is 79 hyphens. *)
Theorem echo_format (msgs : list EmailMessage) (texts : list string)
        (stream : list stream_event) :
  Forall2 (fun m t => render m = Some t) msgs texts ->
  echo_to_output_stream render self msgs stream
  = (stream ++ flat_map (fun t => echoed t) texts, false)
  /\ written (fst (echo_to_output_stream render self msgs stream))
     = (written stream
          ++ fold_right String.append ""
               (map (fun t => t ++ String Text.newline EmptyString ++ separator
                                ++ String Text.newline EmptyString) texts))%string
  /\ String.length separator = 79
  /\ (forall c, In c (chars separator) -> c = "-"%char).
Proof.
  intros H.
  assert (echo_to_output_stream render self msgs stream
          = (stream ++ flat_map (fun t => echoed t) texts, false)) as He.
  { unfold echo_to_output_stream. destruct msgs as [|m rest].
    - inversion H. cbn. now rewrite app_nil_r.
    - now rewrite (echo_loop_rendered _ _ _ H). }
  split; [exact He|]. rewrite He. cbn [fst].
  split; [|split].
  - rewrite written_app. f_equal.
    clear. induction texts as [|t rest IH]; [reflexivity|].
    cbn [flat_map app written map fold_right].
    rewrite IH. now rewrite !string_app_assoc.
  - apply length_repeat_char.
  - intros c Hin. vm_compute in Hin.
    repeat (destruct Hin as [<-|Hin]; [reflexivity|]). destruct Hin.
Qed.

End EchoFacts.

Section EchoAndSend.

Variable parseaddr : address_value -> string * string.
Variable Email : pyval -> option string -> EmailObj.
Variable guess_extension : string -> option string.
Variable uuid4_hex : nat -> string.
Variable self : SendgridBackend.
Variable post : nat -> Payload -> option Response.
Variable render : EmailMessage -> option string.

Local Notation send :=
  (send_messages parseaddr Email guess_extension uuid4_hex self post).
Local Notation send_with :=
  (send_messages_with_stream parseaddr Email guess_extension uuid4_hex self
     post render).
Local Notation echoed t :=
  [Write (t ++ String Text.newline EmptyString)%string;
   Write separator;
   Write (String Text.newline EmptyString);
   Flush].

Lemma echo_loop_appends (msgs : list EmailMessage) (stream : list stream_event) :
  exists added, fst (echo_loop render msgs stream) = stream ++ added.
Proof.
  revert stream. induction msgs as [|m rest IH]; intros stream.
  - exists []. cbn. now rewrite app_nil_r.
  - cbn [echo_loop]. unfold write_to_stream.
    destruct (render m) as [t|].
    + destruct (IH ((stream
                       ++ [Write (t ++ String Text.newline EmptyString)%string;
                           Write separator;
                           Write (String Text.newline EmptyString)])
                      ++ [Flush])) as [added Ha].
      rewrite Ha. eexists. rewrite <- !app_assoc. reflexivity.
    + exists []. cbn. now rewrite app_nil_r.
Qed.

(** X20. A message that cannot be rendered stops the echo.  The
    messages before it have been echoed in full and nothing of it or
    of the later ones.  A backend that fails silently then goes on
    and sends every message, the one that could not be rendered
    included, exactly as it would without the echo; one that does not
    raises before anything is built or sent, so the messages come
    back as they were given. *)
Theorem unrenderable_message_stops_the_echo
        (before after : list EmailMessage) (bad : EmailMessage)
        (texts : list string) (stream : list stream_event) :
  Forall2 (fun m t => render m = Some t) before texts ->
  render bad = None ->
  echo_to_output_stream render self (before ++ bad :: after) stream
  = (stream ++ flat_map (fun t => echoed t) texts, negb (fail_silently self))
  /\ (fail_silently self = true ->
      send_with (Some stream) (before ++ bad :: after)
      = (Some (stream ++ flat_map (fun t => echoed t) texts),
         fst (send (before ++ bad :: after)),
         Sending (snd (send (before ++ bad :: after)))))
  /\ (fail_silently self = false ->
      send_with (Some stream) (before ++ bad :: after)
      = (Some (stream ++ flat_map (fun t => echoed t) texts),
         before ++ bad :: after,
         EchoRaised)).
Proof.
  intros H Hbad.
  assert (echo_to_output_stream render self (before ++ bad :: after) stream
          = (stream ++ flat_map (fun t => echoed t) texts,
             negb (fail_silently self))) as He.
  { unfold echo_to_output_stream.
    rewrite (echo_loop_stops render before after bad texts stream H Hbad).
    destruct (before ++ bad :: after) eqn:E; [|reflexivity].
    destruct before; discriminate. }
  split; [exact He|].
  unfold send_messages_with_stream. rewrite He.
  split; intros ->; cbn [negb]; [|reflexivity].
  now destruct (send (before ++ bad :: after)).
Qed.

(** X21. The echo is only an echo.  Without a stream,
    [send_messages] is the sending loop.  With one, the stream keeps
    what it held and is only added to, and the messages and the
    outcome are those of the sending loop unless the echo raises,
    which it does only for a backend that does not fail silently and
    which leaves the messages as they were given. *)
Theorem echo_changes_nothing_but_the_stream
        (msgs : list EmailMessage) (stream : list stream_event) :
  send_with None msgs = (None, fst (send msgs), Sending (snd (send msgs)))
  /\ exists added,
      fst (fst (send_with (Some stream) msgs)) = Some (stream ++ added)
      /\ ((snd (send_with (Some stream) msgs) = EchoRaised
           /\ fail_silently self = false
           /\ snd (fst (send_with (Some stream) msgs)) = msgs)
          \/ (snd (fst (send_with (Some stream) msgs)) = fst (send msgs)
              /\ snd (send_with (Some stream) msgs)
                 = Sending (snd (send msgs)))).
Proof.
  split.
  - unfold send_messages_with_stream. now destruct (send msgs).
  - unfold send_messages_with_stream, echo_to_output_stream.
    destruct msgs as [|m rest].
    + exists []. rewrite app_nil_r. cbn. split; [reflexivity|].
      right. split; reflexivity.
    + destruct (echo_loop_appends (m :: rest) stream) as [added Ha].
      exists added.
      destruct (echo_loop render (m :: rest) stream) as [stream' finished].
      cbn [fst] in Ha. subst stream'.
      destruct finished.
      * destruct (send (m :: rest)) as [msgs' r]. cbn.
        split; [reflexivity|]. right. split; reflexivity.
      * destruct (fail_silently self); cbn [negb].
        -- destruct (send (m :: rest)) as [msgs' r]. cbn.
           split; [reflexivity|]. right. split; reflexivity.
        -- cbn. split; [reflexivity|]. left. repeat split.
Qed.

End EchoAndSend.

Section ReplyToAlone.

Variable parseaddr : address_value -> string * string.
Variable Email : pyval -> option string -> EmailObj.
Variable guess_extension : string -> option string.
Variable uuid4_hex : nat -> string.
Variable self : SendgridBackend.

Local Notation build :=
  (_build_sg_mail parseaddr Email guess_extension uuid4_hex self).
Local Notation parsed := (parsed_email parseaddr Email).

(** X22. A reply-to field on a message without a reply-to header.
    When the field is a non-empty string or a list of one address,
    the reply-to block raises nothing, and every payload the builder
    returns has as its reply-to identity that address, parsed like a
    recipient; no conflict can be raised without a header. *)
Theorem reply_to_field_alone
        (msg : EmailMessage) (n : nat) (field : address_value) :
  last_reply_to (extra_headers msg) = None ->
  reply_to msg = Some field ->
  truthy field = true ->
  snd (build (mkWorld msg n)) <> Raise ReplyToConflict
  /\ (single_address field = true ->
      reply_to_valid parseaddr Email msg = true
      /\ forall p, snd (build (mkWorld msg n)) = Ok p ->
                   m_reply_to p = Some (parsed (first_address field))).
Proof.
  intros Hnone Hf Ht.
  pose proof (reply_to_step_truthy parseaddr Email msg field
                (fst (header_loop Email (extra_headers msg))) Hf Ht) as Hstep.
  rewrite header_loop_closed, Hnone in Hstep.
  cbn [fst option_map reply_to_conflict] in Hstep.
  split.
  - intros Hraise.
    apply build_raise_inv in Hraise as [H|[H|[H|H]]].
    + apply pool_name_step_raise in H as [H|[k H]]; discriminate.
    + apply send_at_step_raise in H. discriminate.
    + rewrite header_loop_closed, Hnone in H. cbn [fst option_map] in H.
      rewrite Hstep in H. destruct (single_address field); discriminate.
    + apply asm_step_raise in H. discriminate.
  - intros Hone. rewrite Hone in Hstep. split.
    + unfold reply_to_valid. rewrite header_loop_closed, Hnone.
      cbn [fst option_map]. now rewrite Hstep.
    + intros p Hp.
      apply build_ok_inv in Hp
        as (pool & sa & rt & a & atts & n' & _ & _ & Hr & _ & _ & _ & Hrt & _).
      rewrite header_loop_closed, Hnone in Hr. cbn [fst option_map] in Hr.
      congruence.
Qed.

End ReplyToAlone.

(** ** The further properties on sample messages *)

Lemma reply_to_list_of_several_witness :
  Sample.build Demo.several_reply_to
  = (mkWorld Demo.several_reply_to 0, Raise TooManyReplyTo).
Proof.
  assert (2 <= List.length ["a@x.com"; "b@x.com"]) as Hlen by (cbn; lia).
  destruct (reply_to_list_of_several Sample.parseaddr Sample.Email
              Sample.guess_extension Sample.uuid4_hex Sample.backend
              Demo.several_reply_to 0 ["a@x.com"; "b@x.com"] eq_refl Hlen
              eq_refl eq_refl)
    as [Hnone _].
  exact (Hnone eq_refl).
Defined.

Lemma send_at_passthrough_witness :
  Sample.build Demo.bad_send_at
  = (mkWorld Demo.bad_send_at 0, Raise InvalidSendAt)
  /\ exists p pz,
      snd (Sample.build Demo.full_message) = Ok p
      /\ personalizations p = [pz]
      /\ p_send_at pz = Some (PyInt 1700000000).
Proof.
  split.
  - destruct (send_at_passthrough Sample.parseaddr Sample.Email
                Sample.guess_extension Sample.uuid4_hex Sample.backend
                Demo.bad_send_at 0 (PyStr "tomorrow") eq_refl eq_refl)
      as [Hbad _].
    exact (Hbad eq_refl).
  - assert (exists p, snd (Sample.build Demo.full_message) = Ok p) as [p Hp]
        by (eexists; vm_compute; reflexivity).
    destruct (send_at_passthrough Sample.parseaddr Sample.Email
                Sample.guess_extension Sample.uuid4_hex Sample.backend
                Demo.full_message 0 (PyInt 1700000000) eq_refl eq_refl)
      as [_ Hgood].
    destruct (Hgood eq_refl) as [_ Hpz].
    destruct (Hpz p Hp) as (pz & H1 & H2).
    now exists p, pz.
Defined.

Lemma asm_group_id_witness :
  (snd (Sample.build Demo.asm_without_group) = Raise MissingSubscriptionGroup
   /\ body (w_msg (fst (Sample.build Demo.asm_without_group))) = " ")
  /\ exists p,
      snd (Sample.build Demo.full_message) = Ok p
      /\ m_asm p = Some (mkASM (PyInt 7) None).
Proof.
  split.
  - destruct (asm_group_id Sample.parseaddr Sample.Email
                Sample.guess_extension Sample.uuid4_hex Sample.backend
                Demo.asm_without_group 0
                [("groups_to_display", PyList [PyInt 1; PyInt 2])] eq_refl)
      as [Hbad _].
    destruct (Hbad eq_refl eq_refl eq_refl eq_refl) as [H1 H2].
    split; [exact H1|exact (f_equal body H2)].
  - assert (exists p, snd (Sample.build Demo.full_message) = Ok p) as [p Hp]
        by (eexists; vm_compute; reflexivity).
    destruct (asm_group_id Sample.parseaddr Sample.Email
                Sample.guess_extension Sample.uuid4_hex Sample.backend
                Demo.full_message 0 [("group_id", PyInt 7)] eq_refl)
      as [_ Hgood].
    exists p. split; [exact Hp|]. exact (Hgood (PyInt 7) eq_refl p Hp).
Defined.

Lemma value_errors_leave_no_trace_witness :
  Sample.build Sample.reply_differs
  = (mkWorld Sample.reply_differs 0, Raise (ValueError ReplyToMismatch)).
Proof.
  apply (value_errors_leave_no_trace Sample.parseaddr Sample.Email
           Sample.guess_extension Sample.uuid4_hex Sample.backend
           Sample.reply_differs 0 ReplyToMismatch).
  vm_compute. reflexivity.
Defined.

Lemma one_personalization_with_all_recipients_witness :
  exists p pz,
    snd (Sample.build Demo.full_message) = Ok p
    /\ personalizations p = [pz]
    /\ List.length (tos pz) = 2
    /\ List.length (ccs pz) = 1
    /\ bccs pz = [].
Proof.
  assert (exists p, snd (Sample.build Demo.full_message) = Ok p) as [p Hp]
      by (eexists; vm_compute; reflexivity).
  destruct (one_personalization_with_all_recipients Sample.parseaddr
              Sample.Email Sample.guess_extension Sample.uuid4_hex
              Sample.backend Demo.full_message 0 p Hp)
    as (_ & _ & pz & Hpz & _ & _ & _ & Hb & Hlt & Hlc & _).
  exists p, pz. repeat split; assumption.
Defined.

Lemma template_fields_need_a_template_id_witness :
  exists p pz,
    snd (Sample.build Demo.full_message) = Ok p
    /\ personalizations p = [pz]
    /\ substitutions Demo.full_message = Some [("%name%", PyStr "John")]
    /\ p_substitutions pz = []
    /\ p_dynamic_template_data pz = None.
Proof.
  assert (exists p, snd (Sample.build Demo.full_message) = Ok p) as [p Hp]
      by (eexists; vm_compute; reflexivity).
  destruct (template_fields_need_a_template_id Sample.parseaddr
              Sample.Email Sample.guess_extension Sample.uuid4_hex
              Sample.backend Demo.full_message 0 p Hp)
    as (pz & Hpz & _ & Hnone & _).
  destruct (Hnone eq_refl) as [Hs Hd].
  exists p, pz. repeat split; assumption.
Defined.

Lemma reply_to_field_alone_witness :
  exists p,
    snd (Sample.build Demo.full_message) = Ok p
    /\ m_reply_to p = Some (mkEmail (Some "a@x.com") None).
Proof.
  assert (exists p, snd (Sample.build Demo.full_message) = Ok p) as [p Hp]
      by (eexists; vm_compute; reflexivity).
  destruct (reply_to_field_alone Sample.parseaddr Sample.Email
              Sample.guess_extension Sample.uuid4_hex Sample.backend
              Demo.full_message 0 (AddrList ["a@x.com"])
              eq_refl eq_refl eq_refl) as [_ Hone].
  destruct (Hone eq_refl) as [_ Hid].
  exists p. split; [exact Hp|exact (Hid p Hp)].
Defined.

Lemma content_id_of_attachments_witness :
  (exists p a b c,
      snd (Sample.build Demo.full_message) = Ok p
      /\ m_attachments p = [a; b; c]
      /\ content_id a = Some "logo" /\ disposition a = Some "inline"
      /\ content_id b = None /\ disposition b = None
      /\ content_id c = Some "" /\ disposition c = Some "inline")
  /\ stripped_content_id "<logo>" = "logo".
Proof.
  destruct (content_id_of_attachments Sample.parseaddr Sample.Email
              Sample.guess_extension Sample.uuid4_hex Sample.backend)
    as (Hall & Hstrip & _).
  split; [|exact (Hstrip "logo")].
  assert (exists p, snd (Sample.build Demo.full_message) = Ok p
                    /\ exists a b c, m_attachments p = [a; b; c])
    as (p & Hp & a & b & c & Hatts).
  { eexists. split; [vm_compute; reflexivity|].
    eexists. eexists. eexists. reflexivity. }
  specialize (Hall Demo.full_message 0 p Hp).
  rewrite Hatts in Hall.
  cbn [attachments Demo.full_message] in Hall.
  apply Forall2_cons_iff in Hall as [[Ha1 Ha2] Hall].
  apply Forall2_cons_iff in Hall as [[Hb1 Hb2] Hall].
  apply Forall2_cons_iff in Hall as [[Hc1 Hc2] _].
  exists p, a, b, c. repeat split; assumption.
Defined.

Lemma structured_content_has_no_newline_witness :
  exists p a b c,
    snd (Sample.build Demo.full_message) = Ok p
    /\ m_attachments p = [a; b; c]
    /\ content a = Some "iVBORw0K"
    /\ exists text, content a = Some text /\ ~ In Text.newline (chars text).
Proof.
  assert (exists p, snd (Sample.build Demo.full_message) = Ok p
                    /\ exists a b c,
                      m_attachments p = [a; b; c]
                      /\ content a = Some "iVBORw0K")
    as (p & Hp & a & b & c & Hatts & Hc).
  { eexists. split; [vm_compute; reflexivity|].
    eexists. eexists. eexists. split; reflexivity. }
  pose proof (structured_content_has_no_newline Sample.parseaddr Sample.Email
                Sample.guess_extension Sample.uuid4_hex Sample.backend
                Demo.full_message 0 p Hp) as Hall.
  rewrite Hatts in Hall.
  cbn [attachments Demo.full_message] in Hall.
  apply Forall2_cons_iff in Hall as [(text & Ht & Hno & _) _].
  exists p, a, b, c. repeat split; try assumption.
  exists text. split; assumption.
Defined.

Lemma tuple_content_is_base64_text_witness :
  exists p a b,
    snd (Sample.build Sample.with_two_attachments) = Ok p
    /\ m_attachments p = [a; b]
    /\ exists text,
        content b = Some text
        /\ String.length text = 8
        /\ Forall (fun c => is_b64_char c = true) (chars text).
Proof.
  assert (exists p, snd (Sample.build Sample.with_two_attachments) = Ok p
                    /\ exists a b, m_attachments p = [a; b])
    as (p & Hp & a & b & Hatts).
  { eexists. split; [vm_compute; reflexivity|].
    eexists. eexists. reflexivity. }
  pose proof (tuple_content_is_base64_text Sample.parseaddr Sample.Email
                Sample.guess_extension Sample.uuid4_hex Sample.backend
                Sample.with_two_attachments 0 p Hp) as Hall.
  rewrite Hatts in Hall.
  cbn [attachments Sample.with_two_attachments Sample.with_attachments] in Hall.
  apply Forall2_cons_iff in Hall as [_ Hall].
  apply Forall2_cons_iff in Hall as [(text & Ht & Hlen & Hchars & _) _].
  exists p, a, b. repeat split; try assumption.
  exists text. repeat split; assumption.
Defined.

Lemma synthesized_filenames_differ_witness :
  exists p a b c,
    snd (Sample.build Demo.full_message) = Ok p
    /\ m_attachments p = [a; b; c]
    /\ w_drawn (fst (Sample.build Demo.full_message)) = 2
    /\ filename a <> filename c.
Proof.
  assert (exists p, snd (Sample.build Demo.full_message) = Ok p
                    /\ exists a b c, m_attachments p = [a; b; c])
    as (p & Hp & a & b & c & Hatts).
  { eexists. split; [vm_compute; reflexivity|].
    eexists. eexists. eexists. reflexivity. }
  destruct (synthesized_filenames_differ Sample.parseaddr Sample.Email
              Sample.guess_extension Sample.uuid4_hex Sample.backend
              Demo.full_message 0 p Hp) as [Hdrawn Hdiff].
  { intros i j _ Hij Hj. change (j < 2) in Hj.
    assert (i = 0) as -> by lia. assert (j = 1) as -> by lia.
    split; [reflexivity|discriminate]. }
  exists p, a, b, c. split; [exact Hp|]. split; [exact Hatts|].
  split; [exact Hdrawn|].
  apply (Hdiff 0 2 (MIMEPart (mkMIMEBase None "image/png" "iVBO
Rw0K
" (Some "<logo>")))
           (MIMEPart (mkMIMEBase (Some "") "text/plain" "aGk=" (Some "<>"))));
    try reflexivity; try lia; now rewrite Hatts.
Defined.

Lemma send_messages_outcomes_witness :
  snd (send_messages Sample.parseaddr Sample.Email Sample.guess_extension
         Sample.uuid4_hex Demo.silent_backend Demo.refuse
         [Sample.message; Sample.reply_differs; Sample.html_message])
  = Raise ReplyToConflict
  /\ snd (send_messages Sample.parseaddr Sample.Email Sample.guess_extension
            Sample.uuid4_hex Sample.backend Demo.refuse
            [Sample.message; Sample.html_message])
     = Raise HTTPError.
Proof.
  split.
  - destruct (send_messages_outcomes Sample.parseaddr Sample.Email
                Sample.guess_extension Sample.uuid4_hex Demo.silent_backend
                Demo.refuse
                [Sample.message; Sample.reply_differs; Sample.html_message])
      as (_ & _ & _ & Hreject).
    destruct (Hreject [Sample.message] Sample.reply_differs
                [Sample.html_message] ReplyToConflict eq_refl) as [H _].
    + repeat constructor.
    + reflexivity.
    + intros n. reflexivity.
    + exact H.
  - destruct (send_messages_outcomes Sample.parseaddr Sample.Email
                Sample.guess_extension Sample.uuid4_hex Sample.backend
                Demo.refuse [Sample.message; Sample.html_message])
      as (_ & _ & Hrefuse & _).
    apply (Hrefuse [] Sample.message [Sample.html_message] eq_refl).
    + constructor.
    + repeat constructor.
    + reflexivity.
    + intros n data Hn. cbn in Hn. lia.
    + intros data. reflexivity.
Defined.

Lemma send_messages_counts_every_accepted_message_witness :
  snd (Sample.send [Sample.message; Sample.html_message]) = Ok 2.
Proof.
  destruct (send_messages_counts_every_accepted_message Sample.parseaddr
              Sample.Email Sample.guess_extension Sample.uuid4_hex
              Sample.backend Sample.post
              [Sample.message; Sample.html_message]) as [Hcount _].
  - repeat constructor.
  - intros n data. discriminate.
  - exact Hcount.
Defined.

Lemma refused_messages_get_no_status_witness :
  send_messages Sample.parseaddr Sample.Email Sample.guess_extension
    Sample.uuid4_hex Demo.silent_backend Demo.refuse
    [Sample.message; Sample.html_message]
  = ([Sample.message; Sample.html_message], Ok 0).
Proof.
  destruct (refused_messages_get_no_status Sample.parseaddr Sample.Email
              Sample.guess_extension Sample.uuid4_hex Demo.silent_backend
              Demo.refuse [Sample.message; Sample.html_message])
    as [Hcount _].
  - repeat constructor.
  - reflexivity.
  - reflexivity.
  - apply injective_projections; [reflexivity|exact Hcount].
Defined.


Lemma record_response_lookup_witness :
  dict_get "status"
    (extra_headers (record_response Demo.response Sample.with_reply_to_header))
  = Some (PyInt 202)
  /\ dict_get "X-Mailer"
       (extra_headers (record_response Demo.response Sample.with_reply_to_header))
     = Some (PyStr "django").
Proof.
  destruct (record_response_lookup Demo.response Sample.with_reply_to_header)
    as (Hstatus & _ & Hother & _).
  split; [exact Hstatus|].
  rewrite Hother by discriminate. reflexivity.
Defined.

Lemma recorded_status_is_sent_as_a_header_witness :
  exists p pz,
    snd (Sample.build (record_response Demo.response Sample.message)) = Ok p
    /\ personalizations p = [pz]
    /\ In (mkHeader "status" (PyInt 202)) (headers pz)
    /\ In (mkHeader "message_id" (PyStr "msg-0001")) (headers pz).
Proof.
  assert (exists p,
             snd (Sample.build (record_response Demo.response Sample.message))
             = Ok p) as [p Hp]
      by (eexists; vm_compute; reflexivity).
  destruct (recorded_status_is_sent_as_a_header Sample.parseaddr Sample.Email
              Sample.guess_extension Sample.uuid4_hex Sample.backend
              Demo.response Sample.message 0 p Hp)
    as (pz & Hpz & Hs & Hm).
  exists p, pz. repeat split; try assumption.
  exact (Hm "msg-0001" eq_refl eq_refl).
Defined.

Lemma api_key_resolution_witness :
  __init__ Demo.kwargs Demo.no_key = ImproperlyConfigured
  /\ (exists i, __init__ (mkKwargs (Some (PyStr "")) false false) Demo.no_key
                = Constructed i
                /\ sg_api_key i = PyStr "")
  /\ (exists i, __init__ Demo.kwargs Demo.settings = Constructed i
                /\ sg_api_key i = PyStr "SG.settings-key").
Proof.
  split; [|split].
  - destruct (api_key_resolution Demo.kwargs Demo.no_key) as (_ & _ & Hnone).
    apply (Hnone eq_refl). right. exists (PyStr ""). split; reflexivity.
  - destruct (api_key_resolution (mkKwargs (Some (PyStr "")) false false)
                Demo.no_key) as (Hkw & _).
    exact (Hkw (PyStr "") eq_refl).
  - destruct (api_key_resolution Demo.kwargs Demo.settings) as (_ & Hset & _).
    exact (Hset eq_refl (PyStr "SG.settings-key") eq_refl eq_refl).
Defined.

Lemma settings_reach_the_payload_witness :
  exists i p,
    __init__ Demo.kwargs Demo.settings = Constructed i
    /\ snd (_build_sg_mail Sample.parseaddr Sample.Email Sample.guess_extension
              Sample.uuid4_hex (attributes i) (mkWorld Sample.message 0))
       = Ok p
    /\ sandbox_mode_enable (mail_settings p) = true
    /\ open_tracking (tracking_settings p) = true
    /\ subscription_tracking (tracking_settings p) = false.
Proof.
  assert (exists i, __init__ Demo.kwargs Demo.settings = Constructed i)
    as [i Hi] by (eexists; reflexivity).
  assert (exists p,
             snd (_build_sg_mail Sample.parseaddr Sample.Email
                    Sample.guess_extension Sample.uuid4_hex (attributes i)
                    (mkWorld Sample.message 0)) = Ok p) as [p Hp].
  { injection Hi as <-. eexists. vm_compute. reflexivity. }
  destruct (settings_reach_the_payload Sample.parseaddr Sample.Email
              Sample.guess_extension Sample.uuid4_hex Demo.kwargs
              Demo.settings i Sample.message 0 p Hi Hp)
    as (Hs & _ & _ & Ho & _ & Hsub).
  exists i, p. repeat split; assumption.
Defined.

Lemma echo_format_witness :
  written
    (fst (echo_to_output_stream Demo.render Sample.backend
            [Sample.message; Sample.html_message] [Write "old"]))
  = ("old" ++ "Subject: Hello" ++ String Text.newline separator
       ++ String Text.newline
            ("Subject: Hello" ++ String Text.newline separator
               ++ String Text.newline ""))%string.
Proof.
  destruct (echo_format Demo.render Sample.backend
              [Sample.message; Sample.html_message]
              ["Subject: Hello"; "Subject: Hello"] [Write "old"])
    as (_ & Hw & _).
  - repeat constructor.
  - rewrite Hw. reflexivity.
Defined.

Lemma unrenderable_message_stops_the_echo_witness :
  send_messages_with_stream Sample.parseaddr Sample.Email
    Sample.guess_extension Sample.uuid4_hex Sample.backend Sample.post
    Demo.render (Some [])
    [Sample.message; Demo.bad_message; Sample.html_message]
  = (Some [Write (String.append "Subject: Hello"
                    (String Text.newline EmptyString));
           Write separator;
           Write (String Text.newline EmptyString);
           Flush],
     [Sample.message; Demo.bad_message; Sample.html_message],
     EchoRaised).
Proof.
  destruct (unrenderable_message_stops_the_echo Sample.parseaddr Sample.Email
              Sample.guess_extension Sample.uuid4_hex Sample.backend
              Sample.post Demo.render
              [Sample.message] [Sample.html_message] Demo.bad_message
              ["Subject: Hello"] [])
    as (_ & _ & Hraise).
  - repeat constructor.
  - reflexivity.
  - exact (Hraise eq_refl).
Defined.

Lemma echo_changes_nothing_but_the_stream_witness :
  send_messages_with_stream Sample.parseaddr Sample.Email
    Sample.guess_extension Sample.uuid4_hex Sample.backend Sample.post
    Demo.render None [Sample.message]
  = (None, fst (Sample.send [Sample.message]),
     Sending (snd (Sample.send [Sample.message]))).
Proof.
  destruct (echo_changes_nothing_but_the_stream Sample.parseaddr Sample.Email
              Sample.guess_extension Sample.uuid4_hex Sample.backend
              Sample.post Demo.render [Sample.message] []) as [Hnone _].
  exact Hnone.
Defined.
